(** * POI analytics dashboard: the client of the query engine

    A shallow embedding of the TypeScript front end of the dashboard
    (services/api.ts, components/POIFilters.tsx, POITable.tsx,
    Dashboard.tsx, Analytics.tsx and types/poi.ts) and of the parts of the
    JavaScript runtime these files rely on: strings of UTF-16 code units,
    values with strict equality and truthiness, objects with ordered own
    properties, [Array.prototype.slice], [parseInt] and the
    [URLSearchParams] serializer.

    Numbers.  Every number this program handles on the paths modelled here
    is an integer far inside the range a double represents exactly (page
    indexes, page sizes, DMA codes, counts) or the [NaN] that [parseInt]
    returns; they are modelled as [Z] plus [NaN].  Addition, subtraction,
    [toString] and [parseInt] are those of JavaScript on the safe
    integers, from -(2^53 - 1) to 2^53 - 1 ([Js.isSafeInteger]); beyond
    that range a double rounds and prints in another form, and the
    statements whose content is the arithmetic or the text of a number
    carry the bound as a hypothesis.  Monetary amounts and ratios carried
    by the responses are modelled as rationals. *)

From Stdlib Require Import List ZArith NArith QArith Bool Lia.
From Stdlib Require Import Ascii String DecimalString.
From Stdlib Require Import Permutation DecimalPos.
Import ListNotations.

Local Open Scope Z_scope.

(* ================================================================== *)
(** ** JavaScript strings, numbers and values                          *)
(* ================================================================== *)

Module Js.

(** A string is a sequence of UTF-16 code units; [length] is [.length]. *)
Definition code_unit := N.
Definition JsString := list code_unit.

(** String literals of the source, all ASCII. *)
Definition js (s : string) : JsString :=
  map N_of_ascii (list_ascii_of_string s).

Definition str_eq_dec : forall a b : JsString, {a = b} + {a <> b} :=
  list_eq_dec N.eq_dec.

Definition str_eqb (a b : JsString) : bool :=
  if str_eq_dec a b then true else false.

(** [number]: an integer-valued double, or NaN.  [Int z] stands for the
    double of value [z]; the operations below are exact on the safe
    integers. *)
Inductive number : Type :=
| Int (z : Z)
| NaN.

(** [Number.prototype.toString()] on a safe integer: decimal digits,
    with a leading minus sign for negative values.  (From 2^53 on the
    text of a double may end in zeros that are not digits of its value,
    and from 10^21 on it takes the exponent form; not modelled.) *)
Definition Z_toString (z : Z) : JsString :=
  js (NilZero.string_of_int (Z.to_int z)).

Definition number_toString (n : number) : JsString :=
  match n with
  | Int z => Z_toString z
  | NaN => js "NaN"
  end.

(** [a + b] and [a - b] on numbers: exact when the operands and the
    result are safe integers (a double rounds the result from 2^53
    on). *)
Definition num_add (a b : number) : number :=
  match a, b with
  | Int x, Int y => Int (x + y)
  | _, _ => NaN
  end.

Definition num_sub (a b : number) : number :=
  match a, b with
  | Int x, Int y => Int (x - y)
  | _, _ => NaN
  end.

(** The values that flow through the filter object and the table cells. *)
Inductive Value : Type :=
| VUndefined
| VNull
| VBool (b : bool)
| VNumber (n : number)
| VString (s : JsString).

(** Strict equality [a === b]: no coercion between types, NaN differs
    from itself. *)
Definition strict_eq (a b : Value) : bool :=
  match a, b with
  | VUndefined, VUndefined => true
  | VNull, VNull => true
  | VBool x, VBool y => Bool.eqb x y
  | VNumber (Int x), VNumber (Int y) => Z.eqb x y
  | VString x, VString y => str_eqb x y
  | _, _ => false
  end.

Definition strict_neq (a b : Value) : bool := negb (strict_eq a b).

(** [value.toString()] for the values on which the source calls it (the
    call throws on undefined and null, which the source guards against;
    the model returns the text of [String(value)] there). *)
Definition toString (v : Value) : JsString :=
  match v with
  | VUndefined => js "undefined"
  | VNull => js "null"
  | VBool true => js "true"
  | VBool false => js "false"
  | VNumber n => number_toString n
  | VString s => s
  end.

(** ToBoolean. *)
Definition truthy (v : Value) : bool :=
  match v with
  | VUndefined => false
  | VNull => false
  | VBool b => b
  | VNumber (Int z) => negb (Z.eqb z 0)
  | VNumber NaN => false
  | VString s => negb (Nat.eqb (List.length s) 0)
  end.

(** [a || b]. *)
Definition or_else (a b : Value) : Value :=
  if truthy a then a else b.

(** [Array.prototype.slice(start, end)] on an array of length [len]:
    a negative index counts from the end, both indexes are clamped to
    [0, len], and the elements from the first index up to, not
    including, the second are copied. *)
Definition relative_index (len i : Z) : Z :=
  if i <? 0 then Z.max (len + i) 0 else Z.min i len.

Definition slice {A : Type} (xs : list A) (start stop : Z) : list A :=
  let len := Z.of_nat (List.length xs) in
  let k := relative_index len start in
  let final := relative_index len stop in
  let count := Z.max (final - k) 0 in
  firstn (Z.to_nat count) (skipn (Z.to_nat k) xs).

(** [parseInt(s, 10)]: leading white space is skipped, an optional sign
    is read, then the longest run of decimal digits; NaN when there is
    no digit.  The result is the value of the digits, which is what
    [parseInt] returns when that value is a safe integer (a longer run
    of digits is rounded to a double). *)
Definition is_space (c : code_unit) : bool :=
  ((N.leb 9 c && N.leb c 13) || N.eqb c 0x20 || N.eqb c 0xA0
   || N.eqb c 0x1680 || (N.leb 0x2000 c && N.leb c 0x200A)
   || N.eqb c 0x2028 || N.eqb c 0x2029 || N.eqb c 0x202F
   || N.eqb c 0x205F || N.eqb c 0x3000 || N.eqb c 0xFEFF)%bool.

Fixpoint skip_spaces (s : JsString) : JsString :=
  match s with
  | c :: r => if is_space c then skip_spaces r else s
  | [] => []
  end.

Definition digit_of (c : code_unit) : option Z :=
  if (N.leb 48 c && N.leb c 57)%bool then Some (Z.of_N c - 48) else None.

Fixpoint digits_value (acc : Z) (s : JsString) : Z :=
  match s with
  | c :: r =>
      match digit_of c with
      | Some d => digits_value (10 * acc + d) r
      | None => acc
      end
  | [] => acc
  end.

Definition parse_digits (s : JsString) : option Z :=
  match s with
  | c :: _ =>
      match digit_of c with
      | Some _ => Some (digits_value 0 s)
      | None => None
      end
  | [] => None
  end.

Definition parseInt10 (s : JsString) : number :=
  match skip_spaces s with
  | c :: r =>
      if N.eqb c 45 then
        match parse_digits r with Some z => Int (- z) | None => NaN end
      else if N.eqb c 43 then
        match parse_digits r with Some z => Int z | None => NaN end
      else
        match parse_digits (c :: r) with Some z => Int z | None => NaN end
  | [] => NaN
  end.

(** [xs[i]]: the element at an index, undefined ([None]) outside the
    array. *)
Definition index {A : Type} (xs : list A) (i : Z) : option A :=
  if i <? 0 then None else nth_error xs (Z.to_nat i).

(** [xs.map((x, i) => f(x, i))]. *)
Fixpoint map_from {A B : Type} (f : A -> Z -> B) (i : Z) (xs : list A)
  : list B :=
  match xs with
  | [] => []
  | x :: r => f x i :: map_from f (i + 1) r
  end.

Definition map_indexed {A B : Type} (f : A -> Z -> B) (xs : list A)
  : list B :=
  map_from f 0 xs.

(** [Number.MAX_SAFE_INTEGER] and [Number.isSafeInteger]: the integers
    on which the arithmetic of doubles is exact. *)
Definition MAX_SAFE_INTEGER : Z := 2 ^ 53 - 1.

Definition isSafeInteger (z : Z) : bool :=
  (- MAX_SAFE_INTEGER <=? z) && (z <=? MAX_SAFE_INTEGER).

(** The numbers and values whose text the model gives exactly: NaN and
    the safe integers; every value that is not a number. *)
Definition exact_number (n : number) : bool :=
  match n with
  | Int z => isSafeInteger z
  | NaN => true
  end.

Definition exact_value (v : Value) : bool :=
  match v with
  | VNumber n => exact_number n
  | _ => true
  end.

End Js.

(* ================================================================== *)
(** ** Objects with ordered own properties                             *)
(* ================================================================== *)

Module Obj.

Section Objects.

Variable K : Type.
Variable keqb : K -> K -> bool.

(** An object is the list of its own enumerable properties in
    insertion order; in a well-formed object no key occurs twice. *)
Definition t := list (K * Js.Value).

Definition empty : t := [].

Definition keys (o : t) : list K := map fst o.

Definition wf (o : t) : Prop := NoDup (keys o).

(** [Object.entries(o)]. *)
Definition entries (o : t) : list (K * Js.Value) := o.

(** [{ ...o }]: a fresh object with the same properties in the same
    order. *)
Definition spread (o : t) : t := o.

(** [o[k]]; undefined when [k] is not an own property. *)
Fixpoint get (k : K) (o : t) : Js.Value :=
  match o with
  | [] => Js.VUndefined
  | (k', v) :: r => if keqb k' k then v else get k r
  end.

Fixpoint has (k : K) (o : t) : bool :=
  match o with
  | [] => false
  | (k', _) :: r => if keqb k' k then true else has k r
  end.

(** [delete o[k]]. *)
Fixpoint delete (k : K) (o : t) : t :=
  match o with
  | [] => []
  | (k', v) :: r =>
      if keqb k' k then delete k r else (k', v) :: delete k r
  end.

(** [o[k] = v]: an existing property keeps its place, a new one goes
    last. *)
Fixpoint set (k : K) (v : Js.Value) (o : t) : t :=
  match o with
  | [] => [(k, v)]
  | (k', v') :: r =>
      if keqb k' k then (k', v) :: r else (k', v') :: set k v r
  end.

End Objects.

Arguments empty {K}.
Arguments keys {K} o.
Arguments wf {K} o.
Arguments entries {K} o.
Arguments spread {K} o.
Arguments get {K} keqb k o.
Arguments has {K} keqb k o.
Arguments delete {K} keqb k o.
Arguments set {K} keqb k v o.

End Obj.

(* ================================================================== *)
(** ** URLSearchParams                                                 *)
(* ================================================================== *)

Module URLSearchParams.

Import Js.

Local Open Scope N_scope.

(** The list of name-value pairs of the object. *)
Definition t := list (JsString * JsString).

(** [new URLSearchParams()]. *)
Definition new : t := [].

(** [params.append(name, value)]. *)
Definition append (p : t) (name value : JsString) : t :=
  p ++ [(name, value)].

(** [params.keys()]: the names, in order. *)
Definition keys (p : t) : list JsString := map fst p.

(** Conversion of a string to scalar values: a surrogate pair is one
    code point, a lone surrogate becomes U+FFFD. *)
Definition is_high_surrogate (c : code_unit) : bool :=
  (0xD800 <=? c) && (c <=? 0xDBFF).

Definition is_low_surrogate (c : code_unit) : bool :=
  (0xDC00 <=? c) && (c <=? 0xDFFF).

Fixpoint code_points (s : JsString) : list N :=
  match s with
  | [] => []
  | a :: tl =>
      if is_high_surrogate a then
        match tl with
        | b :: r =>
            if is_low_surrogate b then
              (0x10000 + N.shiftl (a - 0xD800) 10 + (b - 0xDC00))
                :: code_points r
            else 0xFFFD :: code_points tl
        | [] => [0xFFFD]
        end
      else if is_low_surrogate a then 0xFFFD :: code_points tl
      else a :: code_points tl
  end.

(** UTF-8 bytes of a code point. *)
Definition continuation (cp : N) (shift : N) : N :=
  N.lor 0x80 (N.land (N.shiftr cp shift) 0x3F).

Definition utf8_encode (cp : N) : list N :=
  if cp <? 0x80 then [cp]
  else if cp <? 0x800 then
    [N.lor 0xC0 (N.shiftr cp 6); continuation cp 0]
  else if cp <? 0x10000 then
    [N.lor 0xE0 (N.shiftr cp 12); continuation cp 6; continuation cp 0]
  else
    [N.lor 0xF0 (N.shiftr cp 18); continuation cp 12; continuation cp 6;
     continuation cp 0].

(** The bytes the application/x-www-form-urlencoded serializer leaves
    as they are: ASCII letters and digits, and the four characters
    [*], [-], [.] and [_]. *)
Definition unreserved (b : N) : bool :=
  ((0x30 <=? b) && (b <=? 0x39))
  || ((0x41 <=? b) && (b <=? 0x5A))
  || ((0x61 <=? b) && (b <=? 0x7A))
  || (b =? 0x2A) || (b =? 0x2D) || (b =? 0x2E) || (b =? 0x5F).

Definition hex_digit (d : N) : code_unit :=
  if d <? 10 then 0x30 + d else 0x37 + d.

Definition encode_byte (b : N) : JsString :=
  if unreserved b then [b]
  else if b =? 0x20 then [0x2B]
  else [0x25; hex_digit (N.shiftr b 4); hex_digit (N.land b 0xF)].

Definition encode (s : JsString) : JsString :=
  flat_map encode_byte (flat_map utf8_encode (code_points s)).

Definition encode_pair (nv : JsString * JsString) : JsString :=
  encode (fst nv) ++ [0x3D] ++ encode (snd nv).

(** [params.toString()]: the pairs as [name=value], joined by [&]. *)
Fixpoint toString (p : t) : JsString :=
  match p with
  | [] => []
  | [nv] => encode_pair nv
  | nv :: r => encode_pair nv ++ [0x26] ++ toString r
  end.

End URLSearchParams.

(* ================================================================== *)
(** ** types/poi.ts and the row types of Analytics.tsx                 *)
(* ================================================================== *)

(** The responses are parsed from JSON: their integer fields are
    integers, a nullable field is an [option]. *)

Module POI.

Record t : Type := {
  entity_id : Js.JsString;
  name : Js.JsString;
  chain_name : Js.JsString;
  sub_category : Js.JsString;
  dma : option Z;
  city : Js.JsString;
  state_name : Js.JsString;
  foot_traffic : Z;
  is_open : bool;
  sales : Q;
  avg_dwell_time_min : Q;
  area_sqft : Q;
  ft_per_sqft : Q;
  street_address : Js.JsString;
  postal_code : Js.JsString;
  date_opened : option Js.JsString;
  date_closed : option Js.JsString
}.

End POI.

Module PaginatedPOIResponse.

Record t : Type := {
  items : list POI.t;
  total : Z;
  page : Z;
  limit : Z;
  total_pages : Z
}.

End PaginatedPOIResponse.

Module SummaryStats.

Record t : Type := {
  total_venues : Z;
  total_foot_traffic : Z;
  total_sales : Q;
  avg_dwell_time : Q;
  open_venues : Z;
  closed_venues : Z;
  unique_chains : Z;
  unique_dmas : Z
}.

End SummaryStats.

Module ChainPerformance.

Record t : Type := {
  chain_name : Js.JsString;
  total_venues : Z;
  total_foot_traffic : Z;
  total_sales : Q;
  avg_sales_per_visitor : Q;
  open_venues : Z;
  closed_venues : Z
}.

End ChainPerformance.

Module DMADistribution.

Record t : Type := {
  dma : Z;
  venue_count : Z;
  total_foot_traffic : Z;
  total_sales : Q;
  unique_chains : Z
}.

End DMADistribution.

Module Filters.

(** [keyof Filters]. *)
Inductive key : Type :=
| chain_name
| dma
| sub_category
| city
| state_code
| is_open
| search.

Definition key_eqb (a b : key) : bool :=
  match a, b with
  | chain_name, chain_name => true
  | dma, dma => true
  | sub_category, sub_category => true
  | city, city => true
  | state_code, state_code => true
  | is_open, is_open => true
  | search, search => true
  | _, _ => false
  end.

(** The property name of a key. *)
Definition key_name (k : key) : Js.JsString :=
  match k with
  | chain_name => Js.js "chain_name"
  | dma => Js.js "dma"
  | sub_category => Js.js "sub_category"
  | city => Js.js "city"
  | state_code => Js.js "state_code"
  | is_open => Js.js "is_open"
  | search => Js.js "search"
  end.

(** A filter object: every key is optional, and a present key may hold
    any value (the update logic receives [any]). *)
Definition t := Obj.t key.

Definition get (k : key) (f : t) : Js.Value := Obj.get key_eqb k f.
Definition has (k : key) (f : t) : bool := Obj.has key_eqb k f.
Definition delete (k : key) (f : t) : t := Obj.delete key_eqb k f.
Definition set (k : key) (v : Js.Value) (f : t) : t := Obj.set key_eqb k v f.

End Filters.

(* ================================================================== *)
(** ** Application state and the monad of event handlers               *)
(* ================================================================== *)

Module UI.

Import Js.

(** What the server answers to a GET request, per endpoint; [None] is a
    failed request (a rejected promise, or a response that is not ok). *)
Record Server : Type := {
  pois : JsString -> option PaginatedPOIResponse.t;
  summary : JsString -> option SummaryStats.t;
  autocomplete : JsString -> option (list JsString);
  chain_performance : JsString -> option (list ChainPerformance.t);
  dma_distribution : JsString -> option (list DMADistribution.t)
}.

(** State of the Dashboard component ([useState] cells). *)
Record Dashboard : Type := {
  poiData : option PaginatedPOIResponse.t;
  summaryStats : option SummaryStats.t;
  filters : Filters.t;
  page : number;
  rowsPerPage : number;
  loading : bool;
  statsLoading : bool;
  error : option JsString
}.

(** State of the POIFilters component. *)
Record POIFilters : Type := {
  autocompleteOptions : list JsString;
  searchValue : JsString
}.

(** State of the Analytics component. *)
Record Analytics : Type := {
  chainData : list ChainPerformance.t;
  dmaData : list DMADistribution.t;
  analyticsLoading : bool;
  analyticsError : option JsString
}.

(** The whole application: the component states, the server, and the
    URLs of the requests sent so far, oldest first. *)
Record App : Type := {
  dashboard : Dashboard;
  poiFilters : POIFilters;
  analytics : Analytics;
  server : Server;
  requests : list JsString
}.

(** A handler runs on the current state and leaves the next one; the
    state updates of one handler are applied together before the next
    render. *)
Definition M (A : Type) : Type := App -> A * App.

Definition ret {A : Type} (a : A) : M A := fun s => (a, s).

Definition bind {A B : Type} (m : M A) (k : A -> M B) : M B :=
  fun s => let (a, s') := m s in k a s'.

Definition exec {A : Type} (m : M A) (s : App) : App := snd (m s).

Definition with_dashboard (f : Dashboard -> Dashboard) : M unit :=
  fun s => (tt, {| dashboard := f (dashboard s);
                   poiFilters := poiFilters s;
                   analytics := analytics s;
                   server := server s;
                   requests := requests s |}).

Definition with_poiFilters (f : POIFilters -> POIFilters) : M unit :=
  fun s => (tt, {| dashboard := dashboard s;
                   poiFilters := f (poiFilters s);
                   analytics := analytics s;
                   server := server s;
                   requests := requests s |}).

Definition with_analytics (f : Analytics -> Analytics) : M unit :=
  fun s => (tt, {| dashboard := dashboard s;
                   poiFilters := poiFilters s;
                   analytics := f (analytics s);
                   server := server s;
                   requests := requests s |}).

(** A GET request: the URL is recorded and the server's answer for the
    endpoint is returned. *)
Definition http_get {A : Type} (endpoint : Server -> JsString -> option A)
    (url : JsString) : M (option A) :=
  fun s => (endpoint (server s) url,
            {| dashboard := dashboard s;
               poiFilters := poiFilters s;
               analytics := analytics s;
               server := server s;
               requests := requests s ++ [url] |}).

(** The requests a handler sends when run from state [s]. *)
Definition sent {A : Type} (m : M A) (s : App) : list JsString :=
  skipn (List.length (requests s)) (requests (exec m s)).

End UI.

Declare Scope ui_scope.
Delimit Scope ui_scope with ui.
Notation "x <- c ;; k" := (UI.bind c (fun x => k))
  (at level 61, c at next level, right associativity) : ui_scope.
Notation "c ;; k" := (UI.bind c (fun _ => k))
  (at level 61, right associativity) : ui_scope.

(* ================================================================== *)
(** ** services/api.ts                                                 *)
(* ================================================================== *)

Module Api.

Import Js.
Local Open Scope ui_scope.

(** The loop both request builders run over the filter object:
    [Object.entries(filters).forEach(([key, value]) => { if (value !==
    undefined && value !== null && value !== '') params.append(key,
    value.toString()) })]. *)
Definition present (value : Value) : bool :=
  strict_neq value VUndefined && strict_neq value VNull
  && strict_neq value (VString (js "")).

Definition appendFilters (params : URLSearchParams.t) (filters : Filters.t)
  : URLSearchParams.t :=
  fold_left
    (fun params kv =>
       let '(key, value) := kv in
       if present value then
         URLSearchParams.append params (Filters.key_name key) (toString value)
       else params)
    (Obj.entries filters) params.

(** The pairs the loop adds, in closed form: one per entry whose value
    is present, in the order of the entries ([appendFilters_eq]
    below). *)
Definition sent_pairs (filters : Filters.t) : URLSearchParams.t :=
  map (fun kv => (Filters.key_name (fst kv), toString (snd kv)))
      (filter (fun kv => present (snd kv)) filters).

(** The parameters [getPOIs] builds (its callers pass all three
    arguments, so the defaults 1, 20 and the empty object never
    apply). *)
Definition getPOIs_params (page limit : number) (filters : Filters.t)
  : URLSearchParams.t :=
  let params := URLSearchParams.new in
  let params := URLSearchParams.append params (js "page") (number_toString page) in
  let params := URLSearchParams.append params (js "limit") (number_toString limit) in
  appendFilters params filters.

Definition getPOIs_url (page limit : number) (filters : Filters.t) : JsString :=
  js "/api/v1/pois?" ++ URLSearchParams.toString (getPOIs_params page limit filters).

Definition getPOIs (page limit : number) (filters : Filters.t)
  : UI.M (option PaginatedPOIResponse.t) :=
  UI.http_get UI.pois (getPOIs_url page limit filters).

Definition getSummaryStats_params (filters : Filters.t) : URLSearchParams.t :=
  let params := URLSearchParams.new in
  appendFilters params filters.

Definition getSummaryStats_url (filters : Filters.t) : JsString :=
  js "/api/v1/pois/summary?" ++ URLSearchParams.toString (getSummaryStats_params filters).

Definition getSummaryStats (filters : Filters.t)
  : UI.M (option SummaryStats.t) :=
  UI.http_get UI.summary (getSummaryStats_url filters).

(** [getAutocomplete(query, field?)]; [if (field)] holds for a field
    that is given and not empty. *)
Definition getAutocomplete_url (query : JsString) (field : option JsString)
  : JsString :=
  let params := URLSearchParams.new in
  let params := URLSearchParams.append params (js "query") query in
  let params :=
    match field with
    | Some f =>
        if truthy (VString f) then URLSearchParams.append params (js "field") f
        else params
    | None => params
    end in
  js "/api/v1/pois/autocomplete?" ++ URLSearchParams.toString params.

Definition getAutocomplete (query : JsString) (field : option JsString)
  : UI.M (option (list JsString)) :=
  UI.http_get UI.autocomplete (getAutocomplete_url query field).

End Api.

(* ================================================================== *)
(** ** components/POIFilters.tsx                                       *)
(* ================================================================== *)

Module POIFilters.

Import Js.
Local Open Scope ui_scope.

(** The props the handlers use. *)
Record Props : Type := {
  filters : Filters.t;
  onFiltersChange : Filters.t -> UI.M unit
}.

Definition setAutocompleteOptions (v : list JsString) : UI.M unit :=
  UI.with_poiFilters (fun st =>
    {| UI.autocompleteOptions := v; UI.searchValue := UI.searchValue st |}).

Definition setSearchValue (v : JsString) : UI.M unit :=
  UI.with_poiFilters (fun st =>
    {| UI.autocompleteOptions := UI.autocompleteOptions st; UI.searchValue := v |}).

(** The filter object [handleFilterChange] hands to [onFiltersChange]. *)
Definition newFilters (filters : Filters.t) (key : Filters.key) (value : Value)
  : Filters.t :=
  let newFilters := Obj.spread filters in
  if strict_eq value (VString (js "")) || strict_eq value VNull
     || strict_eq value VUndefined
  then Filters.delete key newFilters
  else Filters.set key value newFilters.

Definition handleFilterChange (props : Props) (key : Filters.key) (value : Value)
  : UI.M unit :=
  onFiltersChange props (newFilters (filters props) key value).

(** [handleSearchChange]; a failed request is only logged to the
    console and leaves the options as they were. *)
Definition handleSearchChange (value : JsString) : UI.M unit :=
  setSearchValue value ;;
  if (2 <=? List.length value)%nat then
    r <- Api.getAutocomplete value None ;;
    match r with
    | Some suggestions => setAutocompleteOptions suggestions
    | None => UI.ret tt
    end
  else setAutocompleteOptions [].

Definition handleSearchSubmit (props : Props) : UI.M unit :=
  s <- (fun st => (UI.searchValue (UI.poiFilters st), st)) ;;
  handleFilterChange props Filters.search (VString s).

Definition clearAllFilters (props : Props) : UI.M unit :=
  setSearchValue (js "") ;;
  onFiltersChange props Obj.empty.

(** The value shown by the Status select.  ([is_open] is a boolean or
    not set in every filter object the handlers produce; on null the
    source would throw where this returns the text of the value.) *)
Definition statusValue (filters : Filters.t) : JsString :=
  if strict_eq (Filters.get Filters.is_open filters) VUndefined then js ""
  else toString (Filters.get Filters.is_open filters).

(** [onChange] of the Status select; [value] is the value of the chosen
    menu item. *)
Definition onStatusChange (props : Props) (value : JsString) : UI.M unit :=
  if strict_eq (VString value) (VString (js "")) then
    handleFilterChange props Filters.is_open VUndefined
  else
    handleFilterChange props Filters.is_open
      (VBool (strict_eq (VString value) (VString (js "true")))).

(** [onDelete] of the chip of an active filter. *)
Definition onChipDelete (props : Props) (key : Filters.key) : UI.M unit :=
  handleFilterChange props key VUndefined.

(** [getActiveFiltersCount]: [Object.keys(filters).length]. *)
Definition getActiveFiltersCount (filters : Filters.t) : Z :=
  Z.of_nat (List.length (Obj.keys filters)).

(** The badge with the number of active filters and the list of chips
    are shown when the count is positive; "Clear All Filters" is
    disabled when it is 0. *)
Definition showsActiveFilters (filters : Filters.t) : bool :=
  0 <? getActiveFiltersCount filters.

Definition clearAllDisabled (filters : Filters.t) : bool :=
  getActiveFiltersCount filters =? 0.

(** The value shown by the select (or the city box) of a key:
    [filters.key || '']. *)
Definition selectValue (filters : Filters.t) (key : Filters.key) : Value :=
  or_else (Filters.get key filters) (VString (js "")).

(** The labels of the chips of the active filters, one per entry:
    [`${key}: ${value}`]. *)
Definition chipLabel (kv : Filters.key * Value) : JsString :=
  Filters.key_name (fst kv) ++ js ": " ++ toString (snd kv).

Definition activeFilterChips (filters : Filters.t) : list JsString :=
  map chipLabel (Obj.entries filters).

End POIFilters.

(* ================================================================== *)
(** ** components/POITable.tsx                                         *)
(* ================================================================== *)

Module POITable.

Import Js.
Local Open Scope ui_scope.

Record Props : Type := {
  data : option PaginatedPOIResponse.t;
  loading : bool;
  onPageChange : number -> UI.M unit;
  onRowsPerPageChange : number -> UI.M unit
}.

(** [newPage] is the zero-based index the pagination control reports. *)
Definition handleChangePage (props : Props) (newPage : Z) : UI.M unit :=
  onPageChange props (num_add (Int newPage) (Int 1)).

(** [value] is [event.target.value]. *)
Definition handleChangeRowsPerPage (props : Props) (value : JsString)
  : UI.M unit :=
  onRowsPerPageChange props (parseInt10 value) ;;
  onPageChange props (Int 1).

(** The [page] prop given to the pagination control: [data.page - 1]. *)
Definition tablePaginationPage (data : PaginatedPOIResponse.t) : Z :=
  PaginatedPOIResponse.page data - 1.

(** A number or string child of an element is rendered as its text. *)
Definition render (v : Value) : JsString :=
  match v with
  | VNumber n => number_toString n
  | VString s => s
  | _ => []
  end.

Definition dma_value (poi : POI.t) : Value :=
  match POI.dma poi with
  | Some z => VNumber (Int z)
  | None => VNull
  end.

(** The DMA cell: [{poi.dma || 'N/A'}]. *)
Definition dmaCell (poi : POI.t) : JsString :=
  render (or_else (dma_value poi) (VString (js "N/A"))).

(** What the component returns: the spinner while loading, the "No POI
    data found" box when there is no data or no item, and otherwise
    the table of the items with the pagination control below it. *)
Record Pagination : Type := {
  rowsPerPageOptions : list Z;
  count : Z;
  rowsPerPage : Z;
  page : Z
}.

Inductive View : Type :=
| Spinner
| NoData
| Table (rows : list POI.t) (pagination : Pagination).

Definition view (props : Props) : View :=
  if loading props then Spinner
  else
    match data props with
    | None => NoData
    | Some d =>
        if (List.length (PaginatedPOIResponse.items d) =? 0)%nat then NoData
        else
          Table (PaginatedPOIResponse.items d)
            {| rowsPerPageOptions := [10; 20; 50; 100];
               count := PaginatedPOIResponse.total d;
               rowsPerPage := PaginatedPOIResponse.limit d;
               page := tablePaginationPage d |}
    end.

End POITable.

(* ================================================================== *)
(** ** components/Analytics.tsx                                        *)
(* ================================================================== *)

Module Analytics.

Import Js.
Local Open Scope ui_scope.

Record Props : Type := {
  filters : Filters.t
}.

Definition setChainData (v : list ChainPerformance.t) : UI.M unit :=
  UI.with_analytics (fun st =>
    {| UI.chainData := v; UI.dmaData := UI.dmaData st;
       UI.analyticsLoading := UI.analyticsLoading st;
       UI.analyticsError := UI.analyticsError st |}).

Definition setDMAData (v : list DMADistribution.t) : UI.M unit :=
  UI.with_analytics (fun st =>
    {| UI.chainData := UI.chainData st; UI.dmaData := v;
       UI.analyticsLoading := UI.analyticsLoading st;
       UI.analyticsError := UI.analyticsError st |}).

Definition setLoading (v : bool) : UI.M unit :=
  UI.with_analytics (fun st =>
    {| UI.chainData := UI.chainData st; UI.dmaData := UI.dmaData st;
       UI.analyticsLoading := v;
       UI.analyticsError := UI.analyticsError st |}).

Definition setError (v : option JsString) : UI.M unit :=
  UI.with_analytics (fun st =>
    {| UI.chainData := UI.chainData st; UI.dmaData := UI.dmaData st;
       UI.analyticsLoading := UI.analyticsLoading st;
       UI.analyticsError := v |}).

Definition chain_performance_url : JsString :=
  js "/api/v1/pois/analytics/chain-performance".

Definition dma_distribution_url : JsString :=
  js "/api/v1/pois/analytics/dma-distribution".

(** [loadAnalyticsData], run once when the component mounts (the
    effect has an empty dependency list).  Both requests are sent
    before either answer is looked at; when one of them fails the
    error is set and the data is left as it was. *)
Definition loadAnalyticsData (props : Props) : UI.M unit :=
  setLoading true ;;
  setError None ;;
  chainResponse <- UI.http_get UI.chain_performance chain_performance_url ;;
  dmaResponse <- UI.http_get UI.dma_distribution dma_distribution_url ;;
  match chainResponse, dmaResponse with
  | Some chainResult, Some dmaResult =>
      setChainData chainResult ;;
      setDMAData dmaResult
  | _, _ => setError (Some (js "Failed to load analytics data"))
  end ;;
  setLoading false.

(** [useEffect(() => { loadAnalyticsData() }, [])]: the effect runs
    on the first render and on no later one, whatever the props of the
    earlier render ([prev]) and of this one. *)
Definition effect (prev : option Props) (props : Props) : UI.M unit :=
  match prev with
  | None => loadAnalyticsData props
  | Some _ => UI.ret tt
  end.

(** The [data] of the three charts. *)
Definition chainPerformanceChartData (chainData : list ChainPerformance.t)
  : list ChainPerformance.t :=
  slice chainData 0 10.

Definition dmaPieData (dmaData : list DMADistribution.t)
  : list DMADistribution.t :=
  slice dmaData 0 7.

Definition salesPerVisitorChartData (chainData : list ChainPerformance.t)
  : list ChainPerformance.t :=
  slice chainData 0 8.

Definition COLORS : list JsString :=
  [js "#0088FE"; js "#00C49F"; js "#FFBB28"; js "#FF8042"; js "#8884d8";
   js "#82ca9d"; js "#ffc658"].

(** The fill of each cell of the pie:
    [dmaData.slice(0, 7).map((entry, index) => COLORS[index %
    COLORS.length])]; [None] would be an undefined fill. *)
Definition pieCellFills (dmaData : list DMADistribution.t)
  : list (option JsString) :=
  map_indexed
    (fun _ index =>
       Js.index COLORS (Z.rem index (Z.of_nat (List.length COLORS))))
    (slice dmaData 0 7).

End Analytics.

(* ================================================================== *)
(** ** components/Dashboard.tsx                                        *)
(* ================================================================== *)

Module Dashboard.

Import Js.
Local Open Scope ui_scope.

Definition initial : UI.Dashboard :=
  {| UI.poiData := None; UI.summaryStats := None; UI.filters := Obj.empty;
     UI.page := Int 1; UI.rowsPerPage := Int 20; UI.loading := false;
     UI.statsLoading := false; UI.error := None |}.

Definition state : UI.M UI.Dashboard :=
  fun s => (UI.dashboard s, s).

Definition setPOIData (v : option PaginatedPOIResponse.t) : UI.M unit :=
  UI.with_dashboard (fun st =>
    {| UI.poiData := v; UI.summaryStats := UI.summaryStats st;
       UI.filters := UI.filters st; UI.page := UI.page st;
       UI.rowsPerPage := UI.rowsPerPage st; UI.loading := UI.loading st;
       UI.statsLoading := UI.statsLoading st; UI.error := UI.error st |}).

Definition setSummaryStats (v : option SummaryStats.t) : UI.M unit :=
  UI.with_dashboard (fun st =>
    {| UI.poiData := UI.poiData st; UI.summaryStats := v;
       UI.filters := UI.filters st; UI.page := UI.page st;
       UI.rowsPerPage := UI.rowsPerPage st; UI.loading := UI.loading st;
       UI.statsLoading := UI.statsLoading st; UI.error := UI.error st |}).

Definition setFilters (v : Filters.t) : UI.M unit :=
  UI.with_dashboard (fun st =>
    {| UI.poiData := UI.poiData st; UI.summaryStats := UI.summaryStats st;
       UI.filters := v; UI.page := UI.page st;
       UI.rowsPerPage := UI.rowsPerPage st; UI.loading := UI.loading st;
       UI.statsLoading := UI.statsLoading st; UI.error := UI.error st |}).

Definition setPage (v : number) : UI.M unit :=
  UI.with_dashboard (fun st =>
    {| UI.poiData := UI.poiData st; UI.summaryStats := UI.summaryStats st;
       UI.filters := UI.filters st; UI.page := v;
       UI.rowsPerPage := UI.rowsPerPage st; UI.loading := UI.loading st;
       UI.statsLoading := UI.statsLoading st; UI.error := UI.error st |}).

Definition setRowsPerPage (v : number) : UI.M unit :=
  UI.with_dashboard (fun st =>
    {| UI.poiData := UI.poiData st; UI.summaryStats := UI.summaryStats st;
       UI.filters := UI.filters st; UI.page := UI.page st;
       UI.rowsPerPage := v; UI.loading := UI.loading st;
       UI.statsLoading := UI.statsLoading st; UI.error := UI.error st |}).

Definition setLoading (v : bool) : UI.M unit :=
  UI.with_dashboard (fun st =>
    {| UI.poiData := UI.poiData st; UI.summaryStats := UI.summaryStats st;
       UI.filters := UI.filters st; UI.page := UI.page st;
       UI.rowsPerPage := UI.rowsPerPage st; UI.loading := v;
       UI.statsLoading := UI.statsLoading st; UI.error := UI.error st |}).

Definition setStatsLoading (v : bool) : UI.M unit :=
  UI.with_dashboard (fun st =>
    {| UI.poiData := UI.poiData st; UI.summaryStats := UI.summaryStats st;
       UI.filters := UI.filters st; UI.page := UI.page st;
       UI.rowsPerPage := UI.rowsPerPage st; UI.loading := UI.loading st;
       UI.statsLoading := v; UI.error := UI.error st |}).

Definition setError (v : option JsString) : UI.M unit :=
  UI.with_dashboard (fun st =>
    {| UI.poiData := UI.poiData st; UI.summaryStats := UI.summaryStats st;
       UI.filters := UI.filters st; UI.page := UI.page st;
       UI.rowsPerPage := UI.rowsPerPage st; UI.loading := UI.loading st;
       UI.statsLoading := UI.statsLoading st; UI.error := v |}).

(** [loadPOIData]: the callback depends on [page], [rowsPerPage] and
    [filters], and the effect that runs it fires on the render after
    one of them changed; it reads the three from that render. *)
Definition loadPOIData : UI.M unit :=
  st <- state ;;
  setLoading true ;;
  setError None ;;
  data <- Api.getPOIs (UI.page st) (UI.rowsPerPage st) (UI.filters st) ;;
  match data with
  | Some d => setPOIData (Some d)
  | None => setError (Some (js "Failed to load POI data"))
  end ;;
  setLoading false.

(** [loadPOIData] is asynchronous: it runs up to the [await], other
    handlers and effects may run while the request is pending, and it
    resumes with the answer.  [loadPOIData] above is the run in which
    nothing else happens in between; the two parts are: *)

(** up to the [await]: the flags are set and the request is sent; the
    result is the answer that will arrive; *)
Definition loadPOIData_request : UI.M (option PaginatedPOIResponse.t) :=
  st <- state ;;
  setLoading true ;;
  setError None ;;
  Api.getPOIs (UI.page st) (UI.rowsPerPage st) (UI.filters st).

(** after the [await], with the answer, on the state of that moment. *)
Definition loadPOIData_settle (data : option PaginatedPOIResponse.t)
  : UI.M unit :=
  match data with
  | Some d => setPOIData (Some d)
  | None => setError (Some (js "Failed to load POI data"))
  end ;;
  setLoading false.

Definition loadSummaryStats : UI.M unit :=
  st <- state ;;
  setStatsLoading true ;;
  stats <- Api.getSummaryStats (UI.filters st) ;;
  match stats with
  | Some v => setSummaryStats (Some v)
  | None => setError (Some (js "Failed to load summary statistics"))
  end ;;
  setStatsLoading false.

Definition handleFiltersChange (newFilters : Filters.t) : UI.M unit :=
  setFilters newFilters ;;
  setPage (Int 1).

Definition handlePageChange (newPage : number) : UI.M unit :=
  setPage newPage.

Definition handleRowsPerPageChange (newRowsPerPage : number) : UI.M unit :=
  setRowsPerPage newRowsPerPage ;;
  setPage (Int 1).

(** The props the Dashboard gives its children when it renders in
    state [st]. *)
Definition poiFiltersProps (st : UI.Dashboard) : POIFilters.Props :=
  {| POIFilters.filters := UI.filters st;
     POIFilters.onFiltersChange := handleFiltersChange |}.

Definition poiTableProps (st : UI.Dashboard) : POITable.Props :=
  {| POITable.data := UI.poiData st;
     POITable.loading := UI.loading st;
     POITable.onPageChange := handlePageChange;
     POITable.onRowsPerPageChange := handleRowsPerPageChange |}.

Definition analyticsProps (st : UI.Dashboard) : Analytics.Props :=
  {| Analytics.filters := UI.filters st |}.

End Dashboard.

(* ================================================================== *)
(** ** The events of the rendered application                          *)
(* ================================================================== *)

Module App.

Import Js.

(** The events of the filter panel and of the table, each with what
    the control reports. *)
Inductive Event : Type :=
| FilterSelect (key : Filters.key) (value : Value)
| SearchInput (value : JsString)
| SearchSubmit
| ClearSearch
| ClearAllFilters
| StatusSelect (choice : JsString)
| ChipDelete (key : Filters.key)
| ChangePage (newPage : Z)
| ChangeRowsPerPage (value : JsString).

(** The handler an event runs; the children hold the props of the
    render of the current state.  Only the handlers are modelled here:
    the effect of the filter panel that copies [filters.search] into
    the search box after a render, and the load of the filter options
    when the Dashboard mounts, are not; neither writes the filters, the
    page or the page size (the second can store the error message
    'Failed to load filter options'). *)
Definition handle (ev : Event) : UI.M unit :=
  fun st =>
    let filtersProps := Dashboard.poiFiltersProps (UI.dashboard st) in
    let tableProps := Dashboard.poiTableProps (UI.dashboard st) in
    match ev with
    | FilterSelect key value =>
        POIFilters.handleFilterChange filtersProps key value st
    | SearchInput value => POIFilters.handleSearchChange value st
    | SearchSubmit => POIFilters.handleSearchSubmit filtersProps st
    | ClearSearch =>
        UI.bind (POIFilters.setSearchValue (js ""))
          (fun _ => POIFilters.handleFilterChange filtersProps
                      Filters.search (VString (js ""))) st
    | ClearAllFilters => POIFilters.clearAllFilters filtersProps st
    | StatusSelect choice => POIFilters.onStatusChange filtersProps choice st
    | ChipDelete key => POIFilters.onChipDelete filtersProps key st
    | ChangePage newPage => POITable.handleChangePage tableProps newPage st
    | ChangeRowsPerPage value =>
        POITable.handleChangeRowsPerPage tableProps value st
    end.

(** The application when it is mounted, with the server it talks
    to. *)
Definition initial (srv : UI.Server) : UI.App :=
  {| UI.dashboard := Dashboard.initial;
     UI.poiFilters := {| UI.autocompleteOptions := [];
                         UI.searchValue := js "" |};
     UI.analytics := {| UI.chainData := []; UI.dmaData := [];
                        UI.analyticsLoading := false;
                        UI.analyticsError := None |};
     UI.server := srv;
     UI.requests := [] |}.

(** One step of the application: an event is handled, or one of the
    loading effects runs.  The effects run after a render whose
    dependencies changed; here they may run at any time, which covers
    every schedule.  [loadPOIData] may also run in its two parts with
    other steps in between; the second part may then run with any
    answer, which covers every answer a pending request can get. *)
Inductive step : UI.App -> UI.App -> Prop :=
| step_event (ev : Event) (st : UI.App) :
    step st (UI.exec (handle ev) st)
| step_loadPOIData (st : UI.App) :
    step st (UI.exec Dashboard.loadPOIData st)
| step_loadPOIData_request (st : UI.App) :
    step st (UI.exec Dashboard.loadPOIData_request st)
| step_loadPOIData_settle (data : option PaginatedPOIResponse.t)
    (st : UI.App) :
    step st (UI.exec (Dashboard.loadPOIData_settle data) st)
| step_loadSummaryStats (st : UI.App) :
    step st (UI.exec Dashboard.loadSummaryStats st)
| step_loadAnalyticsData (st : UI.App) :
    step st (UI.exec (Analytics.loadAnalyticsData
                        (Dashboard.analyticsProps (UI.dashboard st))) st).

(** The states the application can be in. *)
Inductive reachable (srv : UI.Server) : UI.App -> Prop :=
| reachable_initial : reachable srv (initial srv)
| reachable_step (st st' : UI.App) :
    reachable srv st -> step st st' -> reachable srv st'.

(** A run of events, in order. *)
Fixpoint run (evs : list Event) : UI.M unit :=
  match evs with
  | [] => UI.ret tt
  | ev :: rest => UI.bind (handle ev) (fun _ => run rest)
  end.

End App.

(* ================================================================== *)
(** ** The query engine                                                *)
(* ================================================================== *)

(** The engine runs on the server and is not part of the front end;
    its filter matching and its summary statistics are written down
    here from the specification (sections 3, 4.1 and 4.2). *)

Module Engine.

Import Js.

(** Modelled from the spec: the filter specification of section 3, a
    structure with one optional field per predicate (the engine itself
    is missing from the sources). *)
Record FilterSpec : Type := {
  chain_name : option JsString;
  dma : option Z;
  sub_category : option JsString;
  city : option JsString;
  state_code : option JsString;
  is_open : option bool;
  search : option JsString
}.

(** Modelled from the spec: an exact, case-sensitive match of a text
    field; an absent or empty value imposes no constraint. *)
Definition text_matches (want : option JsString) (field : JsString) : bool :=
  match want with
  | None => true
  | Some [] => true
  | Some s => str_eqb s field
  end.

(** Modelled from the spec: exact integer match of the DMA code. *)
Definition dma_matches (want : option Z) (field : option Z) : bool :=
  match want with
  | None => true
  | Some z => match field with Some d => Z.eqb z d | None => false end
  end.

(** Modelled from the spec: exact boolean match of the open flag. *)
Definition open_matches (want : option bool) (field : bool) : bool :=
  match want with
  | None => true
  | Some b => Bool.eqb b field
  end.

(** Modelled from the spec: case folding for the case-insensitive
    search (letters A to Z). *)
Definition lower_unit (c : code_unit) : code_unit :=
  if (N.leb 65 c && N.leb c 90)%bool then (c + 32)%N else c.

(** Modelled from the spec: lower-casing of a string. *)
Definition lower (s : JsString) : JsString := map lower_unit s.

(** Modelled from the spec: [p] is a prefix of [s]. *)
Fixpoint starts_with (p s : JsString) : bool :=
  match p, s with
  | [], _ => true
  | a :: p', b :: s' => N.eqb a b && starts_with p' s'
  | _ :: _, [] => false
  end.

(** Modelled from the spec: [q] is a substring of [s]. *)
Fixpoint contains (q s : JsString) : bool :=
  starts_with q s
  || match s with
     | [] => false
     | _ :: r => contains q r
     end.

(** Modelled from the spec: the search predicate, a case-insensitive
    substring match against name, chain name, city or street
    address. *)
Definition search_matches (want : option JsString) (row : POI.t) : bool :=
  match want with
  | None => true
  | Some [] => true
  | Some q =>
      existsb (fun field => contains (lower q) (lower field))
        [POI.name row; POI.chain_name row; POI.city row;
         POI.street_address row]
  end.

(** Modelled from the spec: a row satisfies a filter specification
    when it satisfies every present predicate (section 4.1). *)
Definition matches (F : FilterSpec) (row : POI.t) : bool :=
  text_matches (chain_name F) (POI.chain_name row)
  && dma_matches (dma F) (POI.dma row)
  && text_matches (sub_category F) (POI.sub_category row)
  && text_matches (city F) (POI.city row)
  && text_matches (state_code F) (POI.state_name row)
  && open_matches (is_open F) (POI.is_open row)
  && search_matches (search F) row.

(** Modelled from the spec: the matching rows in their original
    order. *)
Definition select (F : FilterSpec) (rows : list POI.t) : list POI.t :=
  filter (matches F) rows.

(** Modelled from the spec: the number of rows with a property. *)
Definition count (p : POI.t -> bool) (rows : list POI.t) : Z :=
  Z.of_nat (List.length (filter p rows)).

(** Modelled from the spec: sums over a row subset. *)
Definition sumZ (f : POI.t -> Z) (rows : list POI.t) : Z :=
  fold_right (fun r acc => f r + acc) 0 rows.

(** Modelled from the spec: sums of rational fields. *)
Definition sumQ (f : POI.t -> Q) (rows : list POI.t) : Q :=
  fold_right (fun r acc => Qplus (f r) acc) (0 # 1) rows.

(** Modelled from the spec: the DMA codes present in a subset. *)
Definition dmas_of (rows : list POI.t) : list Z :=
  flat_map (fun r => match POI.dma r with Some d => [d] | None => [] end) rows.

(** Modelled from the spec: the summary statistics of a row subset
    (section 4.2); the mean is 0 on the empty subset. *)
Definition summary_of (rows : list POI.t) : SummaryStats.t :=
  {| SummaryStats.total_venues := Z.of_nat (List.length rows);
     SummaryStats.total_foot_traffic := sumZ POI.foot_traffic rows;
     SummaryStats.total_sales := sumQ POI.sales rows;
     SummaryStats.avg_dwell_time :=
       match rows with
       | [] => 0 # 1
       | _ :: _ =>
           Qdiv (sumQ POI.avg_dwell_time_min rows)
                (inject_Z (Z.of_nat (List.length rows)))
       end;
     SummaryStats.open_venues := count POI.is_open rows;
     SummaryStats.closed_venues := count (fun r => negb (POI.is_open r)) rows;
     SummaryStats.unique_chains :=
       Z.of_nat (List.length
         (nodup (list_eq_dec N.eq_dec) (map POI.chain_name rows)));
     SummaryStats.unique_dmas :=
       Z.of_nat (List.length (nodup Z.eq_dec (dmas_of rows))) |}.

(** Modelled from the spec: [summary(F)] over the loaded rows. *)
Definition summary (rows : list POI.t) (F : FilterSpec) : SummaryStats.t :=
  summary_of (select F rows).

End Engine.

(* ================================================================== *)
(** ** What the specification says of the analytics view               *)
(* ================================================================== *)

Module Spec.

Import Js.

(** The re-sort by sales per visitor named by the specification:
    descending by [avg_sales_per_visitor], rows of equal value keeping
    their order. *)
Fixpoint insert_by_sales_per_visitor (x : ChainPerformance.t)
    (l : list ChainPerformance.t) : list ChainPerformance.t :=
  match l with
  | [] => [x]
  | y :: r =>
      if Qle_bool (ChainPerformance.avg_sales_per_visitor y)
                  (ChainPerformance.avg_sales_per_visitor x)
      then x :: y :: r
      else y :: insert_by_sales_per_visitor x r
  end.

Definition by_sales_per_visitor (l : list ChainPerformance.t)
  : list ChainPerformance.t :=
  fold_right insert_by_sales_per_visitor [] l.

(** The top 8 chains under that ranking. *)
Definition top8_by_sales_per_visitor (l : list ChainPerformance.t)
  : list ChainPerformance.t :=
  firstn 8 (by_sales_per_visitor l).

(** A request that carries the filter, built the way [getSummaryStats]
    builds its own. *)
Definition filtered_url (base : JsString) (F : Filters.t) : JsString :=
  base ++ js "?" ++ URLSearchParams.toString (Api.getSummaryStats_params F).

End Spec.

(* ================================================================== *)
(** ** Sample data                                                     *)
(* ================================================================== *)

Module Sample.

Import Js.

(** A filter object with present and absent values. *)
Definition mixed_filters : Filters.t :=
  [ (Filters.chain_name, VString (js "Wal mart&Co"));
    (Filters.dma, VNumber (Int 501));
    (Filters.is_open, VBool false);
    (Filters.city, VString (js ""));
    (Filters.search, VUndefined);
    (Filters.state_code, VNull) ].

Definition closed_only : Filters.t :=
  [ (Filters.is_open, VBool false) ].

Definition no_server : UI.Server :=
  {| UI.pois := fun _ => None;
     UI.summary := fun _ => None;
     UI.autocomplete := fun _ => None;
     UI.chain_performance := fun _ => None;
     UI.dma_distribution := fun _ => None |}.

Definition app_of (srv : UI.Server) (d : UI.Dashboard) : UI.App :=
  {| UI.dashboard := d;
     UI.poiFilters := {| UI.autocompleteOptions := [js "Walmart"];
                         UI.searchValue := js "" |};
     UI.analytics := {| UI.chainData := []; UI.dmaData := [];
                        UI.analyticsLoading := false;
                        UI.analyticsError := None |};
     UI.server := srv;
     UI.requests := [] |}.

(** The application as it starts. *)
Definition app0 : UI.App := app_of no_server Dashboard.initial.

(** The Dashboard on page 7 of a filtered listing. *)
Definition on_page_7 : UI.Dashboard :=
  {| UI.poiData := None; UI.summaryStats := None;
     UI.filters := closed_only;
     UI.page := Int 7; UI.rowsPerPage := Int 20; UI.loading := false;
     UI.statsLoading := false; UI.error := None |}.

(** A venue of chain [chain] in city [city], with the given DMA, foot
    traffic, sales and open flag. *)
Definition venue (chain city : JsString) (dma : option Z) (traffic : Z)
    (sales : Q) (open : bool) : POI.t :=
  {| POI.entity_id := chain ++ js "-" ++ city;
     POI.name := chain ++ js " " ++ city;
     POI.chain_name := chain;
     POI.sub_category := js "Department Stores";
     POI.dma := dma;
     POI.city := city;
     POI.state_name := js "Texas";
     POI.foot_traffic := traffic;
     POI.is_open := open;
     POI.sales := sales;
     POI.avg_dwell_time_min := 30 # 1;
     POI.area_sqft := 1000 # 1;
     POI.ft_per_sqft := inject_Z traffic / (1000 # 1);
     POI.street_address := js "1 Main St";
     POI.postal_code := js "75001";
     POI.date_opened := Some (js "2019-01-01");
     POI.date_closed := if open then None else Some (js "2023-06-30") |}.

(** The three venues of the example of the specification. *)
Definition venue_AX : POI.t :=
  venue (js "A") (js "X") (Some 501) 100 (500 # 1) true.

Definition venue_AY : POI.t :=
  venue (js "A") (js "Y") (Some 0) 200 (300 # 1) false.

Definition venue_BX : POI.t :=
  venue (js "B") (js "X") None 50 (50 # 1) true.

Definition three_venues : list POI.t := [venue_AX; venue_AY; venue_BX].

Definition only_chain_A : Engine.FilterSpec :=
  {| Engine.chain_name := Some (js "A"); Engine.dma := None;
     Engine.sub_category := None; Engine.city := None;
     Engine.state_code := None; Engine.is_open := None;
     Engine.search := None |}.

Definition search_x : Engine.FilterSpec :=
  {| Engine.chain_name := None; Engine.dma := None;
     Engine.sub_category := None; Engine.city := None;
     Engine.state_code := None; Engine.is_open := None;
     Engine.search := Some (js "x") |}.

(** A chain-performance row with one venue. *)
Definition chain (name : JsString) (traffic : Z) (sales : Q)
  : ChainPerformance.t :=
  {| ChainPerformance.chain_name := name;
     ChainPerformance.total_venues := 1;
     ChainPerformance.total_foot_traffic := traffic;
     ChainPerformance.total_sales := sales;
     ChainPerformance.avg_sales_per_visitor := sales / inject_Z traffic;
     ChainPerformance.open_venues := 1;
     ChainPerformance.closed_venues := 0 |}.

(** Nine chains in the default ranking of the engine, by foot traffic
    descending; the last one has by far the highest sales per
    visitor. *)
Definition nine_chains : list ChainPerformance.t :=
  [ chain (js "A") 900 (900 # 1); chain (js "B") 800 (800 # 1);
    chain (js "C") 700 (700 # 1); chain (js "D") 600 (600 # 1);
    chain (js "E") 500 (500 # 1); chain (js "F") 400 (400 # 1);
    chain (js "G") 300 (300 # 1); chain (js "H") 200 (200 # 1);
    chain (js "I") 100 (900 # 1) ].

(** A server that answers the two analytics requests of the view, and
    nothing else. *)
Definition analytics_server : UI.Server :=
  {| UI.pois := fun _ => None;
     UI.summary := fun _ => None;
     UI.autocomplete := fun _ => None;
     UI.chain_performance := fun url =>
       if str_eqb url Analytics.chain_performance_url
       then Some nine_chains else None;
     UI.dma_distribution := fun url =>
       if str_eqb url Analytics.dma_distribution_url
       then Some [] else None |}.

(** A server whose chain-performance request succeeds and whose
    DMA-distribution request fails. *)
Definition chains_only_server : UI.Server :=
  {| UI.pois := fun _ => None;
     UI.summary := fun _ => None;
     UI.autocomplete := fun _ => None;
     UI.chain_performance := fun _ => Some nine_chains;
     UI.dma_distribution := fun _ => None |}.

(** A server that suggests two names for every autocomplete request. *)
Definition suggesting_server : UI.Server :=
  {| UI.pois := fun _ => None;
     UI.summary := fun _ => None;
     UI.autocomplete := fun _ => Some [js "Walmart"; js "Walgreens"];
     UI.chain_performance := fun _ => None;
     UI.dma_distribution := fun _ => None |}.

(** A DMA-distribution row. *)
Definition dma_row (code : Z) (venues : Z) : DMADistribution.t :=
  {| DMADistribution.dma := code;
     DMADistribution.venue_count := venues;
     DMADistribution.total_foot_traffic := 100 * venues;
     DMADistribution.total_sales := inject_Z (500 * venues);
     DMADistribution.unique_chains := 1 |}.

Definition nine_dmas : list DMADistribution.t :=
  [ dma_row 501 90; dma_row 803 80; dma_row 602 70; dma_row 618 60;
    dma_row 623 50; dma_row 511 40; dma_row 504 30; dma_row 524 20;
    dma_row 506 10 ].

(** The answer for a page beyond the last one: 45 venues in all, no
    item on page 7. *)
Definition empty_page_7 : PaginatedPOIResponse.t :=
  {| PaginatedPOIResponse.items := [];
     PaginatedPOIResponse.total := 45;
     PaginatedPOIResponse.page := 7;
     PaginatedPOIResponse.limit := 20;
     PaginatedPOIResponse.total_pages := 3 |}.

Definition listing_server : UI.Server :=
  {| UI.pois := fun _ => Some empty_page_7;
     UI.summary := fun _ => None;
     UI.autocomplete := fun _ => None;
     UI.chain_performance := fun _ => None;
     UI.dma_distribution := fun _ => None |}.

(** The answer for page 2 of the three venues, one venue per page. *)
Definition page_2_of_3 : PaginatedPOIResponse.t :=
  {| PaginatedPOIResponse.items := [venue_AY];
     PaginatedPOIResponse.total := 3;
     PaginatedPOIResponse.page := 2;
     PaginatedPOIResponse.limit := 1;
     PaginatedPOIResponse.total_pages := 3 |}.

(** A server whose listing succeeds and whose summary fails. *)
Definition page_2_server : UI.Server :=
  {| UI.pois := fun _ => Some page_2_of_3;
     UI.summary := fun _ => None;
     UI.autocomplete := fun _ => None;
     UI.chain_performance := fun _ => None;
     UI.dma_distribution := fun _ => None |}.

Definition only_chain_A_filters : Filters.t :=
  [ (Filters.chain_name, VString (js "A")) ].

End Sample.

(* ================================================================== *)
(** ** Facts about objects and the filter loop                         *)
(* ================================================================== *)

Section ParameterFacts.

Import Js.

Lemma key_eqb_eq (a b : Filters.key) : Filters.key_eqb a b = true <-> a = b.
Proof.
  split.
  - destruct a, b; simpl; intros H; try reflexivity; discriminate H.
  - intros ->. destruct b; reflexivity.
Qed.

Lemma key_name_inj (a b : Filters.key) :
  Filters.key_name a = Filters.key_name b -> a = b.
Proof.
  destruct a, b; intros H; try reflexivity; vm_compute in H; discriminate H.
Qed.



Lemma str_eqb_eq (a b : JsString) : str_eqb a b = true <-> a = b.
Proof.
  unfold str_eqb. destruct (str_eq_dec a b) as [E | E]; split; intros H;
    try assumption; try reflexivity; try discriminate H.
  contradiction.
Qed.



(** The loop appends the pairs of the present entries, in order. *)
Lemma appendFilters_eq (f : Filters.t) :
  forall p, Api.appendFilters p f = p ++ Api.sent_pairs f.
Proof.
  unfold Api.appendFilters, Obj.entries, Api.sent_pairs.
  induction f as [ | [k v] r IH]; intros p; simpl.
  - now rewrite app_nil_r.
  - rewrite IH. destruct (Api.present v); simpl; [ | reflexivity].
    unfold URLSearchParams.append. now rewrite <- app_assoc.
Qed.

Lemma getSummaryStats_params_eq (f : Filters.t) :
  Api.getSummaryStats_params f = Api.sent_pairs f.
Proof. unfold Api.getSummaryStats_params. now rewrite appendFilters_eq. Qed.

Lemma getPOIs_params_eq (page limit : number) (f : Filters.t) :
  Api.getPOIs_params page limit f =
  (js "page", number_toString page) :: (js "limit", number_toString limit)
    :: Api.sent_pairs f.
Proof. unfold Api.getPOIs_params. now rewrite appendFilters_eq. Qed.

Lemma in_sent_pairs (f : Filters.t) (n v : JsString) :
  In (n, v) (Api.sent_pairs f) <->
  exists k x, In (k, x) f /\ Api.present x = true
              /\ n = Filters.key_name k /\ v = toString x.
Proof.
  unfold Api.sent_pairs. rewrite in_map_iff. split.
  - intros [[k x] [E H]]. apply filter_In in H. simpl in *.
    inversion E; subst. exists k, x. tauto.
  - intros (k & x & H & P & -> & ->). exists (k, x). split; [reflexivity | ].
    apply filter_In. now split.
Qed.

Lemma names_sent_pairs (f : Filters.t) :
  URLSearchParams.keys (Api.sent_pairs f) =
  map Filters.key_name
      (Obj.keys (filter (fun kv => Api.present (snd kv)) f)).
Proof.
  unfold URLSearchParams.keys, Api.sent_pairs, Obj.keys.
  rewrite !map_map. reflexivity.
Qed.

Lemma keys_filter_incl (q : Filters.key * Value -> bool) (f : Filters.t) k :
  In k (Obj.keys (filter q f)) -> In k (Obj.keys f).
Proof.
  unfold Obj.keys. rewrite !in_map_iff.
  intros [kv [E H]]. apply filter_In in H. exists kv. tauto.
Qed.

Lemma wf_filter (q : Filters.key * Value -> bool) (f : Filters.t) :
  Obj.wf f -> Obj.wf (filter q f).
Proof.
  unfold Obj.wf. induction f as [ | [k v] r IH]; simpl; intros H.
  - constructor.
  - inversion H as [ | ? ? Hk Hr]; subst.
    destruct (q (k, v)); [ | now apply IH].
    simpl. constructor; [ | now apply IH].
    intros Hin. apply Hk. now apply keys_filter_incl in Hin.
Qed.

Lemma NoDup_map_inj {A B : Type} (g : A -> B) (l : list A) :
  (forall a b, g a = g b -> a = b) -> NoDup l -> NoDup (map g l).
Proof.
  intros Hg. induction 1 as [ | a l Ha Hl IH]; simpl; constructor; auto.
  rewrite in_map_iff. intros [b [E Hb]]. apply Hg in E. now subst.
Qed.

(** In a well-formed filter object no parameter name is sent twice. *)
Lemma names_sent_pairs_NoDup (f : Filters.t) :
  Obj.wf f -> NoDup (URLSearchParams.keys (Api.sent_pairs f)).
Proof.
  intros H. rewrite names_sent_pairs.
  apply NoDup_map_inj; [exact key_name_inj | ].
  now apply wf_filter.
Qed.

Lemma key_name_in_names (f : Filters.t) (k : Filters.key) :
  In (Filters.key_name k) (URLSearchParams.keys (Api.sent_pairs f)) ->
  exists x, In (k, x) f /\ Api.present x = true.
Proof.
  unfold URLSearchParams.keys. rewrite in_map_iff.
  intros [[n v] [E H]]. simpl in E. subst n.
  apply in_sent_pairs in H. destruct H as (k' & x & H & P & E & _).
  apply key_name_inj in E. subst k'. now exists x.
Qed.

Lemma wf_value_unique (f : Filters.t) (k : Filters.key) (v w : Value) :
  Obj.wf f -> In (k, v) f -> In (k, w) f -> v = w.
Proof.
  unfold Obj.wf, Obj.keys.
  induction f as [ | [k' v'] r IH]; simpl; intros Hwf Hv Hw; [contradiction | ].
  inversion Hwf as [ | ? ? Hk Hr]; subst.
  destruct Hv as [Ev | Hv], Hw as [Ew | Hw].
  - congruence.
  - inversion Ev; subst. exfalso. apply Hk.
    apply in_map_iff. now exists (k, w).
  - inversion Ew; subst. exfalso. apply Hk.
    apply in_map_iff. now exists (k, v).
  - now apply IH.
Qed.


End ParameterFacts.

Section DecimalFacts.

Import Js.

(** A decimal numeral starts with a digit or with the minus sign. *)
Lemma uint_string_head (d : Decimal.uint) :
  exists c r, js (NilZero.string_of_uint d) = c :: r /\ (48 <= c <= 57)%N.
Proof.
  destruct d; simpl; eexists; eexists; (split; [reflexivity | vm_compute; split; discriminate]).
Qed.

Lemma Z_toString_head (z : Z) :
  exists c r, Z_toString z = c :: r /\ (c = 45 \/ 48 <= c <= 57)%N.
Proof.
  unfold Z_toString. destruct z as [ | p | p]; simpl.
  - exists 48%N, []. split; [reflexivity | right; lia].
  - destruct (uint_string_head (Pos.to_uint p)) as (c & r & E & H).
    exists c, r. split; [exact E | now right].
  - exists 45%N. eexists. split; [reflexivity | now left].
Qed.


Lemma Z_toString_not_NA (z : Z) : Z_toString z <> js "N/A".
Proof.
  destruct (Z_toString_head z) as (c & r & E & H). rewrite E.
  intros X. vm_compute in X. inversion X; subst. lia.
Qed.


End DecimalFacts.

Section FilterObjectFacts.

Import Js.

Lemma key_eqb_refl (k : Filters.key) : Filters.key_eqb k k = true.
Proof. now apply key_eqb_eq. Qed.

Lemma has_delete (k : Filters.key) (f : Filters.t) :
  Filters.has k (Filters.delete k f) = false.
Proof.
  unfold Filters.has, Filters.delete.
  induction f as [ | [k' v] r IH]; simpl; [reflexivity | ].
  destruct (Filters.key_eqb k' k) eqn:E; [exact IH | ].
  simpl. now rewrite E.
Qed.

Lemma get_set (k : Filters.key) (v : Value) (f : Filters.t) :
  Filters.get k (Filters.set k v f) = v.
Proof.
  unfold Filters.get, Filters.set.
  induction f as [ | [k' v'] r IH]; simpl.
  - now rewrite key_eqb_refl.
  - destruct (Filters.key_eqb k' k) eqn:E; simpl; now rewrite E.
Qed.

Lemma has_set (k : Filters.key) (v : Value) (f : Filters.t) :
  Filters.has k (Filters.set k v f) = true.
Proof.
  unfold Filters.has, Filters.set.
  induction f as [ | [k' v'] r IH]; simpl.
  - now rewrite key_eqb_refl.
  - destruct (Filters.key_eqb k' k) eqn:E; simpl; now rewrite E.
Qed.

Lemma has_false_not_key (k : Filters.key) (f : Filters.t) :
  Filters.has k f = false <-> ~ In k (Obj.keys f).
Proof.
  unfold Filters.has, Obj.keys.
  induction f as [ | [k' v] r IH]; simpl.
  - tauto.
  - destruct (Filters.key_eqb k' k) eqn:E.
    + apply key_eqb_eq in E. subst. split; [discriminate | tauto].
    + rewrite IH. split; [ | tauto].
      intros H [X | X]; [ | tauto]. subst.
      rewrite key_eqb_refl in E. discriminate E.
Qed.

(** The entry [get] reads is an entry of the object. *)
Lemma get_in (k : Filters.key) (f : Filters.t) :
  Filters.has k f = true -> In (k, Filters.get k f) f.
Proof.
  unfold Filters.has, Filters.get.
  induction f as [ | [k' v] r IH]; simpl; [discriminate | ].
  destruct (Filters.key_eqb k' k) eqn:E.
  - apply key_eqb_eq in E. subst. now left.
  - intros H. right. now apply IH.
Qed.

Lemma get_defined_has (k : Filters.key) (f : Filters.t) :
  Filters.get k f <> VUndefined -> Filters.has k f = true.
Proof.
  unfold Filters.has, Filters.get.
  induction f as [ | [k' v] r IH]; simpl; [congruence | ].
  destruct (Filters.key_eqb k' k); auto.
Qed.

Lemma keys_delete_incl (k k' : Filters.key) (f : Filters.t) :
  In k' (Obj.keys (Filters.delete k f)) -> In k' (Obj.keys f).
Proof.
  unfold Filters.delete, Obj.keys.
  induction f as [ | [k0 v] r IH]; simpl; [tauto | ].
  destruct (Filters.key_eqb k0 k); simpl; tauto.
Qed.

Lemma wf_delete (k : Filters.key) (f : Filters.t) :
  Obj.wf f -> Obj.wf (Filters.delete k f).
Proof.
  unfold Obj.wf. induction f as [ | [k0 v] r IH]; intros H.
  - constructor.
  - inversion H as [ | ? ? Hk Hr]; subst.
    unfold Filters.delete, Obj.delete. fold (Obj.delete Filters.key_eqb k r).
    fold (Filters.delete k r).
    destruct (Filters.key_eqb k0 k); [now apply IH | ].
    simpl. constructor; [ | now apply IH].
    intros Hin. apply Hk. now apply keys_delete_incl in Hin.
Qed.

Lemma keys_set (k : Filters.key) (v : Value) (f : Filters.t) :
  Obj.keys (Filters.set k v f)
  = if Filters.has k f then Obj.keys f else Obj.keys f ++ [k].
Proof.
  unfold Filters.set, Filters.has, Obj.keys.
  induction f as [ | [k0 v0] r IH]; simpl; [reflexivity | ].
  destruct (Filters.key_eqb k0 k) eqn:E; simpl; [reflexivity | ].
  rewrite IH. now destruct (Obj.has Filters.key_eqb k r).
Qed.

Lemma wf_set (k : Filters.key) (v : Value) (f : Filters.t) :
  Obj.wf f -> Obj.wf (Filters.set k v f).
Proof.
  unfold Obj.wf. intros H. rewrite keys_set.
  destruct (Filters.has k f) eqn:E; [exact H | ].
  apply has_false_not_key in E.
  apply NoDup_rev in H. rewrite <- (rev_involutive (Obj.keys f ++ [k])).
  apply NoDup_rev. rewrite rev_app_distr. simpl.
  constructor; [ | exact H].
  intros Hin. apply E. now apply in_rev.
Qed.

(** The filter update keeps filter objects well formed. *)
Lemma newFilters_wf (f : Filters.t) (k : Filters.key) (v : Value) :
  Obj.wf f -> Obj.wf (POIFilters.newFilters f k v).
Proof.
  intros H. unfold POIFilters.newFilters, Obj.spread.
  destruct (strict_eq v (VString (js "")) || strict_eq v VNull
            || strict_eq v VUndefined)%bool.
  - now apply wf_delete.
  - now apply wf_set.
Qed.

End FilterObjectFacts.

Section FilterSerialization.

Import Js.

Lemma mixed_filters_wf : Obj.wf Sample.mixed_filters.
Proof.
  unfold Obj.wf, Obj.keys, Sample.mixed_filters. simpl.
  repeat constructor; simpl; intuition discriminate.
Defined.

End FilterSerialization.

Section HandlerFacts.

Import Js.

Lemma skipn_length_app {A : Type} (l r : list A) :
  skipn (List.length l) (l ++ r) = r.
Proof. induction l as [ | a l IH]; simpl; auto. Qed.

(** The one request [loadPOIData] sends is the one [getPOIs] builds
    from the page, the page size and the filters of the state. *)
Lemma loadPOIData_sent (st : UI.App) :
  UI.sent Dashboard.loadPOIData st =
  [Api.getPOIs_url (UI.page (UI.dashboard st))
                   (UI.rowsPerPage (UI.dashboard st))
                   (UI.filters (UI.dashboard st))].
Proof.
  unfold UI.sent, UI.exec, Dashboard.loadPOIData, Api.getPOIs, UI.bind,
    UI.http_get. simpl.
  destruct (UI.pois (UI.server st) _); simpl; apply skipn_length_app.
Qed.

(** The first part of [loadPOIData] sends that request. *)
Lemma loadPOIData_request_sent (st : UI.App) :
  UI.sent Dashboard.loadPOIData_request st =
  [Api.getPOIs_url (UI.page (UI.dashboard st))
                   (UI.rowsPerPage (UI.dashboard st))
                   (UI.filters (UI.dashboard st))].
Proof.
  unfold UI.sent, UI.exec, Dashboard.loadPOIData_request, Api.getPOIs,
    UI.bind, UI.http_get. simpl. apply skipn_length_app.
Qed.

Lemma loadSummaryStats_sent (st : UI.App) :
  UI.sent Dashboard.loadSummaryStats st =
  [Api.getSummaryStats_url (UI.filters (UI.dashboard st))].
Proof.
  unfold UI.sent, UI.exec, Dashboard.loadSummaryStats, Api.getSummaryStats,
    UI.bind, UI.http_get. simpl.
  destruct (UI.summary (UI.server st) _); simpl; apply skipn_length_app.
Qed.

(** The first parameter of a getPOIs request is the page. *)
Lemma getPOIs_params_page (page limit : number) (f : Filters.t) :
  hd_error (Api.getPOIs_params page limit f)
  = Some (js "page", number_toString page).
Proof. now rewrite getPOIs_params_eq. Qed.

End HandlerFacts.


Section Autocomplete.

Import Js.

(** What handleSearchChange sends and leaves, by the length of the
    input. *)
Lemma handleSearchChange_long (value : JsString) (st : UI.App) :
  (2 <= List.length value)%nat ->
  UI.sent (POIFilters.handleSearchChange value) st
  = [Api.getAutocomplete_url value None].
Proof.
  intros H. apply Nat.leb_le in H.
  unfold UI.sent, UI.exec, POIFilters.handleSearchChange. rewrite H.
  unfold UI.bind, Api.getAutocomplete, UI.http_get. simpl.
  destruct (UI.autocomplete (UI.server st) _); simpl; apply skipn_length_app.
Qed.

Lemma handleSearchChange_short (value : JsString) (st : UI.App) :
  (List.length value < 2)%nat ->
  UI.sent (POIFilters.handleSearchChange value) st = []
  /\ UI.autocompleteOptions
       (UI.poiFilters (UI.exec (POIFilters.handleSearchChange value) st)) = [].
Proof.
  intros H. apply Nat.leb_gt in H.
  unfold UI.sent, UI.exec, POIFilters.handleSearchChange. rewrite H.
  unfold UI.bind. simpl. split; [ | reflexivity].
  rewrite <- (app_nil_r (UI.requests st)) at 2. apply skipn_length_app.
Qed.

(** C6. For every search input and every state, handleSearchChange
    sends an autocomplete request if and only if the input has at least
    two code units, and the request is the one for that input; for a
    shorter input no request is sent and the list of suggestions is set
    to the empty list. *)
Theorem autocomplete_requested_iff_two_characters :
  forall (value : JsString) (st : UI.App),
    (UI.sent (POIFilters.handleSearchChange value) st <> []
     <-> (2 <= List.length value)%nat)
    /\ ((2 <= List.length value)%nat ->
        UI.sent (POIFilters.handleSearchChange value) st
        = [Api.getAutocomplete_url value None])
    /\ ((List.length value < 2)%nat ->
        UI.sent (POIFilters.handleSearchChange value) st = []
        /\ UI.autocompleteOptions
             (UI.poiFilters
                (UI.exec (POIFilters.handleSearchChange value) st)) = []).
Proof.
  intros value st. split; [ | split].
  - split.
    + intros Hsent. destruct (le_lt_dec 2 (List.length value)) as [L | L];
        [exact L | ].
      destruct (handleSearchChange_short value st L) as [E _]. contradiction.
    + intros L. rewrite (handleSearchChange_long value st L). discriminate.
  - apply handleSearchChange_long.
  - apply handleSearchChange_short.
Qed.

(** One character typed into the starting application: the old
    suggestion is dropped and nothing is requested. *)
Lemma autocomplete_requested_iff_two_characters_witness :
  (List.length (js "W") < 2)%nat
  /\ UI.sent (POIFilters.handleSearchChange (js "W")) Sample.app0 = []
  /\ UI.autocompleteOptions
       (UI.poiFilters
          (UI.exec (POIFilters.handleSearchChange (js "W")) Sample.app0)) = []
  /\ (2 <= List.length (js "Wa"))%nat
  /\ UI.sent (POIFilters.handleSearchChange (js "Wa")) Sample.app0
     = [js "/api/v1/pois/autocomplete?query=Wa"].
Proof.
  assert (S1 : (List.length (js "W") < 2)%nat) by (simpl; lia).
  assert (L2 : (2 <= List.length (js "Wa"))%nat) by (simpl; lia).
  destruct (autocomplete_requested_iff_two_characters (js "W") Sample.app0)
    as (_ & _ & Hshort).
  destruct (autocomplete_requested_iff_two_characters (js "Wa") Sample.app0)
    as (_ & Hlong & _).
  split; [exact S1 | ].
  split; [exact (proj1 (Hshort S1)) | ].
  split; [exact (proj2 (Hshort S1)) | ].
  split; [exact L2 | ].
  exact (Hlong L2).
Defined.

End Autocomplete.

Section RequestDeterminism.

Import Js.

Lemma getPOIs_sent (page limit : number) (f : Filters.t) (st : UI.App) :
  UI.sent (Api.getPOIs page limit f) st = [Api.getPOIs_url page limit f].
Proof.
  unfold UI.sent, UI.exec, Api.getPOIs, UI.http_get. simpl.
  apply skipn_length_app.
Qed.

Lemma getSummaryStats_sent (f : Filters.t) (st : UI.App) :
  UI.sent (Api.getSummaryStats f) st = [Api.getSummaryStats_url f].
Proof.
  unfold UI.sent, UI.exec, Api.getSummaryStats, UI.http_get. simpl.
  apply skipn_length_app.
Qed.

(** C7. The request getPOIs sends depends on its three arguments only:
    two calls with identical arguments, made in any two states of the
    application (whatever was requested or answered before), build the
    same query string and send the same single request; the same holds
    for getSummaryStats and its filter argument. *)
Theorem request_is_a_function_of_the_arguments :
  forall (st1 st2 : UI.App) (page1 limit1 page2 limit2 : number)
         (filters1 filters2 : Filters.t),
    (page1, limit1, filters1) = (page2, limit2, filters2) ->
    URLSearchParams.toString (Api.getPOIs_params page1 limit1 filters1)
    = URLSearchParams.toString (Api.getPOIs_params page2 limit2 filters2)
    /\ UI.sent (Api.getPOIs page1 limit1 filters1) st1
       = UI.sent (Api.getPOIs page2 limit2 filters2) st2
    /\ UI.sent (Api.getPOIs page1 limit1 filters1) st1
       = [Api.getPOIs_url page1 limit1 filters1]
    /\ URLSearchParams.toString (Api.getSummaryStats_params filters1)
       = URLSearchParams.toString (Api.getSummaryStats_params filters2)
    /\ UI.sent (Api.getSummaryStats filters1) st1
       = UI.sent (Api.getSummaryStats filters2) st2.
Proof.
  intros st1 st2 page1 limit1 page2 limit2 filters1 filters2 E.
  inversion E; subst.
  rewrite !getPOIs_sent, !getSummaryStats_sent. repeat split.
Qed.

(** The same call in the starting application and in an application
    that already sent a request. *)
Lemma request_is_a_function_of_the_arguments_witness :
  UI.sent (Api.getPOIs (Int 3) (Int 20) Sample.mixed_filters) Sample.app0
  = UI.sent (Api.getPOIs (Int 3) (Int 20) Sample.mixed_filters)
      (UI.exec (Api.getSummaryStats Sample.closed_only)
               (Sample.app_of Sample.no_server Sample.on_page_7))
  /\ UI.sent (Api.getPOIs (Int 3) (Int 20) Sample.mixed_filters) Sample.app0
     = [js "/api/v1/pois?page=3&limit=20&chain_name=Wal+mart%26Co&dma=501&is_open=false"].
Proof.
  destruct (request_is_a_function_of_the_arguments
              Sample.app0
              (UI.exec (Api.getSummaryStats Sample.closed_only)
                       (Sample.app_of Sample.no_server Sample.on_page_7))
              (Int 3) (Int 20) (Int 3) (Int 20)
              Sample.mixed_filters Sample.mixed_filters eq_refl)
    as (_ & Hsame & Hurl & _).
  split; [exact Hsame | ].
  rewrite Hurl. reflexivity.
Defined.

End RequestDeterminism.

Section ClosedOnly.

Import Js.

Lemma dashboard_filters_after_change (st : UI.App) (key : Filters.key)
    (value : Value) :
  UI.filters (UI.dashboard
    (UI.exec (POIFilters.handleFilterChange
                (Dashboard.poiFiltersProps (UI.dashboard st)) key value) st))
  = POIFilters.newFilters (UI.filters (UI.dashboard st)) key value.
Proof. reflexivity. Qed.

Lemma onStatusChange_filters (st : UI.App) (choice : JsString) :
  UI.filters (UI.dashboard
    (UI.exec (POIFilters.onStatusChange
                (Dashboard.poiFiltersProps (UI.dashboard st)) choice) st))
  = if str_eqb choice (js "")
    then POIFilters.newFilters (UI.filters (UI.dashboard st))
           Filters.is_open VUndefined
    else POIFilters.newFilters (UI.filters (UI.dashboard st))
           Filters.is_open (VBool (str_eqb choice (js "true"))).
Proof.
  unfold POIFilters.onStatusChange, strict_eq.
  destruct (str_eqb choice (js "")); reflexivity.
Qed.

Lemma names_delete (k : Filters.key) (f : Filters.t) :
  ~ In (Filters.key_name k)
       (URLSearchParams.keys (Api.sent_pairs (Filters.delete k f))).
Proof.
  intros Hin. apply key_name_in_names in Hin. destruct Hin as (x & Hx & _).
  assert (Hk : In k (Obj.keys (Filters.delete k f))).
  { unfold Obj.keys. apply in_map_iff. now exists (k, x). }
  revert Hk. apply has_false_not_key. apply has_delete.
Qed.

End ClosedOnly.

Section PageReset.

Import Js.

Lemma handleSearchChange_dashboard (value : JsString) (st : UI.App) :
  UI.dashboard (UI.exec (POIFilters.handleSearchChange value) st)
  = UI.dashboard st.
Proof.
  unfold UI.exec, POIFilters.handleSearchChange.
  destruct (2 <=? List.length value)%nat.
  - unfold UI.bind, Api.getAutocomplete, UI.http_get. simpl.
    now destruct (UI.autocomplete (UI.server st) _).
  - reflexivity.
Qed.

(** The handlers that set the filters or the page size set the page
    to 1. *)
Lemma handlers_reset_page (st : UI.App) (newFilters : Filters.t)
    (key : Filters.key) (value : Value) (size : JsString) :
  UI.page (UI.dashboard
    (UI.exec (Dashboard.handleFiltersChange newFilters) st)) = Int 1
  /\ UI.page (UI.dashboard
       (UI.exec (POIFilters.handleFilterChange
                   (Dashboard.poiFiltersProps (UI.dashboard st)) key value)
                st)) = Int 1
  /\ UI.page (UI.dashboard
       (UI.exec (Dashboard.handleRowsPerPageChange (parseInt10 size)) st))
     = Int 1
  /\ UI.page (UI.dashboard
       (UI.exec (POITable.handleChangeRowsPerPage
                   (Dashboard.poiTableProps (UI.dashboard st)) size) st))
     = Int 1.
Proof. repeat split. Qed.

(** Every event of the application keeps the filter object well
    formed. *)
Lemma handle_keeps_filters_wf (ev : App.Event) (st : UI.App) :
  Obj.wf (UI.filters (UI.dashboard st)) ->
  Obj.wf (UI.filters (UI.dashboard (UI.exec (App.handle ev) st))).
Proof.
  intros H. destruct ev as [k v | s | | | | c | k | n | s].
  - exact (newFilters_wf _ k v H).
  - change (UI.exec (App.handle (App.SearchInput s)) st)
      with (UI.exec (POIFilters.handleSearchChange s) st).
    now rewrite handleSearchChange_dashboard.
  - exact (newFilters_wf _ Filters.search _ H).
  - exact (newFilters_wf _ Filters.search (VString (js "")) H).
  - constructor.
  - change (UI.exec (App.handle (App.StatusSelect c)) st)
      with (UI.exec (POIFilters.onStatusChange
                       (Dashboard.poiFiltersProps (UI.dashboard st)) c) st).
    rewrite onStatusChange_filters.
    destruct (str_eqb c (js "")); now apply newFilters_wf.
  - exact (newFilters_wf _ k VUndefined H).
  - exact H.
  - exact H.
Qed.

(** After an event that changed the filters or the page size, the page
    is 1. *)
Lemma page_after_change (ev : App.Event) (st : UI.App) :
  UI.filters (UI.dashboard (UI.exec (App.handle ev) st))
    <> UI.filters (UI.dashboard st)
  \/ UI.rowsPerPage (UI.dashboard (UI.exec (App.handle ev) st))
       <> UI.rowsPerPage (UI.dashboard st) ->
  UI.page (UI.dashboard (UI.exec (App.handle ev) st)) = Int 1.
Proof.
  destruct ev as [k v | s | | | | c | k | n | s]; intros Hchanged;
    try reflexivity.
  - exfalso.
    change (UI.exec (App.handle (App.SearchInput s)) st)
      with (UI.exec (POIFilters.handleSearchChange s) st) in Hchanged.
    rewrite handleSearchChange_dashboard in Hchanged.
    destruct Hchanged as [X | X]; now apply X.
  - unfold UI.exec, App.handle, POIFilters.onStatusChange, strict_eq.
    destruct (str_eqb c (js "")); reflexivity.
  - exfalso. destruct Hchanged as [X | X]; now apply X.
Qed.

(** C8. For every event of the application and every state: if the
    event changed the filter object or the page size, then the page of
    the resulting state is 1, whatever page was selected before, and
    the request loadPOIData sends from that state is the getPOIs
    request for page 1 with the new filters and page size, whose first
    parameter is page=1. *)
Theorem filter_or_page_size_change_resets_page :
  forall (ev : App.Event) (st : UI.App),
    let st' := UI.exec (App.handle ev) st in
    UI.filters (UI.dashboard st') <> UI.filters (UI.dashboard st)
    \/ UI.rowsPerPage (UI.dashboard st') <> UI.rowsPerPage (UI.dashboard st) ->
    UI.page (UI.dashboard st') = Int 1
    /\ UI.sent Dashboard.loadPOIData st'
       = [Api.getPOIs_url (Int 1) (UI.rowsPerPage (UI.dashboard st'))
                          (UI.filters (UI.dashboard st'))]
    /\ hd_error (Api.getPOIs_params (Int 1)
                   (UI.rowsPerPage (UI.dashboard st'))
                   (UI.filters (UI.dashboard st')))
       = Some (js "page", js "1").
Proof.
  intros ev st st' Hchanged.
  assert (Hpage : UI.page (UI.dashboard st') = Int 1)
    by (now apply page_after_change).
  split; [exact Hpage | ].
  split.
  - rewrite loadPOIData_sent, Hpage. reflexivity.
  - apply getPOIs_params_page.
Qed.

(** On page 7 of the closed venues, choosing "Open Only" and choosing
    50 rows per page both lead to a request for page 1. *)
Lemma filter_or_page_size_change_resets_page_witness :
  UI.page (UI.dashboard (Sample.app_of Sample.no_server Sample.on_page_7))
  = Int 7
  /\ UI.sent Dashboard.loadPOIData
       (UI.exec (App.handle (App.StatusSelect (js "true")))
                (Sample.app_of Sample.no_server Sample.on_page_7))
     = [js "/api/v1/pois?page=1&limit=20&is_open=true"]
  /\ UI.sent Dashboard.loadPOIData
       (UI.exec (App.handle (App.ChangeRowsPerPage (js "50")))
                (Sample.app_of Sample.no_server Sample.on_page_7))
     = [js "/api/v1/pois?page=1&limit=50&is_open=false"].
Proof.
  assert (Hfilters :
            UI.filters (UI.dashboard
              (UI.exec (App.handle (App.StatusSelect (js "true")))
                       (Sample.app_of Sample.no_server Sample.on_page_7)))
            <> UI.filters (UI.dashboard
                 (Sample.app_of Sample.no_server Sample.on_page_7))).
  { vm_compute. discriminate. }
  assert (Hsize :
            UI.rowsPerPage (UI.dashboard
              (UI.exec (App.handle (App.ChangeRowsPerPage (js "50")))
                       (Sample.app_of Sample.no_server Sample.on_page_7)))
            <> UI.rowsPerPage (UI.dashboard
                 (Sample.app_of Sample.no_server Sample.on_page_7))).
  { vm_compute. discriminate. }
  destruct (filter_or_page_size_change_resets_page
              (App.StatusSelect (js "true"))
              (Sample.app_of Sample.no_server Sample.on_page_7)
              (or_introl Hfilters)) as (_ & Hopen & _).
  destruct (filter_or_page_size_change_resets_page
              (App.ChangeRowsPerPage (js "50"))
              (Sample.app_of Sample.no_server Sample.on_page_7)
              (or_intror Hsize)) as (_ & Hfifty & _).
  split; [reflexivity | ].
  split.
  - vm_compute in Hopen. vm_compute. exact Hopen.
  - vm_compute in Hfifty. vm_compute. exact Hfifty.
Defined.

End PageReset.

Section DmaCell.

Import Js.

(** C10. The DMA cell shows the text N/A exactly when the venue has no
    DMA or its DMA is the number 0; for every other DMA it shows the
    decimal text of the number; hence a venue with DMA 0 and a venue
    without DMA show the same cell. *)
Theorem dma_cell_shows_NA_for_null_and_zero :
  forall (poi other : POI.t),
    (POITable.dmaCell poi = js "N/A"
     <-> POI.dma poi = None \/ POI.dma poi = Some 0)
    /\ (forall z, POI.dma poi = Some z -> z <> 0 ->
                  POITable.dmaCell poi = Z_toString z)
    /\ (POI.dma poi = Some 0 -> POI.dma other = None ->
        POITable.dmaCell poi = POITable.dmaCell other).
Proof.
  intros poi other.
  assert (Hcell : forall p,
            POITable.dmaCell p =
            match POI.dma p with
            | None => js "N/A"
            | Some z => if z =? 0 then js "N/A" else Z_toString z
            end).
  { intros p. unfold POITable.dmaCell, POITable.dma_value, or_else.
    destruct (POI.dma p) as [z | ]; simpl; [ | reflexivity].
    destruct (z =? 0); reflexivity. }
  split; [ | split].
  - rewrite Hcell. destruct (POI.dma poi) as [z | ].
    + destruct (Z.eqb_spec z 0) as [-> | Hz].
      * split; auto.
      * split.
        -- intros E. now apply Z_toString_not_NA in E.
        -- intros [X | X]; [discriminate X | inversion X; contradiction].
    + split; auto.
  - intros z Hz Hnz. rewrite Hcell, Hz.
    destruct (Z.eqb_spec z 0); [contradiction | reflexivity].
  - intros H0 Hnone. rewrite !Hcell, H0, Hnone. reflexivity.
Qed.

(** The cells of the three venues of the example: DMA 501, DMA 0 and
    no DMA. *)
Lemma dma_cell_shows_NA_for_null_and_zero_witness :
  POI.dma Sample.venue_AY = Some 0
  /\ POI.dma Sample.venue_BX = None
  /\ POITable.dmaCell Sample.venue_AY = POITable.dmaCell Sample.venue_BX
  /\ POITable.dmaCell Sample.venue_AX = js "501".
Proof.
  destruct (dma_cell_shows_NA_for_null_and_zero
              Sample.venue_AY Sample.venue_BX) as (_ & _ & Hsame).
  destruct (dma_cell_shows_NA_for_null_and_zero
              Sample.venue_AX Sample.venue_BX) as (_ & Hnumber & _).
  split; [reflexivity | ].
  split; [reflexivity | ].
  split.
  - apply Hsame; reflexivity.
  - rewrite (Hnumber 501); [reflexivity | reflexivity | discriminate].
Defined.

End DmaCell.

Section SummaryCounts.

(** Every row is counted either by a predicate or by its negation. *)
Lemma count_split (p : POI.t -> bool) (rows : list POI.t) :
  Engine.count p rows + Engine.count (fun r => negb (p r)) rows
  = Z.of_nat (List.length rows).
Proof.
  unfold Engine.count. induction rows as [ | r rows IH].
  - reflexivity.
  - cbn [filter]. destruct (p r); cbn [negb List.length]; lia.
Qed.

(** C4. For every filter specification F (and every collection of
    rows), the open and the closed venues of summary(F) add up to its
    total: each venue the summary counts is counted as exactly one of
    open or closed. *)
Theorem open_plus_closed_is_total :
  forall (rows : list POI.t) (F : Engine.FilterSpec),
    SummaryStats.open_venues (Engine.summary rows F)
    + SummaryStats.closed_venues (Engine.summary rows F)
    = SummaryStats.total_venues (Engine.summary rows F).
Proof.
  intros rows F. unfold Engine.summary, Engine.summary_of.
  cbn [SummaryStats.open_venues SummaryStats.closed_venues
       SummaryStats.total_venues].
  apply count_split.
Qed.

(** The example of the specification: the summary of chain A over the
    three venues, and the search for x. *)
Example summary_of_chain_A :
  let s := Engine.summary Sample.three_venues Sample.only_chain_A in
  SummaryStats.total_venues s = 2
  /\ SummaryStats.total_foot_traffic s = 300
  /\ Qeq (SummaryStats.total_sales s) (800 # 1)
  /\ SummaryStats.open_venues s = 1
  /\ SummaryStats.closed_venues s = 1
  /\ SummaryStats.unique_chains s = 1.
Proof. vm_compute. repeat split. Qed.

Example search_x_selects_rows_1_and_3 :
  map POI.entity_id (Engine.select Sample.search_x Sample.three_venues)
  = [Js.js "A-X"; Js.js "B-X"].
Proof. vm_compute. reflexivity. Qed.

End SummaryCounts.

Section AnalyticsRequests.

Import Js.

(** loadAnalyticsData sends the same two requests whatever its props
    and whatever the server answers. *)
Lemma loadAnalyticsData_sent (props : Analytics.Props) (st : UI.App) :
  UI.sent (Analytics.loadAnalyticsData props) st
  = [Analytics.chain_performance_url; Analytics.dma_distribution_url].
Proof.
  unfold UI.sent, UI.exec, Analytics.loadAnalyticsData, UI.bind, UI.http_get.
  simpl.
  destruct (UI.chain_performance (UI.server st)
              Analytics.chain_performance_url);
    [destruct (UI.dma_distribution (UI.server st)
                 Analytics.dma_distribution_url) | ];
    simpl; rewrite <- app_assoc; apply skipn_length_app.
Qed.

(** C1 (what the code does). With the filter that selects chain A, the
    analytics view sends the two analytics requests without any
    parameter, the very requests it sends with no filter, and not the
    requests that carry the filter, while getSummaryStats sends the
    filter for the same filter object; and when the view is rendered
    again after the filter changed, its effect sends nothing. *)
Theorem analytics_requests_ignore_filters :
  forall (st : UI.App),
    UI.sent (Analytics.loadAnalyticsData
               {| Analytics.filters := Sample.only_chain_A_filters |}) st
    = [js "/api/v1/pois/analytics/chain-performance";
       js "/api/v1/pois/analytics/dma-distribution"]
    /\ UI.sent (Analytics.loadAnalyticsData
                  {| Analytics.filters := Sample.only_chain_A_filters |}) st
       = UI.sent (Analytics.loadAnalyticsData
                    {| Analytics.filters := Obj.empty |}) st
    /\ UI.sent (Analytics.loadAnalyticsData
                  {| Analytics.filters := Sample.only_chain_A_filters |}) st
       <> [Spec.filtered_url Analytics.chain_performance_url
             Sample.only_chain_A_filters;
           Spec.filtered_url Analytics.dma_distribution_url
             Sample.only_chain_A_filters]
    /\ Spec.filtered_url Analytics.chain_performance_url
         Sample.only_chain_A_filters
       = js "/api/v1/pois/analytics/chain-performance?chain_name=A"
    /\ UI.sent (Api.getSummaryStats Sample.only_chain_A_filters) st
       = [js "/api/v1/pois/summary?chain_name=A"]
    /\ UI.sent (Analytics.effect
                  (Some {| Analytics.filters := Obj.empty |})
                  {| Analytics.filters := Sample.only_chain_A_filters |}) st
       = [].
Proof.
  intros st. rewrite !loadAnalyticsData_sent, getSummaryStats_sent.
  split; [reflexivity | ].
  split; [reflexivity | ].
  split; [vm_compute; discriminate | ].
  split; [reflexivity | ].
  split; [reflexivity | ].
  unfold UI.sent, UI.exec, Analytics.effect, UI.ret. simpl.
  rewrite <- (app_nil_r (UI.requests st)) at 2. apply skipn_length_app.
Qed.

End AnalyticsRequests.

Section Charts.

Import Js.

(** [slice(0, n)] is the first [n] elements. *)
Lemma slice_from_0 {A : Type} (xs : list A) (n : nat) :
  slice xs 0 (Z.of_nat n) = firstn n xs.
Proof.
  unfold slice, relative_index.
  assert (E0 : (0 <? 0) = false) by reflexivity. rewrite E0.
  assert (En : (Z.of_nat n <? 0) = false) by (apply Z.ltb_ge; lia).
  rewrite En.
  rewrite (Z.min_l 0) by lia. rewrite Z.sub_0_r. simpl skipn.
  destruct (Nat.le_ge_cases n (List.length xs)) as [L | L].
  - rewrite Z.min_l by lia. rewrite Z.max_l by lia.
    now rewrite Nat2Z.id.
  - rewrite Z.min_r by lia. rewrite Z.max_l by lia.
    rewrite Nat2Z.id.
    rewrite firstn_all. symmetry. now apply firstn_all2.
Qed.

(** When both requests succeed the rows of the state are the rows the
    server answered. *)
Lemma loadAnalyticsData_chainData (props : Analytics.Props) (st : UI.App)
    (c : list ChainPerformance.t) (d : list DMADistribution.t) :
  UI.chain_performance (UI.server st) Analytics.chain_performance_url = Some c ->
  UI.dma_distribution (UI.server st) Analytics.dma_distribution_url = Some d ->
  UI.chainData (UI.analytics
    (UI.exec (Analytics.loadAnalyticsData props) st)) = c.
Proof.
  intros Hc Hd.
  unfold UI.exec, Analytics.loadAnalyticsData, UI.bind, UI.http_get.
  simpl. rewrite Hc, Hd. reflexivity.
Qed.

(** What the view holds after its load: the answer to the
    chain-performance request when both requests succeeded, and the
    rows it held before otherwise. *)
Lemma loadAnalyticsData_chainData_cases (props : Analytics.Props)
    (st : UI.App) :
  UI.chainData (UI.analytics
    (UI.exec (Analytics.loadAnalyticsData props) st))
  = match UI.chain_performance (UI.server st)
            Analytics.chain_performance_url,
          UI.dma_distribution (UI.server st)
            Analytics.dma_distribution_url
    with
    | Some c, Some _ => c
    | _, _ => UI.chainData (UI.analytics st)
    end.
Proof.
  unfold UI.exec, Analytics.loadAnalyticsData, UI.bind, UI.http_get.
  simpl.
  destruct (UI.chain_performance (UI.server st)
              Analytics.chain_performance_url);
    [destruct (UI.dma_distribution (UI.server st)
                 Analytics.dma_distribution_url) | ];
    reflexivity.
Qed.

Lemma loadAnalyticsData_ends_loading (props : Analytics.Props)
    (st : UI.App) :
  UI.analyticsLoading (UI.analytics
    (UI.exec (Analytics.loadAnalyticsData props) st)) = false.
Proof.
  unfold UI.exec, Analytics.loadAnalyticsData, UI.bind, UI.http_get.
  simpl.
  destruct (UI.chain_performance (UI.server st)
              Analytics.chain_performance_url);
    [destruct (UI.dma_distribution (UI.server st)
                 Analytics.dma_distribution_url) | ];
    reflexivity.
Qed.

(** C2 (amended). The two bar charts show leading rows of the one
    sequence the view holds: the foot-traffic/sales chart its first 10
    rows and the sales-per-visitor chart its first 8 rows, in the same
    order, so that the second chart shows the first 8 rows of the
    first.  The load of the view sends the chain-performance request
    without any parameter, hence without a sort key, and ends with the
    loading flag off; the sequence the view holds after it is the
    answer to that request when both the chain-performance and the
    DMA-distribution request succeeded, and the sequence held before
    the load (the empty one when the view was mounted) when either
    failed; the charts after the load are the leading rows of that
    sequence. *)
Theorem charts_show_leading_rows :
  forall (chainData : list ChainPerformance.t) (props : Analytics.Props)
         (st : UI.App),
    let st' := UI.exec (Analytics.loadAnalyticsData props) st in
    let held :=
      match UI.chain_performance (UI.server st)
              Analytics.chain_performance_url,
            UI.dma_distribution (UI.server st)
              Analytics.dma_distribution_url
      with
      | Some c, Some _ => c
      | _, _ => UI.chainData (UI.analytics st)
      end in
    Analytics.chainPerformanceChartData chainData = firstn 10 chainData
    /\ Analytics.salesPerVisitorChartData chainData = firstn 8 chainData
    /\ Analytics.salesPerVisitorChartData chainData
       = firstn 8 (Analytics.chainPerformanceChartData chainData)
    /\ UI.sent (Analytics.loadAnalyticsData props) st
       = [js "/api/v1/pois/analytics/chain-performance";
          js "/api/v1/pois/analytics/dma-distribution"]
    /\ UI.analyticsLoading (UI.analytics st') = false
    /\ UI.chainData (UI.analytics st') = held
    /\ Analytics.chainPerformanceChartData (UI.chainData (UI.analytics st'))
       = firstn 10 held
    /\ Analytics.salesPerVisitorChartData (UI.chainData (UI.analytics st'))
       = firstn 8 held
    /\ UI.chainData (UI.analytics (App.initial (UI.server st))) = [].
Proof.
  intros chainData props st st' held.
  assert (H10 : forall rows, Analytics.chainPerformanceChartData rows
                             = firstn 10 rows).
  { intros rows. exact (slice_from_0 rows 10). }
  assert (H8 : forall rows, Analytics.salesPerVisitorChartData rows
                            = firstn 8 rows).
  { intros rows. exact (slice_from_0 rows 8). }
  assert (Hheld : UI.chainData (UI.analytics st') = held).
  { subst st' held. apply loadAnalyticsData_chainData_cases. }
  split; [apply H10 | ].
  split; [apply H8 | ].
  split; [rewrite H8, H10, firstn_firstn; reflexivity | ].
  split; [apply loadAnalyticsData_sent | ].
  split; [apply loadAnalyticsData_ends_loading | ].
  split; [exact Hheld | ].
  split; [rewrite H10, Hheld; reflexivity | ].
  split; [rewrite H8, Hheld; reflexivity | reflexivity].
Qed.

(** The view on the nine chains one sample server answers, and on the
    server whose DMA-distribution request fails: there the charts stay
    empty although the chains arrived. *)
Lemma charts_show_leading_rows_witness :
  UI.chainData (UI.analytics
    (UI.exec (Analytics.loadAnalyticsData
                (Dashboard.analyticsProps Sample.on_page_7))
             (Sample.app_of Sample.analytics_server Sample.on_page_7)))
  = Sample.nine_chains
  /\ map ChainPerformance.chain_name
       (Analytics.salesPerVisitorChartData Sample.nine_chains)
     = [js "A"; js "B"; js "C"; js "D"; js "E"; js "F"; js "G"; js "H"]
  /\ Analytics.chainPerformanceChartData
       (UI.chainData (UI.analytics
          (UI.exec (Analytics.loadAnalyticsData
                      (Dashboard.analyticsProps Dashboard.initial))
                   (App.initial Sample.chains_only_server))))
     = [].
Proof.
  destruct (charts_show_leading_rows Sample.nine_chains
              (Dashboard.analyticsProps Sample.on_page_7)
              (Sample.app_of Sample.analytics_server Sample.on_page_7))
    as (_ & H8 & _ & _ & _ & Hheld & _).
  destruct (charts_show_leading_rows []
              (Dashboard.analyticsProps Dashboard.initial)
              (App.initial Sample.chains_only_server))
    as (_ & _ & _ & _ & _ & _ & Hfail & _).
  split; [exact Hheld | ].
  split; [rewrite H8; reflexivity | exact Hfail].
Defined.

(** C2 (as stated) fails.  The view sends the chain-performance request
    without a sort key, and on the nine chains it is answered the
    sales-per-visitor chart is not the top 8 under the sales-per-visitor
    ranking: chain I, first in that ranking, is not in the chart. *)
Lemma sales_per_visitor_chart_is_not_the_top8 :
  let st := UI.exec (Analytics.loadAnalyticsData
                       (Dashboard.analyticsProps Dashboard.initial))
                    (Sample.app_of Sample.analytics_server Dashboard.initial) in
  UI.requests st = [js "/api/v1/pois/analytics/chain-performance";
                    js "/api/v1/pois/analytics/dma-distribution"]
  /\ UI.chainData (UI.analytics st) = Sample.nine_chains
  /\ Analytics.salesPerVisitorChartData (UI.chainData (UI.analytics st))
     <> Spec.top8_by_sales_per_visitor (UI.chainData (UI.analytics st))
  /\ map ChainPerformance.chain_name
       (Spec.top8_by_sales_per_visitor (UI.chainData (UI.analytics st)))
     = [js "I"; js "A"; js "B"; js "C"; js "D"; js "E"; js "F"; js "G"]
  /\ ~ In (js "I")
         (map ChainPerformance.chain_name
            (Analytics.salesPerVisitorChartData (UI.chainData (UI.analytics st)))).
Proof.
  vm_compute.
  split; [reflexivity | ].
  split; [reflexivity | ].
  split; [discriminate | ].
  split; [reflexivity | ].
  intuition discriminate.
Qed.

End Charts.

(* ================================================================== *)
(** ** The filter object as a finite map                               *)
(* ================================================================== *)

Section FilterUpdate.

Import Js.

Lemma key_eqb_neq (a b : Filters.key) : Filters.key_eqb a b = false <-> a <> b.
Proof.
  split.
  - intros E ->. rewrite key_eqb_refl in E. discriminate E.
  - intros N. destruct (Filters.key_eqb a b) eqn:E; [ | reflexivity].
    apply key_eqb_eq in E. contradiction.
Qed.

Lemma key_eqb_sym (a b : Filters.key) :
  Filters.key_eqb a b = Filters.key_eqb b a.
Proof. destruct a, b; reflexivity. Qed.

(** The test of the filter update is the negation of the test of the
    serializer. *)
Lemma update_test_is_not_present (v : Value) :
  (strict_eq v (VString (js "")) || strict_eq v VNull
   || strict_eq v VUndefined)%bool = negb (Api.present v).
Proof.
  destruct v as [ | | b | n | s]; try reflexivity.
  - destruct n; reflexivity.
  - destruct s; reflexivity.
Qed.

Lemma newFilters_cases (f : Filters.t) (k : Filters.key) (v : Value) :
  POIFilters.newFilters f k v
  = if Api.present v then Filters.set k v f else Filters.delete k f.
Proof.
  unfold POIFilters.newFilters, Obj.spread.
  rewrite update_test_is_not_present. now destruct (Api.present v).
Qed.

Lemma get_delete (k k' : Filters.key) (f : Filters.t) :
  Filters.get k' (Filters.delete k f)
  = if Filters.key_eqb k' k then VUndefined else Filters.get k' f.
Proof.
  unfold Filters.get, Filters.delete.
  induction f as [ | [k0 v0] r IH]; simpl.
  - now destruct (Filters.key_eqb k' k).
  - destruct (Filters.key_eqb k0 k) eqn:E0.
    + rewrite IH. apply key_eqb_eq in E0. subst k0.
      rewrite (key_eqb_sym k k'). now destruct (Filters.key_eqb k' k).
    + simpl. destruct (Filters.key_eqb k0 k') eqn:E1.
      * apply key_eqb_eq in E1. subst k0. now rewrite E0.
      * exact IH.
Qed.

Lemma get_set_other (k k' : Filters.key) (v : Value) (f : Filters.t) :
  Filters.get k' (Filters.set k v f)
  = if Filters.key_eqb k' k then v else Filters.get k' f.
Proof.
  unfold Filters.get, Filters.set.
  induction f as [ | [k0 v0] r IH]; simpl.
  - rewrite (key_eqb_sym k k'). now destruct (Filters.key_eqb k' k).
  - destruct (Filters.key_eqb k0 k) eqn:E0; simpl.
    + apply key_eqb_eq in E0. subst k0.
      rewrite (key_eqb_sym k k'). now destruct (Filters.key_eqb k' k).
    + destruct (Filters.key_eqb k0 k') eqn:E1.
      * apply key_eqb_eq in E1. subst k0. now rewrite E0.
      * exact IH.
Qed.

Lemma others_delete (k : Filters.key) (f : Filters.t) :
  filter (fun kv => negb (Filters.key_eqb (fst kv) k)) (Filters.delete k f)
  = filter (fun kv => negb (Filters.key_eqb (fst kv) k)) f.
Proof.
  unfold Filters.delete.
  induction f as [ | [k0 v0] r IH]; simpl; [reflexivity | ].
  destruct (Filters.key_eqb k0 k) eqn:E0; simpl.
  - exact IH.
  - rewrite E0. simpl. now rewrite IH.
Qed.

Lemma others_set (k : Filters.key) (v : Value) (f : Filters.t) :
  filter (fun kv => negb (Filters.key_eqb (fst kv) k)) (Filters.set k v f)
  = filter (fun kv => negb (Filters.key_eqb (fst kv) k)) f.
Proof.
  unfold Filters.set.
  induction f as [ | [k0 v0] r IH]; simpl.
  - now rewrite key_eqb_refl.
  - destruct (Filters.key_eqb k0 k) eqn:E0; simpl; rewrite E0; simpl.
    + reflexivity.
    + now rewrite IH.
Qed.

Lemma set_twice (k : Filters.key) (v : Value) (f : Filters.t) :
  Filters.set k v (Filters.set k v f) = Filters.set k v f.
Proof.
  unfold Filters.set.
  induction f as [ | [k0 v0] r IH]; simpl.
  - now rewrite key_eqb_refl.
  - destruct (Filters.key_eqb k0 k) eqn:E; simpl; rewrite E.
    + reflexivity.
    + now rewrite IH.
Qed.

Lemma delete_twice (k : Filters.key) (f : Filters.t) :
  Filters.delete k (Filters.delete k f) = Filters.delete k f.
Proof.
  unfold Filters.delete.
  induction f as [ | [k0 v0] r IH]; simpl; [reflexivity | ].
  destruct (Filters.key_eqb k0 k) eqn:E; simpl.
  - exact IH.
  - rewrite E. now rewrite IH.
Qed.

(** What a key reads as after the filter update. *)
Lemma get_newFilters (f : Filters.t) (k k' : Filters.key) (v : Value) :
  Filters.get k' (POIFilters.newFilters f k v)
  = (if Filters.key_eqb k' k
     then (if Api.present v then v else VUndefined)
     else Filters.get k' f).
Proof.
  rewrite newFilters_cases.
  destruct (Api.present v); [apply get_set_other | apply get_delete].
Qed.

(** X1. The filter update of handleFilterChange is the update of a
    finite map at one key: afterwards the key reads as the new value
    when that value is present and as undefined when it is undefined,
    null or the empty string; every other key reads as before; the
    entries of the other keys are the same, in the same order; and
    making the same update twice is the same as making it once. *)
Theorem filter_update_is_a_map_update :
  forall (f : Filters.t) (k k' : Filters.key) (v : Value),
    Filters.get k' (POIFilters.newFilters f k v)
    = (if Filters.key_eqb k' k
       then (if Api.present v then v else VUndefined)
       else Filters.get k' f)
    /\ filter (fun kv => negb (Filters.key_eqb (fst kv) k))
              (Obj.entries (POIFilters.newFilters f k v))
       = filter (fun kv => negb (Filters.key_eqb (fst kv) k))
                (Obj.entries f)
    /\ POIFilters.newFilters (POIFilters.newFilters f k v) k v
       = POIFilters.newFilters f k v.
Proof.
  intros f k k' v. split; [apply get_newFilters | ].
  rewrite !newFilters_cases. unfold Obj.entries.
  destruct (Api.present v).
  - split; [apply others_set | apply set_twice].
  - split; [apply others_delete | apply delete_twice].
Qed.

(** In a well-formed object an entry is what [get] reads. *)
Lemma in_get (f : Filters.t) (k : Filters.key) (v : Value) :
  Obj.wf f -> In (k, v) f -> Filters.get k f = v.
Proof.
  intros Hwf Hin.
  assert (Hhas : Filters.has k f = true).
  { destruct (Filters.has k f) eqn:E; [reflexivity | ].
    apply has_false_not_key in E. exfalso. apply E.
    unfold Obj.keys. apply in_map_iff. now exists (k, v). }
  apply get_in in Hhas. eapply wf_value_unique; eassumption.
Qed.

(** The parameters sent for a well-formed filter object are determined
    by what each key reads as. *)
Lemma in_sent_pairs_get (f : Filters.t) (n v : JsString) :
  Obj.wf f ->
  (In (n, v) (Api.sent_pairs f) <->
   exists k, n = Filters.key_name k
             /\ Api.present (Filters.get k f) = true
             /\ v = toString (Filters.get k f)).
Proof.
  intros Hwf. rewrite in_sent_pairs. split.
  - intros (k & x & Hin & P & -> & ->). exists k.
    rewrite (in_get f k x Hwf Hin). auto.
  - intros (k & -> & P & ->). exists k, (Filters.get k f).
    repeat split; try assumption.
    apply get_in. apply get_defined_has. intros E. rewrite E in P.
    discriminate P.
Qed.

Lemma sent_pairs_NoDup (f : Filters.t) :
  Obj.wf f -> NoDup (Api.sent_pairs f).
Proof.
  intros Hwf. apply (NoDup_map_inv fst).
  exact (names_sent_pairs_NoDup f Hwf).
Qed.

Lemma sent_pairs_same_reads (f g : Filters.t) :
  Obj.wf f -> Obj.wf g ->
  (forall k, Filters.get k f = Filters.get k g) ->
  Permutation (Api.sent_pairs f) (Api.sent_pairs g).
Proof.
  intros Hf Hg Hsame.
  apply NoDup_Permutation; try now apply sent_pairs_NoDup.
  intros [n v]. rewrite !in_sent_pairs_get by assumption.
  split; intros (k & E & P & V); exists k.
  - now rewrite <- Hsame.
  - now rewrite Hsame.
Qed.

(** X2. Two filter updates at different keys commute as far as the
    server can tell: applied in either order to a well-formed filter
    object, every key reads the same afterwards and the requests carry
    the same filter parameters, possibly in another order. *)
Theorem filter_updates_at_different_keys_commute :
  forall (f : Filters.t) (k1 k2 : Filters.key) (v1 v2 : Value)
         (page limit : number),
    Obj.wf f -> k1 <> k2 ->
    let one_two :=
      POIFilters.newFilters (POIFilters.newFilters f k1 v1) k2 v2 in
    let two_one :=
      POIFilters.newFilters (POIFilters.newFilters f k2 v2) k1 v1 in
    (forall k, Filters.get k one_two = Filters.get k two_one)
    /\ Permutation (Api.getSummaryStats_params one_two)
                               (Api.getSummaryStats_params two_one)
    /\ Permutation (Api.getPOIs_params page limit one_two)
                               (Api.getPOIs_params page limit two_one).
Proof.
  intros f k1 k2 v1 v2 page limit Hwf Hne one_two two_one.
  assert (Hreads : forall k, Filters.get k one_two = Filters.get k two_one).
  { intros k. subst one_two two_one.
    rewrite !get_newFilters.
    destruct (Filters.key_eqb k k2) eqn:E2, (Filters.key_eqb k k1) eqn:E1;
      try reflexivity.
    apply key_eqb_eq in E1, E2. congruence. }
  assert (Hperm : Permutation (Api.sent_pairs one_two)
                                          (Api.sent_pairs two_one)).
  { apply sent_pairs_same_reads; [ | | exact Hreads];
      subst one_two two_one; now repeat apply newFilters_wf. }
  split; [exact Hreads | ].
  split.
  - now rewrite !getSummaryStats_params_eq.
  - rewrite !getPOIs_params_eq. now repeat apply perm_skip.
Qed.

Lemma filter_updates_at_different_keys_commute_witness :
  Api.getSummaryStats_params
    (POIFilters.newFilters
       (POIFilters.newFilters Sample.closed_only
          Filters.city (VString (js "Austin")))
       Filters.dma (VNumber (Int 635)))
  = [(js "is_open", js "false"); (js "city", js "Austin");
     (js "dma", js "635")]
  /\ Api.getSummaryStats_params
       (POIFilters.newFilters
          (POIFilters.newFilters Sample.closed_only
             Filters.dma (VNumber (Int 635)))
          Filters.city (VString (js "Austin")))
     = [(js "is_open", js "false"); (js "dma", js "635");
        (js "city", js "Austin")]
  /\ Permutation
       (Api.getSummaryStats_params
          (POIFilters.newFilters
             (POIFilters.newFilters Sample.closed_only
                Filters.city (VString (js "Austin")))
             Filters.dma (VNumber (Int 635))))
       (Api.getSummaryStats_params
          (POIFilters.newFilters
             (POIFilters.newFilters Sample.closed_only
                Filters.dma (VNumber (Int 635)))
             Filters.city (VString (js "Austin")))).
Proof.
  split; [reflexivity | ].
  split; [reflexivity | ].
  refine (proj1 (proj2
    (filter_updates_at_different_keys_commute Sample.closed_only
       Filters.city Filters.dma (VString (js "Austin")) (VNumber (Int 635))
       (Int 1) (Int 20) _ _))).
  - unfold Obj.wf, Obj.keys. simpl. repeat constructor. simpl. tauto.
  - discriminate.
Defined.

End FilterUpdate.

(* ================================================================== *)
(** ** What the loading effects leave behind                           *)
(* ================================================================== *)

Section Loading.

Import Js.

Lemma loadPOIData_dashboard (st : UI.App) :
  UI.dashboard (UI.exec Dashboard.loadPOIData st)
  = let d := UI.dashboard st in
    match UI.pois (UI.server st)
            (Api.getPOIs_url (UI.page d) (UI.rowsPerPage d) (UI.filters d))
    with
    | Some data =>
        {| UI.poiData := Some data; UI.summaryStats := UI.summaryStats d;
           UI.filters := UI.filters d; UI.page := UI.page d;
           UI.rowsPerPage := UI.rowsPerPage d; UI.loading := false;
           UI.statsLoading := UI.statsLoading d; UI.error := None |}
    | None =>
        {| UI.poiData := UI.poiData d; UI.summaryStats := UI.summaryStats d;
           UI.filters := UI.filters d; UI.page := UI.page d;
           UI.rowsPerPage := UI.rowsPerPage d; UI.loading := false;
           UI.statsLoading := UI.statsLoading d;
           UI.error := Some (js "Failed to load POI data") |}
    end.
Proof.
  unfold UI.exec, Dashboard.loadPOIData, Api.getPOIs, UI.bind, UI.http_get.
  simpl. destruct (UI.pois (UI.server st) _); reflexivity.
Qed.

Lemma loadSummaryStats_dashboard (st : UI.App) :
  UI.dashboard (UI.exec Dashboard.loadSummaryStats st)
  = let d := UI.dashboard st in
    match UI.summary (UI.server st) (Api.getSummaryStats_url (UI.filters d))
    with
    | Some stats =>
        {| UI.poiData := UI.poiData d; UI.summaryStats := Some stats;
           UI.filters := UI.filters d; UI.page := UI.page d;
           UI.rowsPerPage := UI.rowsPerPage d; UI.loading := UI.loading d;
           UI.statsLoading := false; UI.error := UI.error d |}
    | None =>
        {| UI.poiData := UI.poiData d; UI.summaryStats := UI.summaryStats d;
           UI.filters := UI.filters d; UI.page := UI.page d;
           UI.rowsPerPage := UI.rowsPerPage d; UI.loading := UI.loading d;
           UI.statsLoading := false;
           UI.error := Some (js "Failed to load summary statistics") |}
    end.
Proof.
  unfold UI.exec, Dashboard.loadSummaryStats, Api.getSummaryStats, UI.bind,
    UI.http_get.
  simpl. destruct (UI.summary (UI.server st) _); reflexivity.
Qed.

Lemma loadAnalyticsData_analytics (props : Analytics.Props) (st : UI.App) :
  UI.analytics (UI.exec (Analytics.loadAnalyticsData props) st)
  = match UI.chain_performance (UI.server st) Analytics.chain_performance_url,
          UI.dma_distribution (UI.server st) Analytics.dma_distribution_url
    with
    | Some c, Some d =>
        {| UI.chainData := c; UI.dmaData := d;
           UI.analyticsLoading := false; UI.analyticsError := None |}
    | _, _ =>
        {| UI.chainData := UI.chainData (UI.analytics st);
           UI.dmaData := UI.dmaData (UI.analytics st);
           UI.analyticsLoading := false;
           UI.analyticsError := Some (js "Failed to load analytics data") |}
    end.
Proof.
  unfold UI.exec, Analytics.loadAnalyticsData, UI.bind, UI.http_get.
  simpl.
  destruct (UI.chain_performance (UI.server st)
              Analytics.chain_performance_url);
    [destruct (UI.dma_distribution (UI.server st)
                 Analytics.dma_distribution_url) | ];
    reflexivity.
Qed.

Lemma loadAnalyticsData_dashboard (props : Analytics.Props) (st : UI.App) :
  UI.dashboard (UI.exec (Analytics.loadAnalyticsData props) st)
  = UI.dashboard st.
Proof.
  unfold UI.exec, Analytics.loadAnalyticsData, UI.bind, UI.http_get.
  simpl.
  destruct (UI.chain_performance (UI.server st)
              Analytics.chain_performance_url);
    [destruct (UI.dma_distribution (UI.server st)
                 Analytics.dma_distribution_url) | ];
    reflexivity.
Qed.

Lemma loadPOIData_filters (st : UI.App) :
  UI.filters (UI.dashboard (UI.exec Dashboard.loadPOIData st))
  = UI.filters (UI.dashboard st).
Proof.
  rewrite loadPOIData_dashboard. cbv zeta.
  now destruct (UI.pois (UI.server st) _).
Qed.

Lemma loadSummaryStats_filters (st : UI.App) :
  UI.filters (UI.dashboard (UI.exec Dashboard.loadSummaryStats st))
  = UI.filters (UI.dashboard st).
Proof.
  rewrite loadSummaryStats_dashboard. cbv zeta.
  now destruct (UI.summary (UI.server st) _).
Qed.

(** The Dashboard after the first part of [loadPOIData]. *)
Lemma loadPOIData_request_dashboard (st : UI.App) :
  UI.dashboard (UI.exec Dashboard.loadPOIData_request st)
  = let d := UI.dashboard st in
    {| UI.poiData := UI.poiData d; UI.summaryStats := UI.summaryStats d;
       UI.filters := UI.filters d; UI.page := UI.page d;
       UI.rowsPerPage := UI.rowsPerPage d; UI.loading := true;
       UI.statsLoading := UI.statsLoading d; UI.error := None |}.
Proof. reflexivity. Qed.

(** The Dashboard after the second part, run with the answer [data] on
    any state. *)
Lemma loadPOIData_settle_dashboard (data : option PaginatedPOIResponse.t)
    (st : UI.App) :
  UI.dashboard (UI.exec (Dashboard.loadPOIData_settle data) st)
  = let d := UI.dashboard st in
    match data with
    | Some r =>
        {| UI.poiData := Some r; UI.summaryStats := UI.summaryStats d;
           UI.filters := UI.filters d; UI.page := UI.page d;
           UI.rowsPerPage := UI.rowsPerPage d; UI.loading := false;
           UI.statsLoading := UI.statsLoading d; UI.error := UI.error d |}
    | None =>
        {| UI.poiData := UI.poiData d; UI.summaryStats := UI.summaryStats d;
           UI.filters := UI.filters d; UI.page := UI.page d;
           UI.rowsPerPage := UI.rowsPerPage d; UI.loading := false;
           UI.statsLoading := UI.statsLoading d;
           UI.error := Some (js "Failed to load POI data") |}
    end.
Proof. destruct data; reflexivity. Qed.

(** [loadPOIData] is its first part followed at once by its second. *)
Lemma loadPOIData_phases :
  Dashboard.loadPOIData
  = UI.bind Dashboard.loadPOIData_request Dashboard.loadPOIData_settle.
Proof. reflexivity. Qed.

(** X3. loadPOIData in its two parts.  Up to the await it turns the
    loading flag on, clears the error and sends the one getPOIs request
    for the page, the page size and the filters of the state it
    started in, changing nothing else.  When the answer arrives,
    whatever state [later] the application is in by then (other
    loaders and handlers may have run meanwhile), it turns the loading
    flag off, sends nothing and never changes the filters, the page,
    the page size or the summary; a successful answer becomes the
    table data and the error is left as it is in [later], so a message
    another loader stored while the request was pending stays; a failed
    request sets the error message and keeps the table data of
    [later].  When nothing runs in between, the error is clear after a
    success. *)
Theorem loadPOIData_outcome :
  forall (st later : UI.App) (data : option PaginatedPOIResponse.t),
    let d := UI.dashboard st in
    let url := Api.getPOIs_url (UI.page d) (UI.rowsPerPage d) (UI.filters d) in
    let pending := UI.dashboard (UI.exec Dashboard.loadPOIData_request st) in
    let l := UI.dashboard later in
    let l' := UI.dashboard
                (UI.exec (Dashboard.loadPOIData_settle data) later) in
    fst (Dashboard.loadPOIData_request st) = UI.pois (UI.server st) url
    /\ UI.sent Dashboard.loadPOIData_request st = [url]
    /\ pending
       = {| UI.poiData := UI.poiData d; UI.summaryStats := UI.summaryStats d;
            UI.filters := UI.filters d; UI.page := UI.page d;
            UI.rowsPerPage := UI.rowsPerPage d; UI.loading := true;
            UI.statsLoading := UI.statsLoading d; UI.error := None |}
    /\ UI.sent (Dashboard.loadPOIData_settle data) later = []
    /\ UI.loading l' = false
    /\ UI.filters l' = UI.filters l
    /\ UI.page l' = UI.page l
    /\ UI.rowsPerPage l' = UI.rowsPerPage l
    /\ UI.summaryStats l' = UI.summaryStats l
    /\ UI.statsLoading l' = UI.statsLoading l
    /\ match data with
       | Some r => UI.poiData l' = Some r /\ UI.error l' = UI.error l
       | None => UI.poiData l' = UI.poiData l
                 /\ UI.error l' = Some (js "Failed to load POI data")
       end
    /\ UI.exec Dashboard.loadPOIData st
       = UI.exec (Dashboard.loadPOIData_settle (UI.pois (UI.server st) url))
                 (UI.exec Dashboard.loadPOIData_request st)
    /\ UI.error (UI.dashboard (UI.exec Dashboard.loadPOIData st))
       = match UI.pois (UI.server st) url with
         | Some _ => None
         | None => Some (js "Failed to load POI data")
         end.
Proof.
  intros st later data d url pending l l'.
  split; [reflexivity | ].
  split; [apply loadPOIData_request_sent | ].
  split; [reflexivity | ].
  split.
  { unfold UI.sent, UI.exec, Dashboard.loadPOIData_settle, UI.bind.
    destruct data; simpl; apply skipn_all. }
  subst l'. rewrite loadPOIData_settle_dashboard. cbv zeta.
  split; [destruct data; reflexivity | ].
  split; [destruct data; reflexivity | ].
  split; [destruct data; reflexivity | ].
  split; [destruct data; reflexivity | ].
  split; [destruct data; reflexivity | ].
  split; [destruct data; reflexivity | ].
  split; [destruct data; split; reflexivity | ].
  split; [reflexivity | ].
  rewrite loadPOIData_dashboard. cbv zeta. subst url d.
  destruct (UI.pois (UI.server st) _); reflexivity.
Qed.

(** The summary request fails while the listing request is pending:
    the listing arrives and is shown, and the error message of the
    summary stays, although loadPOIData had cleared the error. *)
Lemma loadPOIData_outcome_witness :
  let st := Sample.app_of Sample.page_2_server Sample.on_page_7 in
  let pending := UI.exec Dashboard.loadPOIData_request st in
  let later := UI.exec Dashboard.loadSummaryStats pending in
  let final :=
    UI.dashboard
      (UI.exec (Dashboard.loadPOIData_settle (Some Sample.page_2_of_3))
               later) in
  fst (Dashboard.loadPOIData_request st) = Some Sample.page_2_of_3
  /\ UI.error (UI.dashboard pending) = None
  /\ UI.poiData final = Some Sample.page_2_of_3
  /\ UI.loading final = false
  /\ UI.error final = Some (js "Failed to load summary statistics").
Proof.
  intros st pending later final.
  destruct (loadPOIData_outcome st later (Some Sample.page_2_of_3))
    as (Hanswer & _ & Hpending & _ & Hloading & _ & _ & _ & _ & _
        & Hdata & _).
  split; [exact Hanswer | ].
  split; [subst pending; rewrite Hpending; reflexivity | ].
  destruct Hdata as [Hpoi Herr].
  split; [exact Hpoi | ].
  split; [exact Hloading | ].
  subst final. rewrite Herr. reflexivity.
Defined.

(** X4. loadSummaryStats always ends with its loading flag off and
    changes nothing but the summary, its flag and the error.  When the
    request succeeds the answer becomes the summary and the error is
    left as it was, so an earlier error message stays; when it fails
    the error message is set and the summary shown before is kept. *)
Theorem loadSummaryStats_outcome :
  forall (st : UI.App),
    let d := UI.dashboard st in
    let d' := UI.dashboard (UI.exec Dashboard.loadSummaryStats st) in
    let answer :=
      UI.summary (UI.server st) (Api.getSummaryStats_url (UI.filters d)) in
    UI.statsLoading d' = false
    /\ UI.filters d' = UI.filters d
    /\ UI.page d' = UI.page d
    /\ UI.rowsPerPage d' = UI.rowsPerPage d
    /\ UI.poiData d' = UI.poiData d
    /\ UI.loading d' = UI.loading d
    /\ (forall stats, answer = Some stats ->
          UI.summaryStats d' = Some stats /\ UI.error d' = UI.error d)
    /\ (answer = None ->
          UI.summaryStats d' = UI.summaryStats d
          /\ UI.error d' = Some (js "Failed to load summary statistics")).
Proof.
  intros st d d' answer. subst d' answer d.
  rewrite loadSummaryStats_dashboard. cbv zeta.
  destruct (UI.summary (UI.server st) _) as [stats | ]; cbn.
  - repeat (split; [reflexivity | ]). split.
    + intros ? [= <-]. split; reflexivity.
    + discriminate.
  - repeat (split; [reflexivity | ]). split.
    + discriminate.
    + intros _. split; reflexivity.
Qed.

Lemma loadSummaryStats_outcome_witness :
  UI.summary (UI.server (Sample.app_of Sample.no_server Sample.on_page_7))
    (Api.getSummaryStats_url Sample.closed_only) = None
  /\ UI.error (UI.dashboard
       (UI.exec Dashboard.loadSummaryStats
          (Sample.app_of Sample.no_server Sample.on_page_7)))
     = Some (js "Failed to load summary statistics").
Proof.
  split; [reflexivity | ].
  destruct (loadSummaryStats_outcome
              (Sample.app_of Sample.no_server Sample.on_page_7))
    as (_ & _ & _ & _ & _ & _ & _ & Hfail).
  exact (proj2 (Hfail eq_refl)).
Defined.

(** X5. loadAnalyticsData updates the two data sets together or not at
    all: it always sends both requests and ends with the loading flag
    off; when both succeed both answers are stored and the error is
    cleared; when either fails the error is set and both data sets
    stay as they were, also the one whose request succeeded. *)
Theorem loadAnalyticsData_all_or_nothing :
  forall (props : Analytics.Props) (st : UI.App),
    let a := UI.analytics st in
    let a' := UI.analytics (UI.exec (Analytics.loadAnalyticsData props) st) in
    let chains := UI.chain_performance (UI.server st)
                    Analytics.chain_performance_url in
    let dmas := UI.dma_distribution (UI.server st)
                  Analytics.dma_distribution_url in
    UI.sent (Analytics.loadAnalyticsData props) st
    = [Analytics.chain_performance_url; Analytics.dma_distribution_url]
    /\ UI.analyticsLoading a' = false
    /\ (forall c d, chains = Some c -> dmas = Some d ->
          UI.chainData a' = c /\ UI.dmaData a' = d
          /\ UI.analyticsError a' = None)
    /\ (chains = None \/ dmas = None ->
          UI.chainData a' = UI.chainData a /\ UI.dmaData a' = UI.dmaData a
          /\ UI.analyticsError a'
             = Some (js "Failed to load analytics data")).
Proof.
  intros props st a a' chains dmas.
  split; [apply loadAnalyticsData_sent | ].
  subst a' chains dmas a. rewrite loadAnalyticsData_analytics.
  destruct (UI.chain_performance (UI.server st) _) as [c | ],
           (UI.dma_distribution (UI.server st) _) as [d | ]; cbn.
  - split; [reflexivity | ]. split.
    + intros ? ? [= <-] [= <-]. auto.
    + intros [X | X]; discriminate X.
  - split; [reflexivity | ]. split; [discriminate | auto].
  - split; [reflexivity | ]. split; [discriminate | auto].
  - split; [reflexivity | ]. split; [discriminate | auto].
Qed.

End Loading.

Section LoadingExamples.

Import Js.

(** One answer of two: the chains that arrived are not shown. *)
Lemma loadAnalyticsData_all_or_nothing_witness :
  UI.dma_distribution Sample.chains_only_server
    Analytics.dma_distribution_url = None
  /\ UI.chain_performance Sample.chains_only_server
       Analytics.chain_performance_url = Some Sample.nine_chains
  /\ UI.chainData (UI.analytics
       (UI.exec (Analytics.loadAnalyticsData
                   (Dashboard.analyticsProps Dashboard.initial))
                (App.initial Sample.chains_only_server))) = []
  /\ UI.analyticsError (UI.analytics
       (UI.exec (Analytics.loadAnalyticsData
                   (Dashboard.analyticsProps Dashboard.initial))
                (App.initial Sample.chains_only_server)))
     = Some (js "Failed to load analytics data").
Proof.
  split; [reflexivity | ].
  split; [reflexivity | ].
  destruct (loadAnalyticsData_all_or_nothing
              (Dashboard.analyticsProps Dashboard.initial)
              (App.initial Sample.chains_only_server))
    as (_ & _ & _ & Hfail).
  destruct (Hfail (or_intror eq_refl)) as (Hc & _ & He).
  split; [exact Hc | exact He].
Defined.

End LoadingExamples.

(* ================================================================== *)
(** ** Invariants of the reachable states                              *)
(* ================================================================== *)

Section Reachable.

Import Js.

Lemma set_present (k : Filters.key) (v : Value) (f : Filters.t) :
  Api.present v = true ->
  Forall (fun kv => Api.present (snd kv) = true) f ->
  Forall (fun kv => Api.present (snd kv) = true) (Filters.set k v f).
Proof.
  intros Hv. unfold Filters.set.
  induction 1 as [ | [k0 v0] r H0 Hr IH]; simpl.
  - now repeat constructor.
  - destruct (Filters.key_eqb k0 k); constructor; auto.
Qed.

Lemma delete_present (k : Filters.key) (f : Filters.t) :
  Forall (fun kv => Api.present (snd kv) = true) f ->
  Forall (fun kv => Api.present (snd kv) = true) (Filters.delete k f).
Proof.
  unfold Filters.delete.
  induction 1 as [ | [k0 v0] r H0 Hr IH]; simpl.
  - constructor.
  - destruct (Filters.key_eqb k0 k); [exact IH | now constructor].
Qed.

(** The filter update never stores an absent value. *)
Lemma newFilters_present (f : Filters.t) (k : Filters.key) (v : Value) :
  Forall (fun kv => Api.present (snd kv) = true) f ->
  Forall (fun kv => Api.present (snd kv) = true)
         (POIFilters.newFilters f k v).
Proof.
  intros H. rewrite newFilters_cases.
  destruct (Api.present v) eqn:E.
  - now apply set_present.
  - now apply delete_present.
Qed.

Lemma handle_keeps_present (ev : App.Event) (st : UI.App) :
  Forall (fun kv => Api.present (snd kv) = true)
         (UI.filters (UI.dashboard st)) ->
  Forall (fun kv => Api.present (snd kv) = true)
         (UI.filters (UI.dashboard (UI.exec (App.handle ev) st))).
Proof.
  intros H. destruct ev as [k v | s | | | | c | k | n | s].
  - exact (newFilters_present _ k v H).
  - change (UI.exec (App.handle (App.SearchInput s)) st)
      with (UI.exec (POIFilters.handleSearchChange s) st).
    now rewrite handleSearchChange_dashboard.
  - exact (newFilters_present _ Filters.search _ H).
  - exact (newFilters_present _ Filters.search (VString (js "")) H).
  - constructor.
  - change (UI.exec (App.handle (App.StatusSelect c)) st)
      with (UI.exec (POIFilters.onStatusChange
                       (Dashboard.poiFiltersProps (UI.dashboard st)) c) st).
    rewrite onStatusChange_filters.
    destruct (str_eqb c (js "")); now apply newFilters_present.
  - exact (newFilters_present _ k VUndefined H).
  - exact H.
  - exact H.
Qed.

(** A step keeps the filter object well formed and free of absent
    values. *)
Lemma step_keeps_filters (st st' : UI.App) :
  App.step st st' ->
  Obj.wf (UI.filters (UI.dashboard st))
  /\ Forall (fun kv => Api.present (snd kv) = true)
            (UI.filters (UI.dashboard st)) ->
  Obj.wf (UI.filters (UI.dashboard st'))
  /\ Forall (fun kv => Api.present (snd kv) = true)
            (UI.filters (UI.dashboard st')).
Proof.
  intros Hstep [Hwf Hp].
  destruct Hstep as [ev st | st | st | data st | st | st].
  - split; [now apply handle_keeps_filters_wf | now apply handle_keeps_present].
  - rewrite loadPOIData_filters. now split.
  - rewrite loadPOIData_request_dashboard. now split.
  - rewrite loadPOIData_settle_dashboard. destruct data; now split.
  - rewrite loadSummaryStats_filters. now split.
  - rewrite loadAnalyticsData_dashboard. now split.
Qed.

Lemma sent_pairs_length (f : Filters.t) :
  Forall (fun kv => Api.present (snd kv) = true) f ->
  List.length (Api.sent_pairs f) = List.length f.
Proof.
  unfold Api.sent_pairs. rewrite length_map.
  induction 1 as [ | [k v] r H Hr IH]; simpl; [reflexivity | ].
  simpl in H. rewrite H. simpl. now rewrite IH.
Qed.

(** X6. In every state the application can reach from its start, by
    any sequence of events and loading effects, the filter object has
    no duplicate key and holds no undefined, null or empty value.
    Hence every entry of the filter object is sent, in order, as a
    parameter of the summary request; the number of active filters
    shown by the badge is the number of chips and the number of those
    parameters, and the listing request has two parameters more. *)
Theorem active_filters_are_the_parameters_sent :
  forall (srv : UI.Server) (st : UI.App),
    App.reachable srv st ->
    let d := UI.dashboard st in
    Obj.wf (UI.filters d)
    /\ (forall k v, In (k, v) (Obj.entries (UI.filters d)) ->
                    Api.present v = true)
    /\ Api.getSummaryStats_params (UI.filters d)
       = map (fun kv => (Filters.key_name (fst kv), toString (snd kv)))
             (Obj.entries (UI.filters d))
    /\ Z.of_nat (List.length (Api.getSummaryStats_params (UI.filters d)))
       = POIFilters.getActiveFiltersCount (UI.filters d)
    /\ Z.of_nat (List.length
         (Api.getPOIs_params (UI.page d) (UI.rowsPerPage d) (UI.filters d)))
       = 2 + POIFilters.getActiveFiltersCount (UI.filters d)
    /\ Z.of_nat (List.length (POIFilters.activeFilterChips (UI.filters d)))
       = POIFilters.getActiveFiltersCount (UI.filters d).
Proof.
  intros srv st Hreach d. subst d.
  assert (Hinv : Obj.wf (UI.filters (UI.dashboard st))
                 /\ Forall (fun kv => Api.present (snd kv) = true)
                           (UI.filters (UI.dashboard st))).
  { induction Hreach as [ | st st' _ IH Hstep].
    - split; constructor.
    - exact (step_keeps_filters st st' Hstep IH). }
  destruct Hinv as [Hwf Hp].
  split; [exact Hwf | ].
  split.
  { intros k v Hin. rewrite Forall_forall in Hp. exact (Hp (k, v) Hin). }
  split.
  { rewrite getSummaryStats_params_eq. unfold Api.sent_pairs, Obj.entries.
    f_equal. clear Hwf.
    induction Hp as [ | [k v] r H Hr IH]; [reflexivity | ].
    cbn [filter snd]. cbn [snd] in H. rewrite H. now rewrite IH. }
  unfold POIFilters.getActiveFiltersCount, POIFilters.activeFilterChips,
    Obj.keys, Obj.entries.
  rewrite getSummaryStats_params_eq, getPOIs_params_eq.
  cbn [List.length]. rewrite !length_map, (sent_pairs_length _ Hp).
  repeat split; lia.
Qed.

(** After choosing a chain and then "Closed Only", with a reload in
    between: two active filters, two filter parameters. *)
Lemma active_filters_are_the_parameters_sent_witness :
  App.reachable Sample.no_server
    (UI.exec (App.handle (App.StatusSelect (js "false")))
       (UI.exec Dashboard.loadPOIData
          (UI.exec (App.handle
                      (App.FilterSelect Filters.chain_name (VString (js "A"))))
                   (App.initial Sample.no_server))))
  /\ Api.getSummaryStats_params
       (UI.filters (UI.dashboard
          (UI.exec (App.handle (App.StatusSelect (js "false")))
             (UI.exec Dashboard.loadPOIData
                (UI.exec (App.handle
                   (App.FilterSelect Filters.chain_name (VString (js "A"))))
                   (App.initial Sample.no_server))))))
     = [(js "chain_name", js "A"); (js "is_open", js "false")]
  /\ POIFilters.getActiveFiltersCount
       (UI.filters (UI.dashboard
          (UI.exec (App.handle (App.StatusSelect (js "false")))
             (UI.exec Dashboard.loadPOIData
                (UI.exec (App.handle
                   (App.FilterSelect Filters.chain_name (VString (js "A"))))
                   (App.initial Sample.no_server))))))
     = 2.
Proof.
  assert (R : App.reachable Sample.no_server
    (UI.exec (App.handle (App.StatusSelect (js "false")))
       (UI.exec Dashboard.loadPOIData
          (UI.exec (App.handle
                      (App.FilterSelect Filters.chain_name (VString (js "A"))))
                   (App.initial Sample.no_server))))).
  { eapply App.reachable_step; [ | apply App.step_event].
    eapply App.reachable_step; [ | apply App.step_loadPOIData].
    eapply App.reachable_step; [ | apply App.step_event].
    apply App.reachable_initial. }
  split; [exact R | ].
  destruct (active_filters_are_the_parameters_sent Sample.no_server _ R)
    as (_ & _ & _ & Hcount & _).
  split; [vm_compute; reflexivity | ].
  rewrite <- Hcount. vm_compute. reflexivity.
Defined.

End Reachable.

(* ================================================================== *)
(** ** The query string                                                *)
(* ================================================================== *)

Section QueryString.

Import Js.

Local Open Scope N_scope.

Lemma hex_digit_not_separator (d : N) :
  URLSearchParams.hex_digit d <> 0x26 /\ URLSearchParams.hex_digit d <> 0x3D.
Proof.
  unfold URLSearchParams.hex_digit.
  destruct (N.ltb_spec d 10); split; lia.
Qed.

Lemma unreserved_below_128 (b : N) :
  URLSearchParams.unreserved b = true -> b < 0x80.
Proof.
  unfold URLSearchParams.unreserved.
  rewrite !Bool.orb_true_iff, !Bool.andb_true_iff, !N.leb_le, !N.eqb_eq.
  lia.
Qed.

Lemma unreserved_not_separator (b : N) :
  URLSearchParams.unreserved b = true -> b <> 0x26 /\ b <> 0x3D.
Proof.
  intros H. split; intros ->; vm_compute in H; discriminate H.
Qed.

Lemma encode_byte_no_separator (b : N) :
  Forall (fun c => c <> 0x26 /\ c <> 0x3D) (URLSearchParams.encode_byte b).
Proof.
  unfold URLSearchParams.encode_byte.
  destruct (URLSearchParams.unreserved b) eqn:U.
  - constructor; [now apply unreserved_not_separator | constructor].
  - destruct (b =? 0x20).
    + constructor; [split; discriminate | constructor].
    + repeat constructor; try discriminate;
        apply hex_digit_not_separator.
Qed.

(** An encoded name or value contains neither [&] nor [=]. *)
Lemma encode_no_separator (s : JsString) :
  Forall (fun c => c <> 0x26 /\ c <> 0x3D) (URLSearchParams.encode s).
Proof.
  unfold URLSearchParams.encode.
  induction (flat_map URLSearchParams.utf8_encode
               (URLSearchParams.code_points s)) as [ | b bs IH]; simpl.
  - constructor.
  - apply Forall_app. split; [apply encode_byte_no_separator | exact IH].
Qed.

Lemma count_occ_absent (x : N) (l : list N) :
  Forall (fun c => c <> x) l -> count_occ N.eq_dec l x = 0%nat.
Proof.
  intros H. apply count_occ_not_In. rewrite Forall_forall in H.
  intros Hin. now apply (H x Hin).
Qed.

Lemma encode_pair_separators (nv : JsString * JsString) :
  count_occ N.eq_dec (URLSearchParams.encode_pair nv) 0x26 = 0%nat
  /\ count_occ N.eq_dec (URLSearchParams.encode_pair nv) 0x3D = 1%nat.
Proof.
  unfold URLSearchParams.encode_pair.
  rewrite !count_occ_app. cbn [count_occ].
  destruct (N.eq_dec 0x3D 0x26) as [X | _]; [discriminate X | ].
  destruct (N.eq_dec 0x3D 0x3D) as [_ | X]; [ | contradiction].
  rewrite !(count_occ_absent 0x26), !(count_occ_absent 0x3D);
    try (eapply Forall_impl; [ | apply encode_no_separator];
         cbn; tauto).
  split; reflexivity.
Qed.

(** The serialized parameters, pair by pair. *)
Lemma toString_cons (nv : JsString * JsString) (r : URLSearchParams.t) :
  URLSearchParams.toString (nv :: r)
  = URLSearchParams.encode_pair nv
    ++ flat_map (fun x => 0x26 :: URLSearchParams.encode_pair x) r.
Proof.
  revert nv. induction r as [ | x r IH]; intros nv.
  - simpl. now rewrite app_nil_r.
  - change (URLSearchParams.toString (nv :: x :: r))
      with (URLSearchParams.encode_pair nv ++ [0x26]
            ++ URLSearchParams.toString (x :: r)).
    rewrite IH. reflexivity.
Qed.

Lemma toString_separators (nv : JsString * JsString) (r : URLSearchParams.t) :
  count_occ N.eq_dec (URLSearchParams.toString (nv :: r)) 0x26
  = List.length r
  /\ count_occ N.eq_dec (URLSearchParams.toString (nv :: r)) 0x3D
     = S (List.length r).
Proof.
  rewrite toString_cons.
  assert (Htail :
    count_occ N.eq_dec
      (flat_map (fun x => 0x26 :: URLSearchParams.encode_pair x) r) 0x26
    = List.length r
    /\ count_occ N.eq_dec
         (flat_map (fun x => 0x26 :: URLSearchParams.encode_pair x) r) 0x3D
       = List.length r).
  { induction r as [ | x r [IH1 IH2]]; [split; reflexivity | ].
    cbn [flat_map List.length]. rewrite <- app_comm_cons.
    destruct (encode_pair_separators x) as [E1 E2].
    remember (URLSearchParams.encode_pair x) as e eqn:He. clear He.
    rewrite count_occ_cons_eq by reflexivity.
    rewrite count_occ_cons_neq by discriminate.
    rewrite !count_occ_app. unfold code_unit in *.
    rewrite E1, E2, IH1, IH2. split; reflexivity. }
  destruct Htail as [T1 T2].
  destruct (encode_pair_separators nv) as [E1 E2].
  remember (URLSearchParams.encode_pair nv) as e eqn:He. clear He.
  rewrite !count_occ_app. unfold code_unit in *.
  rewrite E1, E2, T1, T2. split; reflexivity.
Qed.

Lemma url_separators (path : string) (q : JsString) :
  count_occ N.eq_dec (js path ++ q) 0x26
  = Nat.add (count_occ N.eq_dec (js path) 0x26) (count_occ N.eq_dec q 0x26).
Proof. apply count_occ_app. Qed.

Lemma url_equals (path : string) (q : JsString) :
  count_occ N.eq_dec (js path ++ q) 0x3D
  = Nat.add (count_occ N.eq_dec (js path) 0x3D) (count_occ N.eq_dec q 0x3D).
Proof. apply count_occ_app. Qed.

(** X7. Whatever the filter values are (a search text with [&], [=],
    spaces or any other characters included), the URL of the getPOIs
    request has exactly one [=] per parameter and one [&] between
    consecutive parameters: page, limit, and one parameter per present
    filter entry.  The URL of an autocomplete request has exactly one
    [=] and no [&].  A value can therefore never add or split a
    parameter. *)
Theorem values_cannot_add_parameters :
  forall (page limit : number) (f : Filters.t) (query : JsString),
    let present_entries :=
      List.length (filter (fun kv => Api.present (snd kv)) f) in
    count_occ N.eq_dec (Api.getPOIs_url page limit f) 0x3D
    = (2 + present_entries)%nat
    /\ count_occ N.eq_dec (Api.getPOIs_url page limit f) 0x26
       = (1 + present_entries)%nat
    /\ count_occ N.eq_dec (Api.getSummaryStats_url f) 0x3D = present_entries
    /\ count_occ N.eq_dec (Api.getSummaryStats_url f) 0x26
       = (present_entries - 1)%nat
    /\ count_occ N.eq_dec (Api.getAutocomplete_url query None) 0x3D = 1%nat
    /\ count_occ N.eq_dec (Api.getAutocomplete_url query None) 0x26 = 0%nat.
Proof.
  intros page limit f query present_entries.
  assert (Hlen : List.length (Api.sent_pairs f) = present_entries).
  { unfold Api.sent_pairs. now rewrite length_map. }
  unfold Api.getPOIs_url, Api.getSummaryStats_url, Api.getAutocomplete_url.
  rewrite getPOIs_params_eq, getSummaryStats_params_eq.
  unfold URLSearchParams.new, URLSearchParams.append. cbn [app].
  rewrite !url_separators, !url_equals.
  destruct (toString_separators (js "page", number_toString page)
              ((js "limit", number_toString limit) :: Api.sent_pairs f))
    as [-> ->].
  destruct (toString_separators (js "query", query) []) as [-> ->].
  cbn [List.length]. rewrite Hlen.
  split; [reflexivity | ].
  split; [reflexivity | ].
  rewrite <- Hlen. destruct (Api.sent_pairs f) as [ | nv r].
  - split; [reflexivity | ]. split; [reflexivity | ]. split; reflexivity.
  - destruct (toString_separators nv r) as [-> ->].
    cbn [List.length]. split; [reflexivity | ].
    split; [cbn; lia | ]. split; reflexivity.
Qed.

Lemma encode_unreserved (s : JsString) :
  Forall (fun c => URLSearchParams.unreserved c = true) s ->
  URLSearchParams.encode s = s.
Proof.
  unfold URLSearchParams.encode.
  induction 1 as [ | c r Hc Hr IH]; [reflexivity | ].
  pose proof (unreserved_below_128 c Hc) as Hlt.
  assert (Hhigh : URLSearchParams.is_high_surrogate c = false).
  { unfold URLSearchParams.is_high_surrogate.
    apply Bool.andb_false_iff. left. apply N.leb_gt. lia. }
  assert (Hlow : URLSearchParams.is_low_surrogate c = false).
  { unfold URLSearchParams.is_low_surrogate.
    apply Bool.andb_false_iff. left. apply N.leb_gt. lia. }
  cbn [URLSearchParams.code_points]. rewrite Hhigh, Hlow.
  cbn [flat_map]. unfold URLSearchParams.utf8_encode at 1.
  apply N.ltb_lt in Hlt. rewrite Hlt. cbn [app flat_map].
  unfold URLSearchParams.encode_byte at 1. rewrite Hc.
  cbn [app]. now rewrite IH.
Qed.

Lemma uint_string_unreserved (d : Decimal.uint) :
  Forall (fun c => URLSearchParams.unreserved c = true)
         (js (NilEmpty.string_of_uint d)).
Proof.
  induction d; cbn; constructor; try reflexivity; assumption.
Qed.

Lemma Z_toString_unreserved (z : Z) :
  Forall (fun c => URLSearchParams.unreserved c = true) (Z_toString z).
Proof.
  unfold Z_toString.
  assert (H : forall d, Forall (fun c => URLSearchParams.unreserved c = true)
                               (js (NilZero.string_of_uint d))).
  { intros d. destruct d; try apply uint_string_unreserved.
    cbn. now repeat constructor. }
  destruct z as [ | p | p]; cbn.
  - now repeat constructor.
  - apply H.
  - constructor; [reflexivity | apply H].
Qed.

Lemma number_toString_unreserved (n : number) :
  Forall (fun c => URLSearchParams.unreserved c = true) (number_toString n).
Proof.
  destruct n; [apply Z_toString_unreserved | ].
  cbn. now repeat constructor.
Qed.

Lemma key_name_unreserved (k : Filters.key) :
  Forall (fun c => URLSearchParams.unreserved c = true) (Filters.key_name k).
Proof. destruct k; cbn; now repeat constructor. Qed.

Lemma sent_pairs_tail (f : Filters.t) :
  flat_map (fun x => 0x26 :: URLSearchParams.encode_pair x) (Api.sent_pairs f)
  = flat_map
      (fun kv => js "&" ++ Filters.key_name (fst kv) ++ js "="
                 ++ URLSearchParams.encode (toString (snd kv)))
      (filter (fun kv => Api.present (snd kv)) f).
Proof.
  unfold Api.sent_pairs.
  induction (filter (fun kv => Api.present (snd kv)) f) as [ | [k v] r IH].
  - reflexivity.
  - cbn [map flat_map fst snd]. rewrite IH.
    unfold URLSearchParams.encode_pair. cbn [fst snd].
    rewrite (encode_unreserved _ (key_name_unreserved k)).
    change (js "&") with [0x26]. change (js "=") with [0x3D].
    cbn [app]. now rewrite <- !app_assoc.
Qed.

Lemma getPOIs_url_eq (page limit : number) (f : Filters.t) :
  Api.getPOIs_url page limit f
  = js "/api/v1/pois?page=" ++ number_toString page
    ++ js "&limit=" ++ number_toString limit
    ++ flat_map
         (fun kv => js "&" ++ Filters.key_name (fst kv) ++ js "="
                    ++ URLSearchParams.encode (toString (snd kv)))
         (filter (fun kv => Api.present (snd kv)) f).
Proof.
  unfold Api.getPOIs_url. rewrite getPOIs_params_eq, toString_cons.
  cbn [flat_map]. rewrite sent_pairs_tail.
  unfold URLSearchParams.encode_pair. cbn [fst snd].
  rewrite !(encode_unreserved (number_toString _))
    by apply number_toString_unreserved.
  change (URLSearchParams.encode (js "page")) with (js "page").
  change (URLSearchParams.encode (js "limit")) with (js "limit").
  change (js "/api/v1/pois?page=") with (js "/api/v1/pois?" ++ js "page=").
  change (js "page=") with (js "page" ++ [0x3D]).
  change (js "&limit=") with (0x26 :: js "limit" ++ [0x3D]).
  rewrite <- !app_assoc. cbn [app]. rewrite <- !app_assoc. reflexivity.
Qed.

(** X8. The URL of the getPOIs request in closed form, for a page, a
    page size and filter values that are safe integers, NaN or not
    numbers: the path, then page and limit as decimal text, then for
    each present filter entry, in the order of the entries, the name
    of its key as it is and its value encoded.  Such numbers, and
    booleans, are sent as their own text: encoding leaves them
    unchanged. *)
Theorem getPOIs_url_closed_form :
  forall (page limit : number) (f : Filters.t),
    exact_number page = true ->
    exact_number limit = true ->
    Forall (fun kv => exact_value (snd kv) = true) (Obj.entries f) ->
    Api.getPOIs_url page limit f
    = js "/api/v1/pois?page=" ++ number_toString page
      ++ js "&limit=" ++ number_toString limit
      ++ flat_map
           (fun kv => js "&" ++ Filters.key_name (fst kv) ++ js "="
                      ++ URLSearchParams.encode (toString (snd kv)))
           (filter (fun kv => Api.present (snd kv)) f)
    /\ (forall n, exact_number n = true ->
                  URLSearchParams.encode (toString (VNumber n))
                  = toString (VNumber n))
    /\ (forall b, URLSearchParams.encode (toString (VBool b))
                  = toString (VBool b)).
Proof.
  intros page limit f _ _ _. split; [apply getPOIs_url_eq | split].
  - intros n _. apply encode_unreserved. apply number_toString_unreserved.
  - intros [ | ]; reflexivity.
Qed.

(** The URL for page 3 of the sample filters: the name with a space
    and an ampersand is encoded, the DMA code and the flag are sent as
    they read. *)
Lemma getPOIs_url_closed_form_witness :
  exact_number (Int 3) = true
  /\ exact_number (Int 20) = true
  /\ Forall (fun kv => exact_value (snd kv) = true)
            (Obj.entries Sample.mixed_filters)
  /\ Api.getPOIs_url (Int 3) (Int 20) Sample.mixed_filters
     = js "/api/v1/pois?page=3&limit=20&chain_name=Wal+mart%26Co&dma=501&is_open=false".
Proof.
  assert (Hf : Forall (fun kv => exact_value (snd kv) = true)
                      (Obj.entries Sample.mixed_filters)).
  { repeat constructor. }
  split; [reflexivity | ].
  split; [reflexivity | ].
  split; [exact Hf | ].
  destruct (getPOIs_url_closed_form (Int 3) (Int 20) Sample.mixed_filters
              eq_refl eq_refl Hf) as [Hurl _].
  rewrite Hurl. reflexivity.
Defined.

End QueryString.

(* ================================================================== *)
(** ** Page sizes                                                      *)
(* ================================================================== *)

Section PageSize.

Import Js.

Lemma digits_value_step (c : code_unit) (r : JsString) (acc v : Z) :
  digit_of c = Some v ->
  digits_value acc (c :: r) = digits_value (10 * acc + v) r.
Proof. intros H. cbn [digits_value]. now rewrite H. Qed.

Lemma digits_value_pos (d : Decimal.uint) :
  forall a : positive,
    digits_value (Z.pos a) (js (NilEmpty.string_of_uint d))
    = Z.pos (Pos.of_uint_acc d a).
Proof.
  induction d; intros a; cbn [NilEmpty.string_of_uint Pos.of_uint_acc];
    [reflexivity | ..];
    match goal with
    | |- digits_value _ (js (String ?c ?s)) = Z.pos (Pos.of_uint_acc _ ?b) =>
        change (js (String c s)) with (@cons code_unit (N_of_ascii c) (js s));
        let v := eval vm_compute in (Z.of_N (N_of_ascii c) - 48) in
        rewrite (digits_value_step (N_of_ascii c) (js s) (Z.pos a) v eq_refl);
        match goal with
        | |- digits_value ?x _ = _ =>
            replace x with (Z.pos b)
              by (rewrite ?Pos2Z.inj_add, ?Pos2Z.inj_mul; lia)
        end;
        apply IHd
    end.
Qed.

Lemma digits_value_zero (d : Decimal.uint) :
  digits_value 0 (js (NilEmpty.string_of_uint d)) = Z.of_N (Pos.of_uint d).
Proof.
  induction d; cbn [NilEmpty.string_of_uint Pos.of_uint];
    [reflexivity | ..];
    match goal with
    | |- digits_value _ (js (String ?c ?s)) = _ =>
        change (js (String c s)) with (@cons code_unit (N_of_ascii c) (js s));
        let v := eval vm_compute in (Z.of_N (N_of_ascii c) - 48) in
        rewrite (digits_value_step (N_of_ascii c) (js s) 0 v eq_refl)
    end;
    [exact IHd | ..];
    cbn [Z.of_N];
    match goal with
    | |- digits_value ?x _ = Z.pos (Pos.of_uint_acc _ ?b) =>
        change x with (Z.pos b)
    end;
    apply digits_value_pos.
Qed.

Lemma digit_is_not_space (c : code_unit) (v : Z) :
  digit_of c = Some v ->
  is_space c = false /\ N.eqb c 45 = false /\ N.eqb c 43 = false.
Proof.
  unfold digit_of. destruct (N.leb 48 c && N.leb c 57)%bool eqn:E;
    [intros _ | discriminate].
  apply Bool.andb_true_iff in E. destruct E as [L U].
  apply N.leb_le in L, U.
  repeat split.
  - apply Bool.not_true_is_false. unfold is_space.
    rewrite !Bool.orb_true_iff, !Bool.andb_true_iff, !N.leb_le, !N.eqb_eq.
    lia.
  - apply N.eqb_neq. lia.
  - apply N.eqb_neq. lia.
Qed.

Lemma parseInt10_digits (c : code_unit) (r : JsString) (v : Z) :
  digit_of c = Some v ->
  parseInt10 (c :: r) = Int (digits_value 0 (c :: r)).
Proof.
  intros H. destruct (digit_is_not_space c v H) as (S & M & P).
  unfold parseInt10. cbn [skip_spaces]. rewrite S, M, P.
  unfold parse_digits. now rewrite H.
Qed.

Lemma uint_string_digit (d : Decimal.uint) :
  d <> Decimal.Nil ->
  exists c r v, js (NilEmpty.string_of_uint d) = c :: r
                /\ digit_of c = Some v.
Proof.
  destruct d; intros H; try contradiction;
    cbn [NilEmpty.string_of_uint];
    match goal with
    | |- context [js (String ?c ?s)] =>
        exists (N_of_ascii c), (js s)
    end; eexists; (split; [reflexivity | reflexivity]).
Qed.

Lemma parse_decimal (p : positive) :
  parseInt10 (js (NilEmpty.string_of_uint (Pos.to_uint p))) = Int (Z.pos p)
  /\ parse_digits (js (NilEmpty.string_of_uint (Pos.to_uint p)))
     = Some (Z.pos p).
Proof.
  destruct (uint_string_digit (Pos.to_uint p) (Unsigned.to_uint_nonnil p))
    as (c & r & v & E & D).
  assert (V : digits_value 0 (c :: r) = Z.pos p).
  { rewrite <- E, digits_value_zero, Unsigned.of_to. reflexivity. }
  rewrite E. split.
  - rewrite (parseInt10_digits c r v D). now rewrite V.
  - unfold parse_digits. rewrite D. now rewrite V.
Qed.

Lemma nonnil_string (d : Decimal.uint) :
  d <> Decimal.Nil ->
  NilZero.string_of_uint d = NilEmpty.string_of_uint d.
Proof. destruct d; intros H; [contradiction | reflexivity ..]. Qed.

(** Parsing the decimal text of an integer gives the integer back. *)
Lemma parseInt10_Z_toString (z : Z) : parseInt10 (Z_toString z) = Int z.
Proof.
  unfold Z_toString. destruct z as [ | p | p].
  - reflexivity.
  - cbn [Z.to_int NilZero.string_of_int].
    rewrite (nonnil_string _ (Unsigned.to_uint_nonnil p)).
    apply parse_decimal.
  - cbn [Z.to_int NilZero.string_of_int].
    rewrite (nonnil_string _ (Unsigned.to_uint_nonnil p)).
    change (js (String "-" (NilEmpty.string_of_uint (Pos.to_uint p))))
      with (@cons code_unit 45%N
              (js (NilEmpty.string_of_uint (Pos.to_uint p)))).
    unfold parseInt10. cbn [skip_spaces].
    change (is_space 45%N) with false. cbn iota.
    change (N.eqb 45%N 45%N) with true. cbn iota.
    now rewrite (proj2 (parse_decimal p)).
Qed.

(** X9. Choosing a page size: when the value reported by the control
    is the decimal text of a safe integer n, as it is for the options
    10, 20, 50 and 100, the page size becomes n, the page becomes 1,
    and the listing request loaded next asks for page 1 with limit n
    and the current filters. *)
Theorem page_size_choice_is_parsed_back :
  forall (st : UI.App) (n : Z),
    isSafeInteger n = true ->
    let st' := UI.exec (App.handle (App.ChangeRowsPerPage (Z_toString n))) st in
    parseInt10 (Z_toString n) = Int n
    /\ UI.rowsPerPage (UI.dashboard st') = Int n
    /\ UI.page (UI.dashboard st') = Int 1
    /\ UI.filters (UI.dashboard st') = UI.filters (UI.dashboard st)
    /\ UI.sent Dashboard.loadPOIData st'
       = [Api.getPOIs_url (Int 1) (Int n) (UI.filters (UI.dashboard st))].
Proof.
  intros st n _ st'.
  assert (Hrows : UI.rowsPerPage (UI.dashboard st') = Int n).
  { subst st'. change (UI.rowsPerPage (UI.dashboard
      (UI.exec (App.handle (App.ChangeRowsPerPage (Z_toString n))) st)))
      with (parseInt10 (Z_toString n)).
    apply parseInt10_Z_toString. }
  split; [apply parseInt10_Z_toString | ].
  split; [exact Hrows | ].
  split; [reflexivity | ].
  split; [reflexivity | ].
  rewrite loadPOIData_sent, Hrows. reflexivity.
Qed.

(** Choosing 50 rows per page on page 7 of the closed venues. *)
Lemma page_size_choice_is_parsed_back_witness :
  isSafeInteger 50 = true
  /\ UI.rowsPerPage (UI.dashboard
       (UI.exec (App.handle (App.ChangeRowsPerPage (js "50")))
                (Sample.app_of Sample.no_server Sample.on_page_7)))
     = Int 50
  /\ UI.sent Dashboard.loadPOIData
       (UI.exec (App.handle (App.ChangeRowsPerPage (js "50")))
                (Sample.app_of Sample.no_server Sample.on_page_7))
     = [js "/api/v1/pois?page=1&limit=50&is_open=false"].
Proof.
  split; [reflexivity | ].
  destruct (page_size_choice_is_parsed_back
              (Sample.app_of Sample.no_server Sample.on_page_7) 50 eq_refl)
    as (_ & Hrows & _ & _ & Hsent).
  split; [exact Hrows | ].
  etransitivity; [exact Hsent | reflexivity].
Defined.

End PageSize.

(* ================================================================== *)
(** ** The search box and the clearing buttons                         *)
(* ================================================================== *)

Section SearchBox.

Import Js.

Lemma handleSearchChange_poiFilters (value : JsString) (st : UI.App) :
  UI.poiFilters (UI.exec (POIFilters.handleSearchChange value) st)
  = {| UI.autocompleteOptions :=
         if (2 <=? List.length value)%nat then
           match UI.autocomplete (UI.server st)
                   (Api.getAutocomplete_url value None) with
           | Some suggestions => suggestions
           | None => UI.autocompleteOptions (UI.poiFilters st)
           end
         else [];
       UI.searchValue := value |}.
Proof.
  unfold UI.exec, POIFilters.handleSearchChange.
  destruct (2 <=? List.length value)%nat.
  - unfold UI.bind, Api.getAutocomplete, UI.http_get. simpl.
    now destruct (UI.autocomplete (UI.server st) _).
  - reflexivity.
Qed.

Lemma handleSearchChange_analytics (value : JsString) (st : UI.App) :
  UI.analytics (UI.exec (POIFilters.handleSearchChange value) st)
  = UI.analytics st.
Proof.
  unfold UI.exec, POIFilters.handleSearchChange.
  destruct (2 <=? List.length value)%nat.
  - unfold UI.bind, Api.getAutocomplete, UI.http_get. simpl.
    now destruct (UI.autocomplete (UI.server st) _).
  - reflexivity.
Qed.

(** X10. Typing in the search box never touches the Dashboard: the
    filters, the page, the table data and the summary stay as they
    are, so nothing is reloaded until the search is submitted.  The box
    shows what was typed; for an input of two code units or more, the
    suggestions become the answer of the autocomplete request when it
    succeeds and stay as they were when it fails. *)
Theorem typing_changes_only_the_search_box :
  forall (value : JsString) (st : UI.App),
    let st' := UI.exec (POIFilters.handleSearchChange value) st in
    let answer := UI.autocomplete (UI.server st)
                    (Api.getAutocomplete_url value None) in
    UI.dashboard st' = UI.dashboard st
    /\ UI.analytics st' = UI.analytics st
    /\ UI.searchValue (UI.poiFilters st') = value
    /\ ((2 <= List.length value)%nat ->
        forall suggestions, answer = Some suggestions ->
          UI.autocompleteOptions (UI.poiFilters st') = suggestions)
    /\ ((2 <= List.length value)%nat -> answer = None ->
        UI.autocompleteOptions (UI.poiFilters st')
        = UI.autocompleteOptions (UI.poiFilters st)).
Proof.
  intros value st st' answer. subst st' answer.
  rewrite handleSearchChange_dashboard, handleSearchChange_analytics,
    handleSearchChange_poiFilters.
  split; [reflexivity | ].
  split; [reflexivity | ].
  split; [reflexivity | ].
  split.
  - intros L suggestions E. apply Nat.leb_le in L.
    cbn [UI.autocompleteOptions]. now rewrite L, E.
  - intros L E. apply Nat.leb_le in L.
    cbn [UI.autocompleteOptions]. now rewrite L, E.
Qed.

Lemma typing_changes_only_the_search_box_witness :
  (2 <= List.length (js "Wa"))%nat
  /\ UI.autocompleteOptions (UI.poiFilters
       (UI.exec (POIFilters.handleSearchChange (js "Wa"))
                (App.initial Sample.suggesting_server)))
     = [js "Walmart"; js "Walgreens"]
  /\ UI.autocompleteOptions (UI.poiFilters
       (UI.exec (POIFilters.handleSearchChange (js "Wal"))
          (UI.exec (POIFilters.handleSearchChange (js "Wa"))
                   (Sample.app_of Sample.no_server Sample.on_page_7))))
     = [js "Walmart"].
Proof.
  assert (L2 : (2 <= List.length (js "Wa"))%nat) by (simpl; lia).
  assert (L3 : (2 <= List.length (js "Wal"))%nat) by (simpl; lia).
  split; [exact L2 | ].
  split.
  - destruct (typing_changes_only_the_search_box (js "Wa")
                (App.initial Sample.suggesting_server))
      as (_ & _ & _ & Hok & _).
    exact (Hok L2 _ eq_refl).
  - destruct (typing_changes_only_the_search_box (js "Wal")
                (UI.exec (POIFilters.handleSearchChange (js "Wa"))
                   (Sample.app_of Sample.no_server Sample.on_page_7)))
      as (_ & _ & _ & _ & Hfail).
    rewrite (Hfail L3 eq_refl). reflexivity.
Defined.

(** X11. Submitting the search: after typing [value] and pressing
    Search, the search filter is [value] when it is not empty and is
    removed when it is empty; every other filter is as before, the page
    is 1 and the box still shows [value].  The "Clear Search" button
    empties the box and removes the search filter. *)
Theorem search_submit_sets_the_search_filter :
  forall (value : JsString) (k : Filters.key) (st : UI.App),
    let st' := UI.exec (App.run [App.SearchInput value; App.SearchSubmit]) st in
    let cleared := UI.exec (App.handle App.ClearSearch) st in
    UI.filters (UI.dashboard st')
    = POIFilters.newFilters (UI.filters (UI.dashboard st)) Filters.search
        (VString value)
    /\ Filters.get Filters.search (UI.filters (UI.dashboard st'))
       = match value with
         | [] => VUndefined
         | _ :: _ => VString value
         end
    /\ Filters.get k (UI.filters (UI.dashboard st'))
       = (if Filters.key_eqb k Filters.search
          then Filters.get Filters.search (UI.filters (UI.dashboard st'))
          else Filters.get k (UI.filters (UI.dashboard st)))
    /\ UI.page (UI.dashboard st') = Int 1
    /\ UI.searchValue (UI.poiFilters st') = value
    /\ Filters.has Filters.search (UI.filters (UI.dashboard cleared)) = false
    /\ UI.searchValue (UI.poiFilters cleared) = js ""
    /\ UI.page (UI.dashboard cleared) = Int 1.
Proof.
  intros value k st st' cleared.
  assert (Hrun : UI.exec (App.run [App.SearchInput value; App.SearchSubmit]) st
                 = UI.exec (App.handle App.SearchSubmit)
                     (UI.exec (POIFilters.handleSearchChange value) st)).
  { unfold UI.exec, App.run, UI.bind, UI.ret.
    change (App.handle (App.SearchInput value) st)
      with (POIFilters.handleSearchChange value st).
    destruct (POIFilters.handleSearchChange value st) as [u s1]. cbn [snd].
    now destruct (App.handle App.SearchSubmit s1). }
  assert (Hf : UI.filters (UI.dashboard st')
               = POIFilters.newFilters (UI.filters (UI.dashboard st))
                   Filters.search (VString value)).
  { subst st'. rewrite Hrun.
    change (UI.filters (UI.dashboard
              (UI.exec (App.handle App.SearchSubmit)
                 (UI.exec (POIFilters.handleSearchChange value) st))))
      with (POIFilters.newFilters
              (UI.filters (UI.dashboard
                 (UI.exec (POIFilters.handleSearchChange value) st)))
              Filters.search
              (VString (UI.searchValue (UI.poiFilters
                 (UI.exec (POIFilters.handleSearchChange value) st))))).
    now rewrite handleSearchChange_dashboard, handleSearchChange_poiFilters. }
  assert (Hs : Filters.get Filters.search (UI.filters (UI.dashboard st'))
               = match value with
                 | [] => VUndefined
                 | _ :: _ => VString value
                 end).
  { rewrite Hf, get_newFilters.
    now destruct value. }
  split; [exact Hf | ].
  split; [exact Hs | ].
  split.
  { destruct (Filters.key_eqb k Filters.search) eqn:E.
    - apply key_eqb_eq in E. now subst k.
    - rewrite Hf, get_newFilters.
      now rewrite E. }
  split.
  { subst st'. rewrite Hrun. reflexivity. }
  split.
  { subst st'. rewrite Hrun.
    change (UI.searchValue (UI.poiFilters
              (UI.exec (App.handle App.SearchSubmit)
                 (UI.exec (POIFilters.handleSearchChange value) st))))
      with (UI.searchValue (UI.poiFilters
              (UI.exec (POIFilters.handleSearchChange value) st))).
    now rewrite handleSearchChange_poiFilters. }
  split; [apply has_delete | ].
  split; reflexivity.
Qed.

(** X12. "Clear All Filters" leaves the empty filter object and an
    empty search box, and resets the page to 1.  Then no filter is
    active (no badge, no chip, the button itself disabled), the summary
    request carries no parameter, and the listing request carries page 1
    and the current page size only. *)
Theorem clear_all_filters_clears_everything :
  forall (st : UI.App),
    let st' := UI.exec (App.handle App.ClearAllFilters) st in
    let f' := UI.filters (UI.dashboard st') in
    f' = Obj.empty
    /\ UI.searchValue (UI.poiFilters st') = js ""
    /\ UI.page (UI.dashboard st') = Int 1
    /\ UI.rowsPerPage (UI.dashboard st') = UI.rowsPerPage (UI.dashboard st)
    /\ POIFilters.getActiveFiltersCount f' = 0
    /\ POIFilters.showsActiveFilters f' = false
    /\ POIFilters.clearAllDisabled f' = true
    /\ POIFilters.activeFilterChips f' = []
    /\ (forall k, POIFilters.selectValue f' k = VString (js ""))
    /\ POIFilters.statusValue f' = js ""
    /\ UI.sent Dashboard.loadSummaryStats st' = [js "/api/v1/pois/summary?"]
    /\ UI.sent Dashboard.loadPOIData st'
       = [js "/api/v1/pois?page=1&limit="
          ++ number_toString (UI.rowsPerPage (UI.dashboard st))].
Proof.
  intros st st' f'.
  repeat (split; [reflexivity | ]).
  split.
  - subst st'. rewrite loadSummaryStats_sent. reflexivity.
  - subst st'. rewrite loadPOIData_sent.
    change (UI.page (UI.dashboard
              (UI.exec (App.handle App.ClearAllFilters) st))) with (Int 1).
    change (UI.filters (UI.dashboard
              (UI.exec (App.handle App.ClearAllFilters) st)))
      with (@Obj.empty Filters.key).
    change (UI.rowsPerPage (UI.dashboard
              (UI.exec (App.handle App.ClearAllFilters) st)))
      with (UI.rowsPerPage (UI.dashboard st)).
    rewrite getPOIs_url_eq.
    cbn [filter flat_map]. rewrite app_nil_r.
    change (number_toString (Int 1)) with (js "1").
    rewrite !app_assoc. reflexivity.
Qed.

End SearchBox.

(* ================================================================== *)
(** ** The pie chart                                                   *)
(* ================================================================== *)

Section Pie.

Import Js.

Lemma COLORS_NoDup : NoDup Analytics.COLORS.
Proof.
  unfold Analytics.COLORS.
  repeat (constructor; [cbn; intuition discriminate | ]). constructor.
Qed.

Lemma NoDup_firstn {A : Type} (n : nat) (l : list A) :
  NoDup l -> NoDup (firstn n l).
Proof.
  intros H. rewrite <- (firstn_skipn n l) in H.
  now apply NoDup_app_remove_r in H.
Qed.

(** X13. The pie shows the first 7 DMA rows (all of them when there are
    fewer), and its cells take the first colours of the palette in
    order: every cell has a colour, never an undefined fill, and no two
    cells share a colour. *)
Theorem pie_cells_have_distinct_colours :
  forall (dmaData : list DMADistribution.t),
    Analytics.dmaPieData dmaData = firstn 7 dmaData
    /\ List.length (Analytics.dmaPieData dmaData)
       = Nat.min 7 (List.length dmaData)
    /\ Analytics.pieCellFills dmaData
       = map Some (firstn (List.length (Analytics.dmaPieData dmaData))
                          Analytics.COLORS)
    /\ NoDup (Analytics.pieCellFills dmaData)
    /\ ~ In None (Analytics.pieCellFills dmaData).
Proof.
  intros dmaData.
  assert (Hslice : Analytics.dmaPieData dmaData = firstn 7 dmaData)
    by exact (slice_from_0 dmaData 7).
  assert (Hfills : Analytics.pieCellFills dmaData
                   = map Some (firstn (List.length (firstn 7 dmaData))
                                      Analytics.COLORS)).
  { unfold Analytics.pieCellFills.
    change (slice dmaData 0 7) with (Analytics.dmaPieData dmaData).
    rewrite Hslice.
    destruct dmaData as [ | a1 [ | a2 [ | a3 [ | a4 [ | a5 [ | a6 [ | a7 r]]]]]]];
      reflexivity. }
  split; [exact Hslice | ].
  split; [rewrite Hslice; apply length_firstn | ].
  rewrite Hslice, Hfills.
  split; [reflexivity | ].
  split.
  - apply NoDup_map_inj; [now intros a b [= ->] | ].
    apply NoDup_firstn. exact COLORS_NoDup.
  - rewrite in_map_iff. intros [c [E _]]. discriminate E.
Qed.

End Pie.

(* ================================================================== *)
(** ** What the filter controls show                                   *)
(* ================================================================== *)

Section Controls.

Import Js.

(** X14. Choosing again the value a select shows changes nothing:
    when the filter of a key holds a truthy value or is not set,
    handing the shown value [filters.key || ''] back to
    handleFilterChange leaves every key reading as before. *)
Theorem reselecting_the_shown_value_changes_nothing :
  forall (f : Filters.t) (k k' : Filters.key),
    truthy (Filters.get k f) = true \/ Filters.get k f = VUndefined ->
    Filters.get k'
      (POIFilters.newFilters f k (POIFilters.selectValue f k))
    = Filters.get k' f.
Proof.
  intros f k k' H.
  rewrite get_newFilters.
  destruct (Filters.key_eqb k' k) eqn:E; [ | reflexivity].
  apply key_eqb_eq in E. subst k'.
  unfold POIFilters.selectValue, or_else.
  destruct H as [T | U].
  - rewrite T.
    assert (P : Api.present (Filters.get k f) = true).
    { destruct (Filters.get k f) as [ | | b | n | s]; try discriminate T;
        try reflexivity.
      - destruct n; reflexivity.
      - destruct s; [discriminate T | reflexivity]. }
    now rewrite P.
  - rewrite U. reflexivity.
Qed.

Lemma reselecting_the_shown_value_changes_nothing_witness :
  truthy (Filters.get Filters.chain_name Sample.only_chain_A_filters) = true
  /\ POIFilters.selectValue Sample.only_chain_A_filters Filters.chain_name
     = VString (js "A")
  /\ Filters.get Filters.chain_name
       (POIFilters.newFilters Sample.only_chain_A_filters Filters.chain_name
          (POIFilters.selectValue Sample.only_chain_A_filters
             Filters.chain_name))
     = VString (js "A").
Proof.
  split; [reflexivity | ].
  split; [reflexivity | ].
  rewrite (reselecting_the_shown_value_changes_nothing
             Sample.only_chain_A_filters Filters.chain_name
             Filters.chain_name (or_introl eq_refl)).
  reflexivity.
Defined.

(** X15. A DMA filter on code 0 is active but shown as none: the
    filter update stores the number 0 (it is not one of the three
    absent values) and the requests carry dma=0, yet the DMA select
    shows the empty value, the "All DMAs" item, and choosing that shown
    value removes the filter. *)
Theorem dma_zero_is_sent_but_shown_as_all :
  forall (f : Filters.t) (page limit : number),
    let zero := POIFilters.newFilters f Filters.dma (VNumber (Int 0)) in
    Filters.get Filters.dma zero = VNumber (Int 0)
    /\ In (js "dma", js "0") (Api.getPOIs_params page limit zero)
    /\ In (js "dma", js "0") (Api.getSummaryStats_params zero)
    /\ POIFilters.selectValue zero Filters.dma = VString (js "")
    /\ POIFilters.selectValue zero Filters.dma
       = POIFilters.selectValue (Filters.delete Filters.dma f) Filters.dma
    /\ Filters.has Filters.dma
         (POIFilters.newFilters zero Filters.dma
            (POIFilters.selectValue zero Filters.dma)) = false.
Proof.
  intros f page limit zero.
  assert (Hget : Filters.get Filters.dma zero = VNumber (Int 0)).
  { subst zero. now rewrite get_newFilters. }
  assert (Hsent : In (js "dma", js "0") (Api.sent_pairs zero)).
  { apply in_sent_pairs. exists Filters.dma, (VNumber (Int 0)).
    repeat split. rewrite <- Hget. apply get_in. apply get_defined_has.
    rewrite Hget. discriminate. }
  assert (Hshown : POIFilters.selectValue zero Filters.dma = VString (js "")).
  { unfold POIFilters.selectValue. now rewrite Hget. }
  split; [exact Hget | ].
  split; [rewrite getPOIs_params_eq; right; right; exact Hsent | ].
  split; [rewrite getSummaryStats_params_eq; exact Hsent | ].
  split; [exact Hshown | ].
  split.
  - rewrite Hshown. unfold POIFilters.selectValue.
    rewrite get_delete. reflexivity.
  - rewrite Hshown, newFilters_cases. apply has_delete.
Qed.

(** X16. The Status select and its handler agree: when is_open is not
    set or holds a boolean, choosing the value the select shows leaves
    every key of the filters reading as before. *)
Theorem status_select_round_trip :
  forall (st : UI.App) (k : Filters.key),
    let f := UI.filters (UI.dashboard st) in
    let props := Dashboard.poiFiltersProps (UI.dashboard st) in
    Filters.get Filters.is_open f = VUndefined
    \/ (exists b, Filters.get Filters.is_open f = VBool b) ->
    Filters.get k
      (UI.filters (UI.dashboard
         (UI.exec (POIFilters.onStatusChange props
                     (POIFilters.statusValue f)) st)))
    = Filters.get k f.
Proof.
  intros st k f props H. subst props. rewrite onStatusChange_filters.
  fold f. unfold POIFilters.statusValue.
  destruct H as [U | [b B]].
  - rewrite U. cbn [strict_eq]. change (str_eqb (js "") (js "")) with true.
    cbv iota. rewrite get_newFilters.
    destruct (Filters.key_eqb k Filters.is_open) eqn:E; [ | reflexivity].
    apply key_eqb_eq in E. subst k. now rewrite U.
  - rewrite B. cbn [strict_eq toString].
    assert (Hb : (if str_eqb (if b then js "true" else js "false") (js "")
                  then POIFilters.newFilters f Filters.is_open VUndefined
                  else POIFilters.newFilters f Filters.is_open
                         (VBool (str_eqb (if b then js "true" else js "false")
                                         (js "true"))))
                 = POIFilters.newFilters f Filters.is_open (VBool b))
      by (destruct b; reflexivity).
    rewrite Hb, get_newFilters.
    destruct (Filters.key_eqb k Filters.is_open) eqn:E; [ | reflexivity].
    apply key_eqb_eq in E. subst k. now rewrite B.
Qed.

Lemma status_select_round_trip_witness :
  (exists b, Filters.get Filters.is_open
               (UI.filters Sample.on_page_7) = VBool b)
  /\ POIFilters.statusValue (UI.filters Sample.on_page_7) = js "false"
  /\ Filters.get Filters.is_open
       (UI.filters (UI.dashboard
          (UI.exec (POIFilters.onStatusChange
                      (Dashboard.poiFiltersProps Sample.on_page_7)
                      (js "false"))
                   (Sample.app_of Sample.no_server Sample.on_page_7))))
     = VBool false.
Proof.
  assert (H : exists b, Filters.get Filters.is_open
                          (UI.filters Sample.on_page_7) = VBool b)
    by (exists false; reflexivity).
  split; [exact H | ].
  split; [reflexivity | ].
  exact (status_select_round_trip
           (Sample.app_of Sample.no_server Sample.on_page_7)
           Filters.is_open (or_intror H)).
Defined.

Lemma delete_absent (k : Filters.key) (f : Filters.t) :
  ~ In k (Obj.keys f) -> Filters.delete k f = f.
Proof.
  unfold Filters.delete, Obj.keys.
  induction f as [ | [k0 v0] r IH]; simpl; intros H; [reflexivity | ].
  destruct (Filters.key_eqb k0 k) eqn:E.
  - apply key_eqb_eq in E. subst k0. exfalso. apply H. now left.
  - rewrite IH; [reflexivity | tauto].
Qed.

Lemma delete_split (k : Filters.key) (f : Filters.t) :
  Obj.wf f -> In k (Obj.keys f) ->
  exists before v after,
    f = before ++ (k, v) :: after
    /\ Filters.delete k f = before ++ after.
Proof.
  unfold Obj.wf.
  induction f as [ | [k0 v0] r IH]; intros Hwf Hin; [contradiction | ].
  inversion Hwf as [ | ? ? Hk Hr]; subst.
  destruct (Filters.key_eqb k0 k) eqn:E.
  - apply key_eqb_eq in E. subst k0.
    exists [], v0, r. split; [reflexivity | ].
    unfold Filters.delete. cbn [Obj.delete]. rewrite key_eqb_refl.
    now apply delete_absent.
  - destruct Hin as [X | Hin].
    + cbn in X. subst k0. rewrite key_eqb_refl in E. discriminate E.
    + destruct (IH Hr Hin) as (b & v & a & Ef & Ed).
      exists ((k0, v0) :: b), v, a. split.
      * cbn [app]. now rewrite <- Ef.
      * unfold Filters.delete. cbn [Obj.delete]. rewrite E.
        cbn [app]. f_equal. exact Ed.
Qed.

(** X17. Deleting the chip of an active filter removes that chip and
    nothing else: in a filter object without duplicate keys, the chips
    before and after it stay, in the same order, the count of active
    filters goes down by one, and the page is reset to 1. *)
Theorem chip_delete_removes_one_chip :
  forall (st : UI.App) (k : Filters.key),
    let f := UI.filters (UI.dashboard st) in
    let st' := UI.exec (App.handle (App.ChipDelete k)) st in
    let f' := UI.filters (UI.dashboard st') in
    Obj.wf f -> In k (Obj.keys f) ->
    (exists before v after,
        POIFilters.activeFilterChips f
        = before ++ POIFilters.chipLabel (k, v) :: after
        /\ POIFilters.activeFilterChips f' = before ++ after)
    /\ POIFilters.getActiveFiltersCount f'
       = POIFilters.getActiveFiltersCount f - 1
    /\ Filters.has k f' = false
    /\ UI.page (UI.dashboard st') = Int 1.
Proof.
  intros st k f st' f' Hwf Hin.
  assert (Hf' : f' = Filters.delete k f) by reflexivity.
  destruct (delete_split k f Hwf Hin) as (b & v & a & Ef & Ed).
  split.
  - exists (map POIFilters.chipLabel b), v, (map POIFilters.chipLabel a).
    unfold POIFilters.activeFilterChips, Obj.entries.
    rewrite Hf', Ed, Ef, !map_app. split; reflexivity.
  - split.
    + unfold POIFilters.getActiveFiltersCount, Obj.keys.
      rewrite Hf', Ed, Ef, !length_map, !length_app. cbn [List.length]. lia.
    + split; [rewrite Hf'; apply has_delete | reflexivity].
Qed.

Lemma chip_delete_removes_one_chip_witness :
  Obj.wf Sample.mixed_filters
  /\ In Filters.dma (Obj.keys Sample.mixed_filters)
  /\ POIFilters.getActiveFiltersCount
       (UI.filters (UI.dashboard
          (UI.exec (App.handle (App.ChipDelete Filters.dma))
             (Sample.app_of Sample.no_server
                {| UI.poiData := None; UI.summaryStats := None;
                   UI.filters := Sample.mixed_filters;
                   UI.page := Int 3; UI.rowsPerPage := Int 20;
                   UI.loading := false; UI.statsLoading := false;
                   UI.error := None |}))))
     = 5.
Proof.
  split; [exact mixed_filters_wf | ].
  split; [cbn; tauto | ].
  destruct (chip_delete_removes_one_chip
              (Sample.app_of Sample.no_server
                 {| UI.poiData := None; UI.summaryStats := None;
                    UI.filters := Sample.mixed_filters;
                    UI.page := Int 3; UI.rowsPerPage := Int 20;
                    UI.loading := false; UI.statsLoading := false;
                    UI.error := None |})
              Filters.dma mixed_filters_wf ltac:(cbn; tauto))
    as (_ & Hcount & _).
  rewrite Hcount. reflexivity.
Defined.

End Controls.

(* ================================================================== *)
(** ** The table view, the autocomplete request and the handlers       *)
(* ================================================================== *)

Section ViewAndRequests.

Import Js.

(** X18. What the table shows after loadPOIData ran: never the
    spinner; when the request succeeded with at least one item, the
    table of the items with the pagination control on the zero-based
    page; when it succeeded with no item (a page beyond the last one,
    or no match), the "No POI data found" box and no pagination
    control, whatever total the answer reports. *)
Theorem table_after_loading :
  forall (st : UI.App),
    let d := UI.dashboard st in
    let st' := UI.exec Dashboard.loadPOIData st in
    let shown := POITable.view (Dashboard.poiTableProps (UI.dashboard st')) in
    let answer :=
      UI.pois (UI.server st)
        (Api.getPOIs_url (UI.page d) (UI.rowsPerPage d) (UI.filters d)) in
    shown <> POITable.Spinner
    /\ (forall data, answer = Some data ->
          PaginatedPOIResponse.items data = [] -> shown = POITable.NoData)
    /\ (forall data, answer = Some data ->
          PaginatedPOIResponse.items data <> [] ->
          shown = POITable.Table (PaginatedPOIResponse.items data)
                    {| POITable.rowsPerPageOptions := [10; 20; 50; 100];
                       POITable.count := PaginatedPOIResponse.total data;
                       POITable.rowsPerPage := PaginatedPOIResponse.limit data;
                       POITable.page := PaginatedPOIResponse.page data - 1 |})
    /\ (answer = None ->
          shown = POITable.view
                    {| POITable.data := UI.poiData d;
                       POITable.loading := false;
                       POITable.onPageChange := Dashboard.handlePageChange;
                       POITable.onRowsPerPageChange :=
                         Dashboard.handleRowsPerPageChange |}).
Proof.
  intros st d st' shown answer. subst shown st' answer d.
  unfold Dashboard.poiTableProps, POITable.view.
  rewrite loadPOIData_dashboard. cbv zeta.
  destruct (UI.pois (UI.server st) _) as [data | ];
    cbn [UI.loading UI.poiData POITable.loading POITable.data].
  - split.
    + destruct (List.length (PaginatedPOIResponse.items data) =? 0)%nat;
        discriminate.
    + split; [ | split].
      * intros ? [= <-] E. now rewrite E.
      * intros ? [= <-] E.
        destruct (PaginatedPOIResponse.items data) eqn:I;
          [contradiction | reflexivity].
      * discriminate.
  - split.
    + destruct (UI.poiData (UI.dashboard st)) as [old | ];
        [ | discriminate].
      destruct (List.length (PaginatedPOIResponse.items old) =? 0)%nat;
        discriminate.
    + split; [discriminate | ]. split; [discriminate | reflexivity].
Qed.

Lemma table_after_loading_witness :
  UI.pois Sample.listing_server
    (Api.getPOIs_url (Int 7) (Int 20) Sample.closed_only)
  = Some Sample.empty_page_7
  /\ PaginatedPOIResponse.items Sample.empty_page_7 = []
  /\ POITable.view
       (Dashboard.poiTableProps
          (UI.dashboard
             (UI.exec Dashboard.loadPOIData
                (Sample.app_of Sample.listing_server Sample.on_page_7))))
     = POITable.NoData.
Proof.
  split; [reflexivity | ].
  split; [reflexivity | ].
  destruct (table_after_loading
              (Sample.app_of Sample.listing_server Sample.on_page_7))
    as (_ & Hempty & _).
  exact (Hempty Sample.empty_page_7 eq_refl eq_refl).
Defined.

(** X19. The URL of an autocomplete request in closed form: the path
    and the encoded query, followed by the encoded field only when a
    field is given and is not empty; an empty field is the same as no
    field. *)
Theorem autocomplete_url_closed_form :
  forall (query field : JsString),
    Api.getAutocomplete_url query None
    = js "/api/v1/pois/autocomplete?query=" ++ URLSearchParams.encode query
    /\ Api.getAutocomplete_url query (Some (js ""))
       = Api.getAutocomplete_url query None
    /\ (field <> js "" ->
        Api.getAutocomplete_url query (Some field)
        = js "/api/v1/pois/autocomplete?query=" ++ URLSearchParams.encode query
          ++ js "&field=" ++ URLSearchParams.encode field).
Proof.
  intros query field.
  assert (Hnone : Api.getAutocomplete_url query None
                  = js "/api/v1/pois/autocomplete?query="
                    ++ URLSearchParams.encode query).
  { unfold Api.getAutocomplete_url, URLSearchParams.new,
      URLSearchParams.append.
    cbn [app URLSearchParams.toString]. unfold URLSearchParams.encode_pair.
    cbn [fst snd].
    change (URLSearchParams.encode (js "query")) with (js "query").
    change (js "/api/v1/pois/autocomplete?query=")
      with (js "/api/v1/pois/autocomplete?" ++ js "query" ++ [61%N]).
    now rewrite <- !app_assoc. }
  split; [exact Hnone | ].
  split; [reflexivity | ].
  intros Hfield.
  unfold Api.getAutocomplete_url, URLSearchParams.new, URLSearchParams.append.
  assert (T : truthy (VString field) = true).
  { destruct field; [contradiction | reflexivity]. }
  rewrite T. cbn [app]. rewrite toString_cons. cbn [flat_map].
  unfold URLSearchParams.encode_pair. cbn [fst snd].
  change (URLSearchParams.encode (js "query")) with (js "query").
  change (URLSearchParams.encode (js "field")) with (js "field").
  change (js "/api/v1/pois/autocomplete?query=")
    with (js "/api/v1/pois/autocomplete?" ++ js "query" ++ [61%N]).
  change (js "&field=") with (38%N :: js "field" ++ [61%N]).
  rewrite app_nil_r, <- !app_assoc. cbn [app]. now rewrite <- !app_assoc.
Qed.

Lemma autocomplete_url_closed_form_witness :
  js "name" <> js ""
  /\ Api.getAutocomplete_url (js "wal mart") (Some (js "name"))
     = js "/api/v1/pois/autocomplete?query=wal+mart&field=name".
Proof.
  assert (H : js "name" <> js "") by discriminate.
  split; [exact H | ].
  rewrite (proj2 (proj2 (autocomplete_url_closed_form
                           (js "wal mart") (js "name"))) H).
  reflexivity.
Defined.

Lemma sent_nothing (st : UI.App) (requests' : list JsString) :
  requests' = UI.requests st ->
  skipn (List.length (UI.requests st)) requests' = [].
Proof.
  intros ->. rewrite <- (app_nil_r (UI.requests st)) at 2.
  apply skipn_length_app.
Qed.

(** X20. The handlers of the filter panel and of the table send no
    request of their own, except for typing in the search box: the only
    request an event handler sends is the autocomplete request for an
    input of two code units or more.  Filter, page and page-size
    changes only change the state; the listing and the summary are
    requested by the loading effects. *)
Theorem handlers_send_only_autocomplete :
  forall (ev : App.Event) (st : UI.App) (url : JsString),
    In url (UI.sent (App.handle ev) st) ->
    exists value,
      ev = App.SearchInput value
      /\ (2 <= List.length value)%nat
      /\ url = Api.getAutocomplete_url value None.
Proof.
  intros ev st url Hin.
  destruct ev as [k v | s | | | | c | k | n | s];
    try (exfalso; revert Hin; unfold UI.sent;
         rewrite sent_nothing; [now intros [] | reflexivity]).
  - exists s.
    change (UI.sent (App.handle (App.SearchInput s)) st)
      with (UI.sent (POIFilters.handleSearchChange s) st) in Hin.
    destruct (le_lt_dec 2 (List.length s)) as [L | L].
    + rewrite (handleSearchChange_long s st L) in Hin.
      destruct Hin as [<- | []]. auto.
    + rewrite (proj1 (handleSearchChange_short s st L)) in Hin.
      contradiction.
  - exfalso. revert Hin. unfold UI.sent. rewrite sent_nothing; [now intros [] | ].
    unfold UI.exec, App.handle, POIFilters.onStatusChange, strict_eq.
    destruct (str_eqb c (js "")); reflexivity.
Qed.

Lemma handlers_send_only_autocomplete_witness :
  In (js "/api/v1/pois/autocomplete?query=Wa")
     (UI.sent (App.handle (App.SearchInput (js "Wa")))
              (App.initial Sample.no_server))
  /\ exists value,
       App.SearchInput (js "Wa") = App.SearchInput value
       /\ (2 <= List.length value)%nat
       /\ js "/api/v1/pois/autocomplete?query=Wa"
          = Api.getAutocomplete_url value None.
Proof.
  assert (H : In (js "/api/v1/pois/autocomplete?query=Wa")
                 (UI.sent (App.handle (App.SearchInput (js "Wa")))
                          (App.initial Sample.no_server))).
  { left. reflexivity. }
  split; [exact H | ].
  exact (handlers_send_only_autocomplete _ _ _ H).
Defined.

End ViewAndRequests.

(* ================================================================== *)
(** ** The URLs of the requests, entry by entry                        *)
(* ================================================================== *)

Section RequestText.

Import Js.

Lemma sent_pairs_app (a b : Filters.t) :
  Api.sent_pairs (a ++ b) = Api.sent_pairs a ++ Api.sent_pairs b.
Proof. unfold Api.sent_pairs. now rewrite filter_app, map_app. Qed.

(** The parameters of a filter object, around one of its present
    entries. *)
Lemma sent_pairs_around (k : Filters.key) (v : Value)
    (before after : Filters.t) :
  Api.present v = true ->
  Api.sent_pairs (before ++ (k, v) :: after)
  = Api.sent_pairs before
    ++ (Filters.key_name k, toString v) :: Api.sent_pairs after.
Proof.
  intros P. rewrite sent_pairs_app. f_equal.
  unfold Api.sent_pairs. cbn [filter snd]. rewrite P. reflexivity.
Qed.




(** The first entry of a key that reads as a defined value. *)
Lemma get_first_entry (k : Filters.key) (v : Value) (f : Filters.t) :
  Filters.get k f = v -> v <> VUndefined ->
  exists before after,
    f = before ++ (k, v) :: after /\ Filters.has k before = false.
Proof.
  unfold Filters.get, Filters.has. intros Hget Hv.
  induction f as [ | [k0 v0] r IH]; [simpl in Hget; congruence | ].
  simpl in Hget. destruct (Filters.key_eqb k0 k) eqn:E.
  - apply key_eqb_eq in E. subst k0 v0. now exists [], r.
  - destruct (IH Hget) as (before & after & -> & Hb).
    exists ((k0, v0) :: before), after. split; [reflexivity | ].
    simpl. now rewrite E.
Qed.

Lemma present_delete_le (k : Filters.key) (f : Filters.t) :
  (List.length (filter (fun kv => Api.present (snd kv)) (Filters.delete k f))
   <= List.length (filter (fun kv => Api.present (snd kv)) f))%nat.
Proof.
  unfold Filters.delete.
  induction f as [ | [k0 v0] r IH]; [apply Nat.le_refl | ].
  cbn [Obj.delete filter snd].
  destruct (Filters.key_eqb k0 k).
  - destruct (Api.present v0); cbn [List.length]; lia.
  - cbn [filter snd]. destruct (Api.present v0); cbn [List.length]; lia.
Qed.

(** Setting a key to a present value gives more present entries than
    deleting the key. *)
Lemma present_set_longer (k : Filters.key) (v : Value) (f : Filters.t) :
  Api.present v = true ->
  (List.length (filter (fun kv => Api.present (snd kv)) (Filters.delete k f))
   < List.length (filter (fun kv => Api.present (snd kv)) (Filters.set k v f)))%nat.
Proof.
  intros P. unfold Filters.set.
  induction f as [ | [k0 v0] r IH].
  - cbn. rewrite P. cbn. lia.
  - pose proof (present_delete_le k r) as Hle.
    unfold Filters.delete in *. cbn [Obj.delete Obj.set].
    destruct (Filters.key_eqb k0 k).
    + cbn [filter snd]. rewrite P. cbn [List.length]. lia.
    + cbn [filter snd]. destruct (Api.present v0); cbn [List.length]; lia.
Qed.

(** Every parameter of a request contributes one [=] to its URL. *)
Lemma getPOIs_url_equals (page limit : number) (f : Filters.t) :
  count_occ N.eq_dec (Api.getPOIs_url page limit f) 0x3D%N
  = (2 + List.length (filter (fun kv => Api.present (snd kv)) f))%nat.
Proof.
  unfold Api.getPOIs_url. rewrite getPOIs_params_eq, url_equals.
  destruct (toString_separators (js "page", number_toString page)
              ((js "limit", number_toString limit) :: Api.sent_pairs f))
    as [_ ->].
  cbn [List.length]. unfold Api.sent_pairs. rewrite length_map.
  reflexivity.
Qed.

Lemma getSummaryStats_url_equals (f : Filters.t) :
  count_occ N.eq_dec (Api.getSummaryStats_url f) 0x3D%N
  = List.length (filter (fun kv => Api.present (snd kv)) f).
Proof.
  unfold Api.getSummaryStats_url.
  rewrite getSummaryStats_params_eq, url_equals.
  assert (Hlen : List.length (Api.sent_pairs f)
                 = List.length (filter (fun kv => Api.present (snd kv)) f)).
  { unfold Api.sent_pairs. now rewrite length_map. }
  rewrite <- Hlen. destruct (Api.sent_pairs f) as [ | nv r].
  - reflexivity.
  - destruct (toString_separators nv r) as [_ ->]. reflexivity.
Qed.

(** The text of the filter parameters, around one present entry. *)
Lemma text_around (k : Filters.key) (v : Value) (before after : Filters.t) :
  Api.present v = true ->
  flat_map
    (fun kv => js "&" ++ Filters.key_name (fst kv) ++ js "="
               ++ URLSearchParams.encode (toString (snd kv)))
    (filter (fun kv => Api.present (snd kv)) (before ++ (k, v) :: after))
  = flat_map
      (fun kv => js "&" ++ Filters.key_name (fst kv) ++ js "="
                 ++ URLSearchParams.encode (toString (snd kv)))
      (filter (fun kv => Api.present (snd kv)) before)
    ++ js "&" ++ Filters.key_name k ++ js "="
    ++ URLSearchParams.encode (toString v)
    ++ flat_map
         (fun kv => js "&" ++ Filters.key_name (fst kv) ++ js "="
                    ++ URLSearchParams.encode (toString (snd kv)))
         (filter (fun kv => Api.present (snd kv)) after).
Proof.
  intros P. rewrite filter_app, flat_map_app.
  cbn [filter snd]. rewrite P. cbn [flat_map fst snd].
  rewrite <- !app_assoc. reflexivity.
Qed.

(** The URL of the summary request as text: the path, then the filter
    parameters joined by [&], that is, each with a leading [&] and the
    first [&] dropped. *)
Lemma getSummaryStats_url_eq (f : Filters.t) :
  Api.getSummaryStats_url f
  = js "/api/v1/pois/summary?"
    ++ tl (flat_map
             (fun kv => js "&" ++ Filters.key_name (fst kv) ++ js "="
                        ++ URLSearchParams.encode (toString (snd kv)))
             (filter (fun kv => Api.present (snd kv)) f)).
Proof.
  unfold Api.getSummaryStats_url. rewrite getSummaryStats_params_eq.
  f_equal. rewrite <- sent_pairs_tail.
  destruct (Api.sent_pairs f) as [ | nv r]; [reflexivity | ].
  rewrite toString_cons. reflexivity.
Qed.

End RequestText.

(* ================================================================== *)
(** ** Absent and present filter values in the requests                *)
(* ================================================================== *)

Section FilterSerializationRequests.

Import Js.



End FilterSerializationRequests.

(* ================================================================== *)
(** ** The page index, from the event to the table                     *)
(* ================================================================== *)

Section PaginationRoundTrip.

Import Js.





End PaginationRoundTrip.

(* ================================================================== *)
(** ** Closed venues only                                              *)
(* ================================================================== *)

Section ClosedOnlyRequests.

Import Js.

(** C9. The boolean false is a present value for the serialization and
    for the filter update.  A filter object whose is_open is false
    sends is_open=false in the requests of getPOIs and getSummaryStats
    (the page, the page size and the numbers among the values being
    safe integers or NaN): the URL of the listing request is the path
    with page and limit, then the parameters of the entries before the
    flag, then the text &is_open=false, then the parameters of the
    entries after it; the URL of the summary request is its path
    followed by the same parameters without the leading &.  Updating
    is_open to false stores false, the update to undefined
    removes the key, and the requests for closed venues only and for
    no constraint differ, as parameter lists and as URLs.  The Status
    select leaves the filters without is_open exactly when the chosen
    value is the empty one, which is the branch that passes undefined;
    choosing "false" makes the next listing and summary requests those
    of the filter object with is_open set to false. *)
Theorem is_open_false_is_sent :
  forall (st : UI.App) (f : Filters.t) (page limit : number)
         (choice : JsString),
    Filters.get Filters.is_open f = VBool false ->
    exact_number page = true ->
    exact_number limit = true ->
    Forall (fun kv => exact_value (snd kv) = true) (Obj.entries f) ->
    let text_of (entries : list (Filters.key * Value)) :=
      flat_map
        (fun kv => js "&" ++ Filters.key_name (fst kv) ++ js "="
                   ++ URLSearchParams.encode (toString (snd kv)))
        (filter (fun kv => Api.present (snd kv)) entries) in
    let props := Dashboard.poiFiltersProps (UI.dashboard st) in
    let current := UI.filters (UI.dashboard st) in
    let closed := POIFilters.newFilters current Filters.is_open (VBool false) in
    let unset := POIFilters.newFilters current Filters.is_open VUndefined in
    let chosen := UI.exec (POIFilters.onStatusChange props (js "false")) st in
    Api.present (VBool false) = true
    /\ In (js "is_open", js "false") (Api.getPOIs_params page limit f)
    /\ In (js "is_open", js "false") (Api.getSummaryStats_params f)
    /\ (exists before after,
          Obj.entries f = before ++ (Filters.is_open, VBool false) :: after
          /\ Filters.has Filters.is_open before = false
          /\ UI.sent (Api.getPOIs page limit f) st
             = [js "/api/v1/pois?page=" ++ number_toString page
                ++ js "&limit=" ++ number_toString limit
                ++ text_of before ++ js "&is_open=false" ++ text_of after]
          /\ UI.sent (Api.getPOIs page limit f) st
             = [js "/api/v1/pois?"
                ++ URLSearchParams.toString
                     (Api.getPOIs_params page limit before
                      ++ (js "is_open", js "false")
                      :: Api.getSummaryStats_params after)]
          /\ UI.sent (Api.getSummaryStats f) st
             = [js "/api/v1/pois/summary?"
                ++ URLSearchParams.toString
                     (Api.getSummaryStats_params before
                      ++ (js "is_open", js "false")
                      :: Api.getSummaryStats_params after)]
          /\ UI.sent (Api.getSummaryStats f) st
             = [js "/api/v1/pois/summary?"
                ++ tl (text_of before ++ js "&is_open=false"
                       ++ text_of after)])
    /\ Filters.get Filters.is_open closed = VBool false
    /\ In (js "is_open", js "false") (Api.getSummaryStats_params closed)
    /\ Filters.has Filters.is_open unset = false
    /\ ~ In (js "is_open") (URLSearchParams.keys (Api.getSummaryStats_params unset))
    /\ Api.getSummaryStats_params closed <> Api.getSummaryStats_params unset
    /\ Api.getPOIs_params page limit closed
       <> Api.getPOIs_params page limit unset
    /\ UI.sent (Api.getSummaryStats closed) st
       <> UI.sent (Api.getSummaryStats unset) st
    /\ UI.sent (Api.getPOIs page limit closed) st
       <> UI.sent (Api.getPOIs page limit unset) st
    /\ (Filters.has Filters.is_open
          (UI.filters (UI.dashboard
             (UI.exec (POIFilters.onStatusChange props choice) st))) = false
        <-> choice = js "")
    /\ UI.filters (UI.dashboard chosen) = closed
    /\ UI.sent Dashboard.loadSummaryStats chosen
       = UI.sent (Api.getSummaryStats closed) st
    /\ UI.sent Dashboard.loadPOIData_request chosen
       = UI.sent (Api.getPOIs (Int 1) (UI.rowsPerPage (UI.dashboard st))
                   closed) st.
Proof.
  intros st f page limit choice Hf _ _ _ text_of props current closed unset
    chosen.
  assert (Hsent : forall g, Filters.get Filters.is_open g = VBool false ->
                    In (js "is_open", js "false") (Api.sent_pairs g)).
  { intros g Hg. apply in_sent_pairs.
    exists Filters.is_open, (VBool false). repeat split.
    rewrite <- Hg. apply get_in. apply get_defined_has.
    rewrite Hg. discriminate. }
  assert (Hclosed : Filters.get Filters.is_open closed = VBool false).
  { subst closed. unfold POIFilters.newFilters. simpl. apply get_set. }
  assert (Hunset : ~ In (js "is_open")
                     (URLSearchParams.keys (Api.getSummaryStats_params unset))).
  { subst unset. unfold POIFilters.newFilters, Obj.spread. simpl.
    rewrite getSummaryStats_params_eq.
    exact (names_delete Filters.is_open current). }
  assert (Hin : In (js "is_open", js "false")
                   (Api.getSummaryStats_params closed)).
  { rewrite getSummaryStats_params_eq. now apply Hsent. }
  assert (Hmore :
    (List.length (filter (fun kv => Api.present (snd kv)) unset)
     < List.length (filter (fun kv => Api.present (snd kv)) closed))%nat).
  { subst unset closed. unfold POIFilters.newFilters, Obj.spread. simpl.
    now apply present_set_longer. }
  split; [reflexivity | ].
  split; [rewrite getPOIs_params_eq; right; right; now apply Hsent | ].
  split; [rewrite getSummaryStats_params_eq; now apply Hsent | ].
  split.
  { destruct (get_first_entry Filters.is_open (VBool false) f Hf)
      as (before & after & E & Hb); [discriminate | ].
    exists before, after. unfold Obj.entries.
    split; [exact E | ].
    split; [exact Hb | ].
    split.
    { rewrite getPOIs_sent, getPOIs_url_eq, E.
      rewrite (text_around Filters.is_open (VBool false)
                 before after eq_refl).
      reflexivity. }
    split.
    { rewrite getPOIs_sent. unfold Api.getPOIs_url.
      rewrite !getPOIs_params_eq, getSummaryStats_params_eq, E.
      rewrite (sent_pairs_around Filters.is_open (VBool false)
                 before after eq_refl).
      reflexivity. }
    split.
    { rewrite getSummaryStats_sent. unfold Api.getSummaryStats_url.
      rewrite !getSummaryStats_params_eq, E.
      rewrite (sent_pairs_around Filters.is_open (VBool false)
                 before after eq_refl).
      reflexivity. }
    rewrite getSummaryStats_sent, getSummaryStats_url_eq, E.
    rewrite (text_around Filters.is_open (VBool false)
               before after eq_refl).
    reflexivity. }
  split; [exact Hclosed | ].
  split; [exact Hin | ].
  split; [subst unset; unfold POIFilters.newFilters; simpl; apply has_delete | ].
  split; [exact Hunset | ].
  split.
  { intros E. apply Hunset. rewrite <- E.
    unfold URLSearchParams.keys. apply in_map_iff.
    now exists (js "is_open", js "false"). }
  split.
  { rewrite !getPOIs_params_eq. intros E. inversion E as [E'].
    apply Hunset. rewrite getSummaryStats_params_eq, <- E'.
    rewrite <- getSummaryStats_params_eq.
    unfold URLSearchParams.keys. apply in_map_iff.
    now exists (js "is_open", js "false"). }
  split.
  { rewrite !getSummaryStats_sent. intros E.
    assert (E' : Api.getSummaryStats_url closed
                 = Api.getSummaryStats_url unset) by exact (f_equal (hd []) E).
    pose proof (getSummaryStats_url_equals closed) as Hc.
    pose proof (getSummaryStats_url_equals unset) as Hu.
    rewrite E' in Hc. rewrite Hc in Hu. lia. }
  split.
  { rewrite !getPOIs_sent. intros E.
    assert (E' : Api.getPOIs_url page limit closed
                 = Api.getPOIs_url page limit unset) by exact (f_equal (hd []) E).
    pose proof (getPOIs_url_equals page limit closed) as Hc.
    pose proof (getPOIs_url_equals page limit unset) as Hu.
    rewrite E' in Hc. rewrite Hc in Hu. lia. }
  split.
  { subst props. rewrite onStatusChange_filters.
    destruct (str_eqb choice (js "")) eqn:E.
    - apply str_eqb_eq in E. unfold POIFilters.newFilters, Obj.spread.
      split; [intros _; exact E | intros _; apply has_delete].
    - unfold POIFilters.newFilters, Obj.spread.
      change (Filters.has Filters.is_open
                (Filters.set Filters.is_open
                   (VBool (str_eqb choice (js "true")))
                   (UI.filters (UI.dashboard st))) = false
              <-> choice = js "").
      rewrite has_set. split; [discriminate | ].
      intros X. apply str_eqb_eq in X. congruence. }
  split; [reflexivity | ].
  split.
  { rewrite loadSummaryStats_sent, getSummaryStats_sent. reflexivity. }
  rewrite loadPOIData_request_sent, getPOIs_sent. reflexivity.
Qed.

(** The statement at the filter object that asks for closed venues
    only, and at the starting application when "Closed" is chosen. *)
Lemma is_open_false_is_sent_witness :
  Filters.get Filters.is_open Sample.closed_only = VBool false
  /\ Forall (fun kv => exact_value (snd kv) = true)
            (Obj.entries Sample.closed_only)
  /\ In (js "is_open", js "false")
        (Api.getPOIs_params (Int 1) (Int 20) Sample.closed_only)
  /\ UI.sent Dashboard.loadPOIData_request
       (UI.exec (POIFilters.onStatusChange
                   (Dashboard.poiFiltersProps Dashboard.initial)
                   (js "false")) Sample.app0)
     = [js "/api/v1/pois?page=1&limit=20&is_open=false"]
  /\ UI.sent Dashboard.loadSummaryStats
       (UI.exec (POIFilters.onStatusChange
                   (Dashboard.poiFiltersProps Dashboard.initial)
                   (js "false")) Sample.app0)
     = [js "/api/v1/pois/summary?is_open=false"]
  /\ Api.getSummaryStats_url Sample.closed_only
     = js "/api/v1/pois/summary?is_open=false".
Proof.
  assert (Hexact : Forall (fun kv => exact_value (snd kv) = true)
                          (Obj.entries Sample.closed_only)).
  { repeat constructor. }
  destruct (is_open_false_is_sent Sample.app0 Sample.closed_only
              (Int 1) (Int 20) (js "false") eq_refl eq_refl eq_refl Hexact)
    as (_ & Hparam & _ & _ & _ & _ & _ & _ & _ & _ & _ & _ & _ & _
        & Hsummary & Hpois).
  split; [reflexivity | ].
  split; [exact Hexact | ].
  split; [exact Hparam | ].
  split; [etransitivity; [exact Hpois | reflexivity] | ].
  split; [etransitivity; [exact Hsummary | reflexivity] | reflexivity].
Defined.

End ClosedOnlyRequests.
